(** * The audit agent of centralized-rules: a shallow embedding

    The development follows the three Python modules under
    [scripts/audit-agent]:
    - [rules_parser.py]  (module [RulesParser]): the rule catalog loader and
      the rule selector;
    - [mece_analyzer.py] (module [MECE]): the content-consistency analyzer;
    - [core.py]          (module [Core]): context detection and the
      depth-gated orchestrator.

    Python exceptions are values of [exn] carried by the [result] monad.
    Text is ASCII text ([string]); Python sets of strings are [gset string].
    What the Python runtime and its libraries decide (float arithmetic and
    formatting, the iteration order of a set, the [re] engine) is taken as an
    interface, so that every statement holds for each implementation of it. *)

From Stdlib Require Import Ascii String ZArith QArith Qround.
From stdpp Require Import base strings list gmap pretty sorting.

Local Open Scope string_scope.
Local Open Scope nat_scope.
Local Open Scope list_scope.

(** ** Exceptions and the result monad *)

Inductive exn : Type :=
  | KeyError (key : string)
  | ZeroDivisionError
  | OSError (path : string)
  | UnicodeDecodeError (path : string).

Inductive result (A : Type) : Type :=
  | Ok (a : A)
  | Raise (e : exn).

Arguments Ok {A} a.
Arguments Raise {A} e.

Global Instance result_ret : MRet result := λ A a, Ok a.

Global Instance result_bind : MBind result := λ A B k m,
  match m with
  | Ok a => k a
  | Raise e => Raise e
  end.

Global Instance result_fmap : FMap result := λ A B f m,
  match m with
  | Ok a => Ok (f a)
  | Raise e => Raise e
  end.

(** A loop that appends one result per element, [for x in xs:
    out.append(f(x))], is [mapM f xs]: the calls are made from left to right
    and the first exception ends the loop. *)

(** ** Python string methods on ASCII text *)

Module Py.

Definition is_upper (c : ascii) : bool :=
  let n := nat_of_ascii c in (65 <=? n) && (n <=? 90).

Definition lower_char (c : ascii) : ascii :=
  if is_upper c then ascii_of_nat (nat_of_ascii c + 32) else c.

(** [s.lower()] *)
Fixpoint lower (s : string) : string :=
  match s with
  | EmptyString => EmptyString
  | String c s' => String (lower_char c) (lower s')
  end.

(** [s.replace(a, b)] for one-character [a] and [b]. *)
Fixpoint replace_char (a b : ascii) (s : string) : string :=
  match s with
  | EmptyString => EmptyString
  | String c s' =>
      String (if Ascii.eqb c a then b else c) (replace_char a b s')
  end.

(** Whitespace of [str.strip()] and [str.split()]: tab, newline, vertical
    tab, form feed, carriage return, the separators 28 to 31 and space. *)
Definition is_space (c : ascii) : bool :=
  let n := nat_of_ascii c in
  ((9 <=? n) && (n <=? 13)) || ((28 <=? n) && (n <=? 32)).

Fixpoint lstrip (s : string) : string :=
  match s with
  | EmptyString => EmptyString
  | String c s' => if is_space c then lstrip s' else s
  end.

(** [s.strip()] *)
Definition strip (s : string) : string :=
  String.rev (lstrip (String.rev (lstrip s))).

(** [s.startswith(p)] *)
Definition startswith (s p : string) : bool := String.prefix p s.

(** [needle in hay] *)
Fixpoint contains (needle hay : string) : bool :=
  String.prefix needle hay ||
  match hay with
  | EmptyString => false
  | String _ hay' => contains needle hay'
  end.

(** [s.split(sep)] for a one-character separator: never an empty list. *)
Fixpoint split_on (sep : ascii) (s : string) : list string :=
  match s with
  | EmptyString => [EmptyString]
  | String c s' =>
      if Ascii.eqb c sep then EmptyString :: split_on sep s'
      else match split_on sep s' with
           | [] => [String c EmptyString]
           | w :: ws => String c w :: ws
           end
  end.

(** [sep.join(parts)] *)
Fixpoint join (sep : string) (parts : list string) : string :=
  match parts with
  | [] => EmptyString
  | [p] => p
  | p :: ps => p +:+ sep +:+ join sep ps
  end.

(** [len(s.split())]: the number of maximal runs of non-space characters. *)
Fixpoint count_words (in_word : bool) (s : string) : nat :=
  match s with
  | EmptyString => 0
  | String c s' =>
      if is_space c then count_words false s'
      else (if in_word then 0 else 1) + count_words true s'
  end.

(** Index of the last occurrence of [c], as [s.rfind(c)] ([None] for -1). *)
Fixpoint rfind (c : ascii) (s : string) : option nat :=
  match s with
  | EmptyString => None
  | String d s' =>
      match rfind c s' with
      | Some i => Some (S i)
      | None => if Ascii.eqb d c then Some 0 else None
      end
  end.

(** [s[:i]] *)
Definition take (i : nat) (s : string) : string := String.substring 0 i s.

(** [Path(p).name]: the last component that is neither empty nor a single
    dot, the empty string when there is none. *)
Definition path_name (p : string) : string :=
  let parts :=
    filter (λ part, part ≠ "" ∧ part ≠ ".") (split_on "/"%char p) in
  List.last parts "".

(** [Path(p).stem]: the name without its last suffix; a dot in first or
    last position does not start a suffix. *)
Definition path_stem (p : string) : string :=
  let name := path_name p in
  match rfind "."%char name with
  | Some i =>
      if (0 <? i) && (i <? String.length name - 1) then take i name else name
  | None => name
  end.

(** [x in xs] for a list of strings. *)
Definition in_list (x : string) (xs : list string) : bool :=
  bool_decide (x ∈ xs).

End Py.

(** ** Runtime interfaces *)

(** Python floats as the code uses them. [int_truediv a b] is [a / b] on
    integers with [b] non-zero (the check for zero is made by the caller,
    as the interpreter does before dividing); a decimal literal is the
    quotient it denotes, [0.3 = 3/10]. *)
Class PyFloat : Type := {
  float : Type;
  int_truediv : nat → nat → float;
  float_add : float → float → float;
  float_div_int : float → nat → float;
  float_mul_int : float → nat → float;
  float_gtb : float → float → bool;
  float_round2 : float → float;            (* round(x, 2) *)
  float_format1 : float → string;          (* f"{x:.1f}" *)
}.

(** The order in which a [set] of strings is iterated: some enumeration of
    its elements. *)
Class PySetOrder : Type := {
  set_iter : gset string → list string;
  set_iter_perm : ∀ s, set_iter s ≡ₚ elements s;
}.

Inductive re_flag : Type := MULTILINE | DOTALL | IGNORECASE.

Global Instance re_flag_eq_dec : EqDecision re_flag.
Proof. solve_decision. Defined.

(** The [re] module: [re_groups pattern flags s] lists, for each
    non-overlapping match of [pattern] in [s] from left to right, the text of
    its capture groups; [re_sub pattern repl flags s] is [re.sub]. *)
Class PyRegex : Type := {
  re_groups : string → list re_flag → string → list (list string);
  re_sub : string → string → list re_flag → string → string;
}.

(** [re.findall] for a pattern with exactly one group. *)
Definition re_findall1 `{PyRegex} (pattern : string) (flags : list re_flag)
    (s : string) : list string :=
  omap head (re_groups pattern flags s).

(** [re.finditer] followed by [a, b = match.groups()]. *)
Definition re_finditer2 `{PyRegex} (pattern : string) (flags : list re_flag)
    (s : string) : list (string * string) :=
  omap (λ gs, match gs with [a; b] => Some (a, b) | _ => None end)
       (re_groups pattern flags s).

(** ** rules_parser.py *)

Module RulesParser.

(** [@dataclass RuleMetadata], after [__post_init__]. *)
Record RuleMetadata : Type := {
  name : string;
  path : string;
  category : string;                 (* base, language, framework, cloud *)
  language : option string;
  framework : option string;
  cloud_provider : option string;
  topics : list string;
  maturity : list string;
  estimated_tokens : Z;
}.

(** One leaf entry of [index.json]: a JSON object, of which the loader
    reads the keys "name", "path", "file" and "estimatedTokens"; [None] is
    an absent key. *)
Record index_entry : Type := {
  entry_name : option string;
  entry_path : option string;
  entry_file : option string;
  entry_estimatedTokens : option Z;
}.

(** The object under the key "rules": "base" is an array of entries, the
    other three are objects from a sub-key to an array of entries, kept in
    the order of the document. *)
Record index_rules : Type := {
  rules_base : option (list index_entry);
  rules_languages : option (list (string * list index_entry));
  rules_frameworks : option (list (string * list index_entry));
  rules_cloud : option (list (string * list index_entry));
}.

(** The document [index.json]. *)
Record index_json : Type := {
  index_rules_key : option index_rules;
}.

(** The dictionary returned by [parse_index]. *)
Record parsed_rules : Type := {
  base_rules : list RuleMetadata;
  language_rules : list RuleMetadata;
  framework_rules : list RuleMetadata;
  cloud_rules : list RuleMetadata;
}.

Definition topic_keywords : list (string * list string) :=
  [ ("security", ["security"; "auth"; "jwt"; "oauth"]);
    ("testing", ["testing"; "test"; "pytest"; "jest"]);
    ("quality", ["quality"; "standards"; "style"]);
    ("performance", ["performance"; "optimization"; "cache"]);
    ("api", ["api"; "rest"; "graphql"; "endpoint"]);
    ("database", ["database"; "db"; "sql"; "query"]);
    ("deployment", ["deployment"; "deploy"; "ci"; "cd"]) ].

Definition _extract_topics_from_path (rule_path : string) : list string :=
  let filename := Py.path_stem rule_path in
  let filename_lower := Py.lower filename in
  (filter (λ tk, existsb (λ keyword, Py.contains keyword filename_lower)
                         tk.2 = true)
          topic_keywords).*1.

(** [rule.get("path") or rule.get("file", "")]: the empty string is falsy. *)
Definition rule_path_of (rule : index_entry) : string :=
  match entry_path rule with
  | Some p => if bool_decide (p = "") then default "" (entry_file rule) else p
  | None => default "" (entry_file rule)
  end.

(** [rule["name"]] *)
Definition rule_name_of (rule : index_entry) : result string :=
  match entry_name rule with
  | Some n => Ok n
  | None => Raise (KeyError "name")
  end.

Definition default_maturity : list string :=
  ["mvp"; "pre-production"; "production"].

(** The body shared by the four loops of [parse_index]: the category, the
    sub-key field that is set and the default token estimate differ. *)
Definition parse_rule (cat : string) (lang fw cloud : option string)
    (default_tokens : Z) (rule : index_entry) : result RuleMetadata :=
  let rule_path := rule_path_of rule in
  rule_name ← rule_name_of rule;
  mret {| name := rule_name;
          path := rule_path;
          category := cat;
          language := lang;
          framework := fw;
          cloud_provider := cloud;
          topics := _extract_topics_from_path rule_path;
          maturity := default_maturity;
          estimated_tokens :=
            default default_tokens (entry_estimatedTokens rule) |}.

(** [for key, rules in section.items(): for rule in rules: ...] *)
Definition parse_keyed (parse : string → index_entry → result RuleMetadata)
    (section : list (string * list index_entry))
  : result (list RuleMetadata) :=
  mjoin <$> mapM (λ kv, mapM (parse kv.1) kv.2) section.

Definition empty_rules : parsed_rules :=
  {| base_rules := []; language_rules := [];
     framework_rules := []; cloud_rules := [] |}.

(** [parse_index]; [index_file] is [None] when [index.json] does not
    exist. *)
Definition parse_index (index_file : option index_json)
  : result parsed_rules :=
  match index_file with
  | None => Ok empty_rules
  | Some index =>
      let rules :=
        default {| rules_base := None; rules_languages := None;
                   rules_frameworks := None; rules_cloud := None |}
                (index_rules_key index) in
      base ← mapM (parse_rule "base" None None None 800)
                  (default [] (rules_base rules));
      langs ← parse_keyed
                (λ lang, parse_rule "language" (Some lang) None None 1000)
                (default [] (rules_languages rules));
      fws ← parse_keyed
              (λ fw, parse_rule "framework" None (Some fw) None 1200)
              (default [] (rules_frameworks rules));
      clouds ← parse_keyed
                 (λ cloud, parse_rule "cloud" None None (Some cloud) 1400)
                 (default [] (rules_cloud rules));
      mret {| base_rules := base; language_rules := langs;
              framework_rules := fws; cloud_rules := clouds |}
  end.

(** One item of [selection_reasoning]. *)
Record reasoning : Type := {
  reason_rule : string;
  reason : string;
  score : nat;
}.

Record breakdown_counts : Type := {
  breakdown_base : nat;
  breakdown_language : nat;
  breakdown_framework : nat;
  breakdown_cloud : nat;
}.

Record context_echo : Type := {
  echo_languages : list string;
  echo_frameworks : list string;
  echo_cloud_providers : list string;
  echo_maturity : string;
}.

(** The dictionary returned by [generate_selection_report]. *)
Record selection_report : Type := {
  total_rules_available : nat;
  total_rules_selected : nat;
  total_estimated_tokens : Z;
  selection_efficiency : string;
  selected_rules : list RuleMetadata;
  selection_reasoning : list reasoning;
  breakdown : breakdown_counts;
  project_context : context_echo;
}.

Definition critical_base : list string :=
  ["code-quality"; "security-principles"; "git-workflow"].

Definition is_critical (rule : RuleMetadata) : bool :=
  Py.in_list (Py.path_stem (path rule)) critical_base.

(** [key in project_list], where [key] is one of the optional sub-key
    fields; [None] is a member of no list of strings. *)
Definition matches (key : option string) (project_list : list string)
  : bool :=
  match key with
  | Some k => Py.in_list k project_list
  | None => false
  end.

(** [f"{key}"] for an optional field. *)
Definition show_key (key : option string) : string := default "None" key.

(** [len([r for r in rules if r.category == cat])] *)
Definition count_category (cat : string) (rules : list RuleMetadata) : nat :=
  length (filter (λ r, category r = cat) rules).

Definition sum_tokens (rules : list RuleMetadata) : Z :=
  foldr (λ r acc, (estimated_tokens r + acc)%Z) 0%Z rules.

Definition efficiency `{PyFloat} (total_selected total_available : nat)
  : string :=
  if 0 <? total_available
  then float_format1
         (float_mul_int (int_truediv total_selected total_available) 100)
       +:+ "%"
  else "0%".

(** [generate_selection_report]. Each of the four loops appends the rules
    of one bucket that pass its test to [selected_rules], and one item per
    such rule to [selection_reasoning]. *)
Definition generate_selection_report `{PyFloat}
    (index_file : option index_json)
    (project_languages project_frameworks project_cloud : list string)
    (project_maturity : string) : result selection_report :=
  all_rules ← parse_index index_file;
  let sel_base := filter (λ r, is_critical r = true) (base_rules all_rules) in
  let sel_lang :=
    filter (λ r, matches (language r) project_languages = true)
           (language_rules all_rules) in
  let sel_fw :=
    filter (λ r, matches (framework r) project_frameworks = true)
           (framework_rules all_rules) in
  let sel_cloud :=
    filter (λ r, matches (cloud_provider r) project_cloud = true)
           (cloud_rules all_rules) in
  let selected_rules := sel_base ++ sel_lang ++ sel_fw ++ sel_cloud in
  let selection_reasoning :=
    ((λ r, {| reason_rule := name r; reason := "Critical base rule";
              score := 100 |}) <$> sel_base) ++
    ((λ r, {| reason_rule := name r;
              reason := "Matches project language: "
                        +:+ show_key (language r);
              score := 90 |}) <$> sel_lang) ++
    ((λ r, {| reason_rule := name r;
              reason := "Matches project framework: "
                        +:+ show_key (framework r);
              score := 90 |}) <$> sel_fw) ++
    ((λ r, {| reason_rule := name r;
              reason := "Matches cloud provider: "
                        +:+ show_key (cloud_provider r);
              score := 85 |}) <$> sel_cloud) in
  let total_available :=
    length (base_rules all_rules) + length (language_rules all_rules)
    + length (framework_rules all_rules) + length (cloud_rules all_rules) in
  let total_selected := length selected_rules in
  let total_tokens := sum_tokens selected_rules in
  mret {| total_rules_available := total_available;
          total_rules_selected := total_selected;
          total_estimated_tokens := total_tokens;
          selection_efficiency := efficiency total_selected total_available;
          selected_rules := selected_rules;
          selection_reasoning := selection_reasoning;
          breakdown :=
            {| breakdown_base := count_category "base" selected_rules;
               breakdown_language :=
                 count_category "language" selected_rules;
               breakdown_framework :=
                 count_category "framework" selected_rules;
               breakdown_cloud := count_category "cloud" selected_rules |};
          project_context :=
            {| echo_languages := project_languages;
               echo_frameworks := project_frameworks;
               echo_cloud_providers := project_cloud;
               echo_maturity := project_maturity |} |}.

(** The dictionary returned by [parse_agents_md]; [agents_file] is [None]
    when [AGENTS.md] does not exist. *)
Record agents_data : Type := {
  agents_rules : list (string * string);       (* title, path *)
  agents_patterns : list (string * string);    (* language, code_sample *)
  total_references : nat;
  languages_covered : list string;
}.

Definition parse_agents_md `{PyRegex} `{PySetOrder}
    (agents_file : option string) : agents_data :=
  match agents_file with
  | None =>
      {| agents_rules := []; agents_patterns := [];
         total_references := 0; languages_covered := [] |}
  | Some content =>
      let rule_refs :=
        re_finditer2 "\[([^\]]+)\]\(([^)]+\.md)\)" [] content in
      let patterns :=
        (λ lc, (lc.1, Py.strip lc.2))
          <$> re_finditer2 "```(\w+)\n(.*?)```" [DOTALL] content in
      {| agents_rules := rule_refs;
         agents_patterns := patterns;
         total_references := length rule_refs;
         languages_covered := set_iter (list_to_set patterns.*1) |}
  end.

(** Views used to state properties: the entries of an index in the order
    the loader visits them, the loaded records in the same order, and the
    selection efficiency as the exact ratio selected/available. *)
Definition index_entries (index : index_json) : list index_entry :=
  match index_rules_key index with
  | None => []
  | Some rules =>
      default [] (rules_base rules)
      ++ mjoin (default [] (rules_languages rules)).*2
      ++ mjoin (default [] (rules_frameworks rules)).*2
      ++ mjoin (default [] (rules_cloud rules)).*2
  end.

Definition loaded_rules (all_rules : parsed_rules) : list RuleMetadata :=
  base_rules all_rules ++ language_rules all_rules
  ++ framework_rules all_rules ++ cloud_rules all_rules.

Definition efficiency_ratio (r : selection_report) : Q :=
  if total_rules_available r =? 0 then 0%Q
  else (Z.of_nat (total_rules_selected r)
        # Pos.of_nat (total_rules_available r))%Q.

End RulesParser.

(** ** mece_analyzer.py *)

Module MECE.

(** [@dataclass ContentAnalysis] *)
Record ContentAnalysis : Type := {
  file_path : string;
  category : string;       (* base, language/<lang>, framework/<fw>, ... *)
  topics : gset string;
  keywords : gset string;
  headings : list string;
  code_blocks : list string;
  word_count : nat;
}.

(** [@dataclass GapReport] *)
Record GapReport : Type := {
  gap_category : string;
  missing_topics : list string;
  recommendation : string;
}.

(** [self.expected_topics] *)
Definition expected_base : list string :=
  [ "code-quality"; "security"; "testing"; "git"; "architecture";
    "refactoring"; "documentation"; "error-handling"; "logging" ].

Definition expected_language : list (string * list string) :=
  [ ("python", ["coding-standards"; "testing"; "async"; "packaging"]);
    ("typescript", ["coding-standards"; "testing"; "types"; "async"]);
    ("go", ["coding-standards"; "testing"; "concurrency"; "error-handling"]);
    ("java", ["coding-standards"; "testing"; "spring"; "design-patterns"]);
    ("rust", ["coding-standards"; "testing"; "ownership"; "error-handling"]) ].

Definition expected_framework : list (string * list string) :=
  [ ("fastapi", ["routing"; "async"; "testing"; "validation"; "auth"]);
    ("django", ["models"; "views"; "testing"; "authentication"; "admin"]);
    ("react", ["components"; "hooks"; "testing"; "state"; "routing"]);
    ("nextjs", ["routing"; "ssr"; "api-routes"; "testing"; "optimization"]) ].

Definition expected_cloud : list (string * list string) :=
  [ ("aws", ["iam"; "security"; "deployment"; "monitoring";
             "cost-optimization"]);
    ("vercel", ["deployment"; "environment"; "performance"; "preview"]) ].

(** *** The document corpus on disk *)

(** A file matched by [glob("*.md")]: its name and what reading it as
    UTF-8 text gives. *)
Record md_file : Type := {
  md_name : string;
  md_read : result string;
}.

(** An entry of [iterdir()]. *)
Record dir_entry : Type := {
  entry_name : string;
  entry_is_dir : bool;
  entry_md_files : list md_file;
}.

(** The four category directories under the repository root; [None] when
    the directory does not exist. *)
Record corpus : Type := {
  base_dir : option (list md_file);
  languages_dir : option (list dir_entry);
  frameworks_dir : option (list dir_entry);
  cloud_dir : option (list dir_entry);
}.

(** *** Profiling *)

Definition keyword_patterns : list string :=
  [ "\b(async|await|promise)\b";
    "\b(test|testing|pytest|jest)\b";
    "\b(security|authentication|authorization)\b";
    "\b(api|endpoint|route|handler)\b";
    "\b(database|query|sql|orm)\b";
    "\b(deployment|ci|cd|docker)\b";
    "\b(error|exception|logging)\b";
    "\b(performance|optimization|cache)\b" ].

Definition _extract_keywords `{PyRegex} (content : string) : gset string :=
  let content_no_code := re_sub "```.*?```" "" [DOTALL] content in
  foldl (λ keywords pattern,
           keywords ∪ list_to_set
             (Py.lower <$> re_findall1 pattern [IGNORECASE] content_no_code))
        ∅ keyword_patterns.

Definition _extract_topics `{PyRegex} (filename : string)
    (headings : list string) : gset string :=
  foldl (λ topics heading,
           let normalized := Py.strip (Py.lower heading) in
           let normalized := re_sub "[^\w\s-]" "" [] normalized in
           topics ∪ {[ normalized ]})
        {[ Py.replace_char "-" " " (Py.lower filename) ]} headings.

(** [_analyze_file]; [rel_dir] is the directory of the file relative to
    the repository root. An exception of [open] or [read] propagates. *)
Definition _analyze_file `{PyRegex} (rel_dir : string) (file : md_file)
    (category : string) : result ContentAnalysis :=
  content ← md_read file;
  let headings := re_findall1 "^#+\s+(.+)$" [MULTILINE] content in
  let code_blocks := re_findall1 "```\w*\n(.*?)```" [DOTALL] content in
  let keywords := _extract_keywords content in
  let topics := _extract_topics (Py.path_stem (md_name file)) headings in
  let word_count := Py.count_words false content in
  mret {| file_path := rel_dir +:+ "/" +:+ md_name file;
          category := category;
          topics := topics;
          keywords := keywords;
          headings := headings;
          code_blocks := code_blocks;
          word_count := word_count |}.

(** The loop over the sub-directories of one category directory. *)
Definition analyze_nested `{PyRegex} (dir_name cat : string)
    (dir : option (list dir_entry)) : result (list ContentAnalysis) :=
  match dir with
  | None => Ok []
  | Some entries =>
      mjoin <$> mapM (λ folder,
        if entry_is_dir folder
        then mapM (λ md_file,
               _analyze_file (dir_name +:+ "/" +:+ entry_name folder) md_file
                             (cat +:+ "/" +:+ entry_name folder))
             (entry_md_files folder)
        else Ok []) entries
  end.

Definition _analyze_all_files `{PyRegex} (repo : corpus)
  : result (list ContentAnalysis) :=
  base ← match base_dir repo with
         | None => Ok []
         | Some files => mapM (λ md_file, _analyze_file "base" md_file "base")
                              files
         end;
  langs ← analyze_nested "languages" "language" (languages_dir repo);
  fws ← analyze_nested "frameworks" "framework" (frameworks_dir repo);
  clouds ← analyze_nested "cloud" "cloud" (cloud_dir repo);
  mret (base ++ langs ++ fws ++ clouds).

(** The files that [_analyze_all_files] opens, in order. *)
Definition nested_files (dir : option (list dir_entry)) : list md_file :=
  mjoin (entry_md_files
           <$> filter (λ folder, entry_is_dir folder = true) (default [] dir)).

Definition corpus_files (repo : corpus) : list md_file :=
  default [] (base_dir repo) ++ nested_files (languages_dir repo)
  ++ nested_files (frameworks_dir repo) ++ nested_files (cloud_dir repo).

(** *** Overlaps *)

(** [@dataclass OverlapReport] *)
Record OverlapReport `{PyFloat} : Type := {
  file1 : string;
  file2 : string;
  overlap_score : float;
  common_keywords : list string;
  common_topics : list string;
}.

(** [a / b] on integers. *)
Definition truediv `{PyFloat} (a b : nat) : result float :=
  if b =? 0 then Raise ZeroDivisionError else Ok (int_truediv a b).

(** [sorted(list(s))] *)
Definition sorted_list `{PySetOrder} (s : gset string) : list string :=
  merge_sort String.le (set_iter s).

(** The score of a pair that passed the pre-filter:
    [(keyword_overlap + topic_overlap) / 2]. *)
Definition pair_score `{PyFloat} (analysis1 analysis2 : ContentAnalysis)
  : result float :=
  let common_keywords := keywords analysis1 ∩ keywords analysis2 in
  let common_topics := topics analysis1 ∩ topics analysis2 in
  keyword_overlap ←
    truediv (size common_keywords)
            (size (keywords analysis1) `max` size (keywords analysis2));
  topic_overlap ←
    truediv (size common_topics)
            (size (topics analysis1) `max` size (topics analysis2));
  mret (float_div_int (float_add keyword_overlap topic_overlap) 2).

(** The body of the inner loop of [_find_overlaps]: the report appended
    for the pair, if any. *)
Definition compare_pair `{PyFloat} `{PySetOrder}
    (analysis1 analysis2 : ContentAnalysis) : result (option OverlapReport) :=
  if bool_decide (category analysis1 ≠ category analysis2) then Ok None
  else
    let common_keywords := keywords analysis1 ∩ keywords analysis2 in
    let common_topics := topics analysis1 ∩ topics analysis2 in
    if (3 <? size common_keywords) || (2 <? size common_topics) then
      score ← pair_score analysis1 analysis2;
      if float_gtb score (int_truediv 3 10) then
        Ok (Some {| file1 := file_path analysis1;
                    file2 := file_path analysis2;
                    overlap_score := float_round2 score;
                    common_keywords := take 10 (sorted_list common_keywords);
                    common_topics := take 5 (sorted_list common_topics) |})
      else Ok None
    else Ok None.

(** The score reported for a pair: none when the pair is skipped or below
    the threshold, the exception when the comparison raises. *)
Definition reported_score `{PyFloat} (m : result (option OverlapReport))
  : result (option float) :=
  match m with
  | Ok (Some r) => Ok (Some (overlap_score r))
  | Ok None => Ok None
  | Raise e => Raise e
  end.

(** [for analysis2 in analyses[i+1:]], for a fixed [analysis1]. *)
Definition compare_with `{PyFloat} `{PySetOrder} (analysis1 : ContentAnalysis)
    (later : list ContentAnalysis) : result (list OverlapReport) :=
  omap id <$> mapM (compare_pair analysis1) later.

(** The two nested loops: the reports in the order they are appended. *)
Fixpoint overlap_pairs `{PyFloat} `{PySetOrder}
    (analyses : list ContentAnalysis) : result (list OverlapReport) :=
  match analyses with
  | [] => Ok []
  | analysis1 :: later =>
      here ← compare_with analysis1 later;
      rest ← overlap_pairs later;
      mret (here ++ rest)
  end.

(** Stable insertion into a list sorted by descending score. *)
Fixpoint insert_desc `{PyFloat} (r : OverlapReport) (l : list OverlapReport)
  : list OverlapReport :=
  match l with
  | [] => [r]
  | r' :: l' =>
      if float_gtb (overlap_score r) (overlap_score r')
      then r :: r' :: l'
      else r' :: insert_desc r l'
  end.

(** [overlaps.sort(key=lambda x: x.overlap_score, reverse=True)] *)
Definition sort_desc `{PyFloat} (l : list OverlapReport)
  : list OverlapReport :=
  foldl (λ sorted r, insert_desc r sorted) [] l.

Definition _find_overlaps `{PyFloat} `{PySetOrder}
    (analyses : list ContentAnalysis) : result (list OverlapReport) :=
  overlaps ← overlap_pairs analyses;
  mret (sort_desc overlaps).

(** *** Gaps *)

(** [set().update(a.topics for a in analyses)] *)
Definition union_topics (analyses : list ContentAnalysis) : gset string :=
  foldl (λ acc analysis, acc ∪ topics analysis) ∅ analyses.

(** [expected.replace('-', ' ') in ' '.join(topics)] *)
Definition topic_found `{PySetOrder} (expected : string)
    (topics : gset string) : bool :=
  Py.contains (Py.replace_char "-" " " expected)
              (Py.join " " (set_iter topics)).

(** The [defaultdict(list)] filled by the loop over [analyses]: the
    documents of each language, in order. The second component of the
    split exists, as the category starts with "language/". *)
Definition group_by_language (analyses : list ContentAnalysis)
  : gmap string (list ContentAnalysis) :=
  foldl (λ lang_analyses analysis,
           if Py.startswith (category analysis) "language/" then
             let lang :=
               default "" (Py.split_on "/" (category analysis) !! 1) in
             <[ lang := default [] (lang_analyses !! lang) ++ [analysis] ]>
               lang_analyses
           else lang_analyses)
        ∅ analyses.

Definition base_gaps `{PySetOrder} (analyses : list ContentAnalysis)
  : list GapReport :=
  let base_analyses := filter (λ a, category a = "base") analyses in
  let base_topics := union_topics base_analyses in
  omap (λ expected,
          if topic_found expected base_topics then None
          else Some
            {| gap_category := "base";
               missing_topics := [expected];
               recommendation :=
                 "Create base/" +:+ expected +:+ ".md to cover "
                 +:+ Py.replace_char "-" " " expected
                 +:+ " best practices" |})
       expected_base.

(** One iteration of the loop over the language table. *)
Definition language_gaps `{PySetOrder}
    (lang_analyses : gmap string (list ContentAnalysis))
    (lang : string) (expected_topics : list string) : list GapReport :=
  match lang_analyses !! lang with
  | None =>
      [ {| gap_category := "language/" +:+ lang;
           missing_topics := expected_topics;
           recommendation :=
             "Add " +:+ lang +:+ " language support with rules covering "
             +:+ Py.join ", " expected_topics |} ]
  | Some docs =>
      let lang_topics := union_topics docs in
      omap (λ expected,
              if topic_found expected lang_topics then None
              else Some
                {| gap_category := "language/" +:+ lang;
                   missing_topics := [expected];
                   recommendation :=
                     "Add languages/" +:+ lang +:+ "/" +:+ expected
                     +:+ ".md" |})
           expected_topics
  end.

Definition _find_gaps `{PySetOrder} (analyses : list ContentAnalysis)
  : list GapReport :=
  let lang_analyses := group_by_language analyses in
  base_gaps analyses ++
  mjoin ((λ le, language_gaps lang_analyses le.1 le.2)
           <$> expected_language).

(** *** Summary and score *)

Definition mece_score_value (overlaps gaps : nat) : Z :=
  let penalty := (Z.of_nat overlaps * 2 + Z.of_nat gaps * 3)%Z in
  Z.max 0 (100 - penalty).

Definition mece_label (score : Z) : string :=
  if (90 <=? score)%Z then "Excellent"
  else if (70 <=? score)%Z then "Good"
  else if (50 <=? score)%Z then "Fair"
  else "Needs Improvement".

Definition _calculate_mece_score (overlaps gaps total_files : nat)
  : string :=
  let score := mece_score_value overlaps gaps in
  pretty score +:+ "% - " +:+ mece_label score.

Record summary : Type := {
  total_files : nat;
  by_category : gmap string nat;
  high_overlap_count : nat;
  critical_gaps : nat;
  mece_score : string;
}.

Definition count_by_category (analyses : list ContentAnalysis)
  : gmap string nat :=
  foldl (λ counts analysis,
           let base_category :=
             default "" (head (Py.split_on "/" (category analysis))) in
           <[ base_category := default 0 (counts !! base_category) + 1 ]>
             counts)
        ∅ analyses.

Definition _generate_summary `{PyFloat} (analyses : list ContentAnalysis)
    (overlaps : list OverlapReport) (gaps : list GapReport) : summary :=
  {| total_files := length analyses;
     by_category := count_by_category analyses;
     high_overlap_count :=
       length (filter (λ o, float_gtb (overlap_score o) (int_truediv 1 2)
                            = true) overlaps);
     critical_gaps :=
       length (filter (λ g, gap_category g = "base") gaps);
     mece_score :=
       _calculate_mece_score (length overlaps) (length gaps)
                             (length analyses) |}.

(** The dictionary returned by [analyze]. *)
Record analysis_result `{PyFloat} : Type := {
  files_analyzed : nat;
  total_overlaps : nat;
  total_gaps : nat;
  overlap_reports : list OverlapReport;
  gap_reports : list GapReport;
  analysis_summary : summary;
}.

Definition analyze `{PyFloat} `{PySetOrder} `{PyRegex} (repo : corpus)
  : result analysis_result :=
  analyses ← _analyze_all_files repo;
  overlaps ← _find_overlaps analyses;
  let gaps := _find_gaps analyses in
  mret {| files_analyzed := length analyses;
          total_overlaps := length overlaps;
          total_gaps := length gaps;
          overlap_reports := take 10 overlaps;
          gap_reports := gaps;
          analysis_summary := _generate_summary analyses overlaps gaps |}.

End MECE.

(** ** core.py *)

Module Core.

(** [@dataclass ProjectContext] *)
Record ProjectContext : Type := {
  languages : list string;
  frameworks : list string;
  cloud_providers : list string;
  maturity : string;                 (* mvp, pre-production, production *)
  working_directory : string;
}.

(** [@dataclass AuditConfig] *)
Record AuditConfig : Type := {
  depth : string;                    (* quick, standard, full *)
  enable_citations : bool;
  enable_beads_generation : bool;
  enable_pr_suggestions : bool;
  max_tasks_per_finding : nat;
}.

(** What the agent reads below [repo_root]: the paths whose existence is
    tested, the rule index, [AGENTS.md], the four category directories and
    the names matched by [archive/*.md] ([None] without [archive]). *)
Record repository : Type := {
  repo_root : string;
  existing : gset string;
  index_file : option RulesParser.index_json;
  agents_file : option string;
  rule_corpus : MECE.corpus;
  archive_dir : option (list string);
}.

(** [(self.repo_root / p).exists()] *)
Definition path_exists (repo : repository) (p : string) : bool :=
  bool_decide (p ∈ existing repo).

Definition detect_languages (repo : repository) : list string :=
  (if path_exists repo "requirements.txt" || path_exists repo "pyproject.toml"
   then ["python"] else []) ++
  (if path_exists repo "package.json"
   then (if path_exists repo "tsconfig.json"
         then ["typescript"] else ["javascript"])
   else []) ++
  (if path_exists repo "go.mod" then ["go"] else []) ++
  (if path_exists repo "pom.xml" || path_exists repo "build.gradle"
   then ["java"] else []) ++
  (if path_exists repo "Cargo.toml" then ["rust"] else []).

Definition detect_cloud (repo : repository) : list string :=
  (if path_exists repo "terraform" then ["aws"] else []) ++
  (if path_exists repo "vercel.json" then ["vercel"] else []).

Definition detect_maturity (repo : repository) : string :=
  if path_exists repo ".github/workflows" then
    if path_exists repo "Dockerfile" then "production" else "pre-production"
  else "mvp".

Definition _detect_context (repo : repository) : ProjectContext :=
  {| languages := detect_languages repo;
     frameworks := [];
     cloud_providers := detect_cloud repo;
     maturity := detect_maturity repo;
     working_directory := repo_root repo |}.

(** The selection report extended with the key "agents_md_analysis". *)
Record rules_report : Type := {
  report : RulesParser.selection_report;
  agents_total_references : nat;
  agents_languages_covered : list string;
}.

Definition _generate_rules_report `{PyFloat} `{PySetOrder} `{PyRegex}
    (repo : repository) (context : ProjectContext) : result rules_report :=
  report ← RulesParser.generate_selection_report (index_file repo)
             (languages context) (frameworks context)
             (cloud_providers context) (maturity context);
  let agents_data := RulesParser.parse_agents_md (agents_file repo) in
  mret {| report := report;
          agents_total_references :=
            RulesParser.total_references agents_data;
          agents_languages_covered :=
            RulesParser.languages_covered agents_data |}.

Definition _create_mece_map `{PyFloat} `{PySetOrder} `{PyRegex}
    (repo : repository) : result MECE.analysis_result :=
  MECE.analyze (rule_corpus repo).

Record accuracy_report : Type := {
  files_audited : nat;
  issues_found : nat;
  status : string;
}.

Definition _run_accuracy_audit : accuracy_report :=
  {| files_audited := 0; issues_found := 0;
     status := "not_implemented_yet" |}.

Record recommendation : Type := {
  rec_file : string;
  rec_status : string;
  rec_action : string;
}.

Record disposition_report : Type := {
  total_files : nat;
  redundant : nat;
  obsolete : nat;
  unused : nat;
  active : nat;
  recommendations : list recommendation;
}.

Definition _analyze_disposition (repo : repository) : disposition_report :=
  let archive_files := default [] (archive_dir repo) in
  {| total_files := length archive_files;
     redundant := length archive_files;
     obsolete := length archive_files;
     unused := 0;
     active := 0;
     recommendations :=
       (λ f, {| rec_file := "archive/" +:+ f; rec_status := "obsolete";
                rec_action := "delete" |}) <$> take 5 archive_files |}.

(** [@dataclass AuditResult]; the last two fields are never set by
    [run]. *)
Record AuditResult `{PyFloat} : Type := {
  timestamp : string;
  context : ProjectContext;
  rules_selection_report : rules_report;
  mece_content_map : option MECE.analysis_result;
  accuracy_audit : option accuracy_report;
  file_disposition : option disposition_report;
  beads_tasks : option (list (gmap string string));
  patch_suggestions : option (gmap string string);
}.

(** [run]; [now] is [datetime.now().isoformat()]. The progress lines
    printed between the steps are not part of the result. *)
Definition run `{PyFloat} `{PySetOrder} `{PyRegex}
    (repo : repository) (config : AuditConfig) (now : string)
  : result AuditResult :=
  let context := _detect_context repo in
  rules_report ← _generate_rules_report repo context;
  mece_map ←
    (if Py.in_list (depth config) ["standard"; "full"]
     then Some <$> _create_mece_map repo
     else Ok None);
  let accuracy :=
    if bool_decide (depth config = "full") && enable_citations config
    then Some _run_accuracy_audit
    else None in
  let disposition :=
    if Py.in_list (depth config) ["standard"; "full"]
    then Some (_analyze_disposition repo)
    else None in
  mret {| timestamp := now;
          context := context;
          rules_selection_report := rules_report;
          mece_content_map := mece_map;
          accuracy_audit := accuracy;
          file_disposition := disposition;
          beads_tasks := None;
          patch_suggestions := None |}.

End Core.

(** ** A reference runtime

    Exact rational arithmetic in place of binary floating point, the
    enumeration of stdpp in place of the hash order of a set, and a
    backtracking matcher for the patterns that the code passes to [re].
    The statements below are proved for every runtime; this one runs them
    on concrete inputs. *)

Module Re.

(** Regular expressions, after parsing. [Bol] and [Eol] are the anchors
    under [MULTILINE]; a group adds its text to the captures when it
    closes. *)
Inductive regex : Type :=
  | Eps
  | Char (p : ascii → bool)
  | Seq (r1 r2 : regex)
  | Alt (r1 r2 : regex)
  | Star (greedy : bool) (r : regex)
  | Group (r : regex)
  | Bol
  | Eol
  | Boundary.

Definition newline : ascii := "010"%char.

(** [\w] on ASCII text. *)
Definition is_word (c : ascii) : bool :=
  let n := nat_of_ascii c in
  ((48 <=? n) && (n <=? 57)) || ((65 <=? n) && (n <=? 90))
  || ((97 <=? n) && (n <=? 122)) || (n =? 95).

(** A position in the subject: the character before it, the text after it
    and the groups closed so far. *)
Record state : Type := {
  before : option ascii;
  rest : string;
  captures : list string;
}.

Definition shorter (st' st : state) : bool :=
  String.length (rest st') <? String.length (rest st).

(** Iteration of [step], each round consuming at least one character. *)
Fixpoint star_loop (step : state → (state → option state) → option state)
    (greedy : bool) (fuel : nat) (st : state) (k : state → option state)
  : option state :=
  match fuel with
  | 0 => k st
  | S fuel' =>
      let more :=
        step st (λ st', if shorter st' st
                        then star_loop step greedy fuel' st' k else None) in
      if greedy
      then match more with Some out => Some out | None => k st end
      else match k st with Some out => Some out | None => more end
  end.

(** [run r st k]: the first way, in the order of a backtracking matcher, to
    match [r] at [st] so that the continuation [k] succeeds. *)
Fixpoint run (r : regex) (st : state) (k : state → option state)
  : option state :=
  match r with
  | Eps => k st
  | Char p =>
      match rest st with
      | String c s' =>
          if p c
          then k {| before := Some c; rest := s'; captures := captures st |}
          else None
      | EmptyString => None
      end
  | Seq r1 r2 => run r1 st (λ st', run r2 st' k)
  | Alt r1 r2 =>
      match run r1 st k with
      | Some out => Some out
      | None => run r2 st k
      end
  | Star greedy r' =>
      star_loop (run r') greedy (S (String.length (rest st))) st k
  | Group r' =>
      run r' st (λ st',
        k {| before := before st'; rest := rest st';
             captures :=
               captures st'
               ++ [Py.take (String.length (rest st)
                            - String.length (rest st')) (rest st)] |})
  | Bol =>
      match before st with
      | None => k st
      | Some c => if Ascii.eqb c newline then k st else None
      end
  | Eol =>
      match rest st with
      | EmptyString => k st
      | String c _ => if Ascii.eqb c newline then k st else None
      end
  | Boundary =>
      let word_before := from_option is_word false (before st) in
      let word_after :=
        match rest st with
        | String c _ => is_word c
        | EmptyString => false
        end in
      if xorb word_before word_after then k st else None
  end.

Definition match_at (r : regex) (before : option ascii) (s : string)
  : option state :=
  run r {| before := before; rest := s; captures := [] |} Some.

(** The groups of the non-overlapping matches, from left to right. *)
Fixpoint scan (r : regex) (fuel : nat) (before : option ascii) (s : string)
  : list (list string) :=
  match fuel with
  | 0 => []
  | S fuel' =>
      let skip :=
        match s with
        | String c s' => scan r fuel' (Some c) s'
        | EmptyString => []
        end in
      match match_at r before s with
      | Some st' =>
          captures st' ::
          (if String.length (rest st') <? String.length s
           then scan r fuel' (Re.before st') (rest st')
           else skip)
      | None => skip
      end
  end.

Definition findall (r : regex) (s : string) : list (list string) :=
  scan r (S (String.length s)) None s.

(** The subject with every match replaced by [repl]. *)
Fixpoint replace (r : regex) (repl : string) (fuel : nat)
    (before : option ascii) (s : string) : string :=
  match fuel with
  | 0 => s
  | S fuel' =>
      let skip :=
        match s with
        | String c s' => String c (replace r repl fuel' (Some c) s')
        | EmptyString => EmptyString
        end in
      match match_at r before s with
      | Some st' =>
          repl +:+
          (if String.length (rest st') <? String.length s
           then replace r repl fuel' (Re.before st') (rest st')
           else skip)
      | None => skip
      end
  end.

Definition sub (r : regex) (repl s : string) : string :=
  replace r repl (S (String.length s)) None s.

(** *** The patterns of the code *)

Definition any : regex := Char (λ _, true).
Definition never : regex := Char (λ _, false).
Definition plus (greedy : bool) (r : regex) : regex := Seq r (Star greedy r).
Definition chr (c : ascii) : regex := Char (Ascii.eqb c).
Definition not_chr (c : ascii) : regex := Char (λ d, negb (Ascii.eqb d c)).

(** A literal; under [IGNORECASE] when [ignore_case]. *)
Fixpoint lit (ignore_case : bool) (s : string) : regex :=
  match s with
  | EmptyString => Eps
  | String c s' =>
      Seq (Char (λ d, if ignore_case
                     then Ascii.eqb (Py.lower_char d) (Py.lower_char c)
                     else Ascii.eqb d c))
          (lit ignore_case s')
  end.

Definition fence : regex := lit false "```".

(** The words of a pattern of the form [\b(w1|w2|...)\b]. *)
Definition keyword_words (pattern : string) : option (list string) :=
  let n := String.length pattern in
  if Py.startswith pattern "\b(" && (6 <=? n)
     && bool_decide (String.substring (n - 3) 3 pattern = ")\b")
  then
    let body := String.substring 3 (n - 6) pattern in
    if forallb (λ c, is_word c || Ascii.eqb c "|")
               (list_ascii_of_string body)
    then Some (Py.split_on "|" body) else None
  else None.

Definition keyword_regex (words : list string) : regex :=
  Seq Boundary (Seq (Group (foldr (λ w r, Alt (lit true w) r) never words))
                    Boundary).

(** The parsed form of each pattern of the code, with the flags it is
    used with; [None] for any other pattern. *)
Definition compile (pattern : string) (flags : list re_flag) : option regex :=
  if bool_decide (pattern = "^#+\s+(.+)$" ∧ flags = [MULTILINE]) then
    Some (Seq Bol (Seq (plus true (chr "#"))
                       (Seq (plus true (Char Py.is_space))
                            (Seq (Group (plus true (not_chr newline))) Eol))))
  else if bool_decide (pattern = "```\w*\n(.*?)```" ∧ flags = [DOTALL]) then
    Some (Seq fence (Seq (Star true (Char is_word))
                         (Seq (chr newline)
                              (Seq (Group (Star false any)) fence))))
  else if bool_decide (pattern = "```.*?```" ∧ flags = [DOTALL]) then
    Some (Seq fence (Seq (Star false any) fence))
  else if bool_decide (pattern = "[^\w\s-]" ∧ flags = []) then
    Some (Char (λ c, negb (is_word c || Py.is_space c || Ascii.eqb c "-")))
  else if bool_decide (pattern = "\[([^\]]+)\]\(([^)]+\.md)\)"
                       ∧ flags = []) then
    Some (Seq (chr "[")
           (Seq (Group (plus true (not_chr "]")))
             (Seq (lit false "](")
               (Seq (Group (Seq (plus true (not_chr ")")) (lit false ".md")))
                    (chr ")")))))
  else if bool_decide (pattern = "```(\w+)\n(.*?)```" ∧ flags = [DOTALL]) then
    Some (Seq fence (Seq (Group (plus true (Char is_word)))
                         (Seq (chr newline)
                              (Seq (Group (Star false any)) fence))))
  else if bool_decide (flags = [IGNORECASE]) then
    keyword_regex <$> keyword_words pattern
  else None.

End Re.

Module Exact.

(** Rounding to the nearest integer, ties to even. *)
Definition round_half_even (x : Q) : Z :=
  let f := Qfloor x in
  match Qcompare (x - inject_Z f) (1 # 2) with
  | Lt => f
  | Gt => (f + 1)%Z
  | Eq => if Z.even f then f else (f + 1)%Z
  end.

Definition round2 (x : Q) : Q :=
  Qred (inject_Z (round_half_even (x * 100)) / 100).

Definition format1 (x : Q) : string :=
  let n := round_half_even (x * 10) in
  pretty (n / 10)%Z +:+ "." +:+ pretty (n mod 10)%Z.

Definition floats : PyFloat :=
  {| float := Q;
     int_truediv a b := Qred (Z.of_nat a # Pos.of_nat b);
     float_add x y := Qred (x + y);
     float_div_int x n := Qred (x / inject_Z (Z.of_nat n));
     float_mul_int x n := Qred (x * inject_Z (Z.of_nat n));
     float_gtb x y := negb (Qle_bool x y);
     float_round2 := round2;
     float_format1 := format1 |}.

Definition set_order : PySetOrder :=
  {| set_iter := elements;
     set_iter_perm := λ s, reflexivity (elements s) |}.

Definition regex : PyRegex :=
  {| re_groups := λ pattern flags s,
       match Re.compile pattern flags with
       | Some r => Re.findall r s
       | None => []
       end;
     re_sub := λ pattern repl flags s,
       match Re.compile pattern flags with
       | Some r => Re.sub r repl s
       | None => s
       end |}.

End Exact.

(** ** Sample inputs *)

Module Samples.

(** An index entry with a display name and neither "path" nor "file". *)
Definition entry_without_path : RulesParser.index_entry :=
  {| RulesParser.entry_name := Some "Code Quality";
     RulesParser.entry_path := None;
     RulesParser.entry_file := None;
     RulesParser.entry_estimatedTokens := None |}.

Definition index_without_path : RulesParser.index_json :=
  {| RulesParser.index_rules_key :=
       Some {| RulesParser.rules_base := Some [entry_without_path];
               RulesParser.rules_languages := Some [];
               RulesParser.rules_frameworks := Some [];
               RulesParser.rules_cloud := Some [] |} |}.

Definition entry (name file : string) : RulesParser.index_entry :=
  {| RulesParser.entry_name := Some name;
     RulesParser.entry_path := None;
     RulesParser.entry_file := Some file;
     RulesParser.entry_estimatedTokens := None |}.

(** A catalog with two base rules (one of them critical), two language
    rules, one framework rule and one cloud rule. *)
Definition small_index : RulesParser.index_json :=
  {| RulesParser.index_rules_key :=
       Some {| RulesParser.rules_base :=
                 Some [ entry "Code Quality" ".claude/rules/base/code-quality.md";
                        entry "Testing" ".claude/rules/base/testing.md" ];
               RulesParser.rules_languages :=
                 Some [ ("python",
                         [entry "Python Standards"
                                ".claude/rules/languages/python/standards.md"]);
                        ("go",
                         [entry "Go Standards"
                                ".claude/rules/languages/go/standards.md"]) ];
               RulesParser.rules_frameworks :=
                 Some [ ("fastapi",
                         [entry "FastAPI"
                                ".claude/rules/frameworks/fastapi/routing.md"]) ];
               RulesParser.rules_cloud :=
                 Some [ ("aws",
                         [entry "AWS IAM" ".claude/rules/cloud/aws/iam.md"]) ] |} |}.

(** The text made of the given lines. *)
Definition lines (ls : list string) : string :=
  Py.join (String Re.newline "") ls.

(** Two base documents that share the headings "Overview", "Usage" and
    "Notes" and contain none of the keyword terms, and their profiles. *)
Definition onboarding_md : MECE.md_file :=
  {| MECE.md_name := "onboarding.md";
     MECE.md_read :=
       Ok (lines [ "# Overview"; "Welcome to the team.";
                   "## Usage"; "Read the handbook first.";
                   "## Notes"; "Ask when in doubt." ]) |}.

Definition contributing_md : MECE.md_file :=
  {| MECE.md_name := "contributing.md";
     MECE.md_read :=
       Ok (lines [ "# Overview"; "Patches are welcome.";
                   "## Usage"; "Open a pull request.";
                   "## Notes"; "Be kind." ]) |}.

Definition corpus_without_keywords : MECE.corpus :=
  {| MECE.base_dir := Some [onboarding_md; contributing_md];
     MECE.languages_dir := None;
     MECE.frameworks_dir := None;
     MECE.cloud_dir := None |}.

Definition onboarding : MECE.ContentAnalysis :=
  {| MECE.file_path := "base/onboarding.md";
     MECE.category := "base";
     MECE.topics := {[ "onboarding"; "overview"; "usage"; "notes" ]};
     MECE.keywords := ∅;
     MECE.headings := ["Overview"; "Usage"; "Notes"];
     MECE.code_blocks := [];
     MECE.word_count := 18 |}.

Definition contributing : MECE.ContentAnalysis :=
  {| MECE.file_path := "base/contributing.md";
     MECE.category := "base";
     MECE.topics := {[ "contributing"; "overview"; "usage"; "notes" ]};
     MECE.keywords := ∅;
     MECE.headings := ["Overview"; "Usage"; "Notes"];
     MECE.code_blocks := [];
     MECE.word_count := 15 |}.

(** Two base documents with four shared keywords and two shared topics,
    and a Python document with the same features as the first. *)
Definition testing_doc : MECE.ContentAnalysis :=
  {| MECE.file_path := "base/testing.md";
     MECE.category := "base";
     MECE.topics := {[ "testing"; "security"; "unit tests" ]};
     MECE.keywords := {[ "test"; "testing"; "security"; "api"; "error" ]};
     MECE.headings := ["Testing"; "Security"; "Unit tests"];
     MECE.code_blocks := [];
     MECE.word_count := 40 |}.

Definition security_doc : MECE.ContentAnalysis :=
  {| MECE.file_path := "base/security.md";
     MECE.category := "base";
     MECE.topics := {[ "security"; "testing" ]};
     MECE.keywords := {[ "test"; "security"; "api"; "error" ]};
     MECE.headings := ["Testing"; "Security"];
     MECE.code_blocks := [];
     MECE.word_count := 30 |}.

Definition python_testing_doc : MECE.ContentAnalysis :=
  {| MECE.file_path := "languages/python/testing.md";
     MECE.category := "language/python";
     MECE.topics := {[ "testing"; "security"; "unit tests" ]};
     MECE.keywords := {[ "test"; "testing"; "security"; "api"; "error" ]};
     MECE.headings := ["Testing"; "Security"; "Unit tests"];
     MECE.code_blocks := [];
     MECE.word_count := 40 |}.

(** A repository without any of the four category directories. *)
Definition no_directories : MECE.corpus :=
  {| MECE.base_dir := None; MECE.languages_dir := None;
     MECE.frameworks_dir := None; MECE.cloud_dir := None |}.

(** A [base] directory of three documents, the second of which is not
    valid UTF-8. *)
Definition corpus_with_unreadable : MECE.corpus :=
  {| MECE.base_dir :=
       Some [ {| MECE.md_name := "security.md";
                 MECE.md_read := Ok "Keep secrets out of the repository." |};
              {| MECE.md_name := "broken.md";
                 MECE.md_read := Raise (UnicodeDecodeError "base/broken.md") |};
              {| MECE.md_name := "testing.md";
                 MECE.md_read := Ok "Write a check for every fix." |} ];
     MECE.languages_dir := None;
     MECE.frameworks_dir := None;
     MECE.cloud_dir := None |}.

(** A project whose root holds [requirements.txt] and nothing else. *)
Definition python_project : Core.repository :=
  {| Core.repo_root := "/work/app";
     Core.existing := {[ "requirements.txt" ]};
     Core.index_file := None;
     Core.agents_file := None;
     Core.rule_corpus := no_directories;
     Core.archive_dir := None |}.

Definition config_of_depth (depth : string) : Core.AuditConfig :=
  {| Core.depth := depth;
     Core.enable_citations := true;
     Core.enable_beads_generation := false;
     Core.enable_pr_suggestions := true;
     Core.max_tasks_per_finding := 3 |}.

(** The inputs of the repository's own tests. *)
Definition index_two_base : RulesParser.index_json :=
  {| RulesParser.index_rules_key :=
       Some {| RulesParser.rules_base :=
                 Some [ entry "Code Quality" ".claude/rules/base/code-quality.md";
                        entry "Security" ".claude/rules/base/security.md" ];
               RulesParser.rules_languages := Some [];
               RulesParser.rules_frameworks := Some [];
               RulesParser.rules_cloud := Some [] |} |}.

Definition index_one_base : RulesParser.index_json :=
  {| RulesParser.index_rules_key :=
       Some {| RulesParser.rules_base :=
                 Some [ entry "Code Quality"
                              ".claude/rules/base/code-quality.md" ];
               RulesParser.rules_languages := Some [];
               RulesParser.rules_frameworks := Some [];
               RulesParser.rules_cloud := Some [] |} |}.

Definition index_typescript : RulesParser.index_json :=
  {| RulesParser.index_rules_key :=
       Some {| RulesParser.rules_base :=
                 Some [ entry "Code Quality"
                              ".claude/rules/base/code-quality.md" ];
               RulesParser.rules_languages :=
                 Some [ ("typescript",
                         [entry "TypeScript Standards"
                            ".claude/rules/languages/typescript/standards.md"]) ];
               RulesParser.rules_frameworks := Some [];
               RulesParser.rules_cloud := Some [] |} |}.

Definition code_quality_md : MECE.md_file :=
  {| MECE.md_name := "code-quality.md";
     MECE.md_read :=
       Ok (lines [ ""; "# Code Quality"; "";
                   "Guidelines for writing quality code."; "";
                   "## Testing"; "Always write tests for your code."; "";
                   "## Security"; "Follow security best practices.";
                   "        " ]) |}.

Definition security_principles_md : MECE.md_file :=
  {| MECE.md_name := "security-principles.md";
     MECE.md_read :=
       Ok (lines [ ""; "# Security Principles"; "";
                   "Security best practices for development."; "";
                   "## Authentication";
                   "Use strong authentication mechanisms."; "";
                   "## Testing"; "Test your security implementations.";
                   "        " ]) |}.

Definition corpus_two_base : MECE.corpus :=
  {| MECE.base_dir := Some [code_quality_md; security_principles_md];
     MECE.languages_dir := None;
     MECE.frameworks_dir := None;
     MECE.cloud_dir := None |}.

Definition keyword_text : string :=
  lines [ "";
          "        This document covers async operations and testing.";
          "        We use pytest for testing and ensure good security.";
          "        " ].

Definition empty_project : Core.repository :=
  {| Core.repo_root := "/tmp/project";
     Core.existing := ∅;
     Core.index_file := None;
     Core.agents_file := None;
     Core.rule_corpus := no_directories;
     Core.archive_dir := None |}.

Definition typescript_project : Core.repository :=
  {| Core.repo_root := "/tmp/project";
     Core.existing :=
       {[ "package.json"; "tsconfig.json"; ".claude"; "base" ]};
     Core.index_file := Some index_typescript;
     Core.agents_file := None;
     Core.rule_corpus :=
       {| MECE.base_dir :=
            Some [ {| MECE.md_name := "code-quality.md";
                      MECE.md_read :=
                        Ok (lines [ "# Code Quality"; "";
                                    "Quality guidelines." ]) |} ];
          MECE.languages_dir := None;
          MECE.frameworks_dir := None;
          MECE.cloud_dir := None |};
     Core.archive_dir := None |}.

End Samples.

(** ** Further definitions *)

(** [get_all_rule_paths] of rules_parser.py, over the same four
    directories as the analyzer. It lists names and opens no file. *)
Module RulesScan.




End RulesScan.

(** Relations and views used to state the further properties. *)
Module Views.

(** The relation between an entry of the index and the record loaded
    from it. *)
Definition loaded_from (e : RulesParser.index_entry)
    (r : RulesParser.RuleMetadata) : Prop :=
  RulesParser.entry_name e = Some (RulesParser.name r) ∧
  RulesParser.path r = RulesParser.rule_path_of e ∧
  RulesParser.topics r
    = RulesParser._extract_topics_from_path (RulesParser.path r) ∧
  RulesParser.maturity r = RulesParser.default_maturity.

(** The score that [generate_selection_report] gives to a rule of a
    category. *)
Definition score_of (category : string) : nat :=
  if bool_decide (category = "base") then 100
  else if bool_decide (category = "cloud") then 85
  else 90.

(** The parts of a selection report that say what was selected. *)
Definition selection_of (r : RulesParser.selection_report) :=
  (RulesParser.total_rules_available r, RulesParser.total_rules_selected r,
   RulesParser.total_estimated_tokens r, RulesParser.selection_efficiency r,
   RulesParser.selected_rules r, RulesParser.selection_reasoning r,
   RulesParser.breakdown r).

(** The path and the category that the analyzer gives to each file of the
    corpus, in the order of the scan. *)
Definition nested_layout (dir_name cat : string)
    (dir : option (list MECE.dir_entry)) : list (string * string) :=
  match dir with
  | None => []
  | Some entries =>
      mjoin ((λ folder,
                if MECE.entry_is_dir folder
                then (λ md_file,
                        ((dir_name +:+ "/" +:+ MECE.entry_name folder)
                         +:+ "/" +:+ MECE.md_name md_file,
                         cat +:+ "/" +:+ MECE.entry_name folder))
                       <$> MECE.entry_md_files folder
                else []) <$> entries)
  end.

Definition corpus_layout (repo : MECE.corpus) : list (string * string) :=
  ((λ md_file, ("base/" +:+ MECE.md_name md_file, "base"))
     <$> default [] (MECE.base_dir repo))
  ++ nested_layout "languages" "language" (MECE.languages_dir repo)
  ++ nested_layout "frameworks" "framework" (MECE.frameworks_dir repo)
  ++ nested_layout "cloud" "cloud" (MECE.cloud_dir repo).

(** A list of reports in the order of [sort(reverse=True)]: no report is
    followed by one with a greater score. *)
Definition descending `{PyFloat} (l : list MECE.OverlapReport) : Prop :=
  Sorted (λ r r', float_gtb (MECE.overlap_score r') (MECE.overlap_score r)
                  = false) l.

(** The language of a profile, read off its category as the gap check
    does, and the profiles of one language. *)
Definition language_of (a : MECE.ContentAnalysis) : option string :=
  if Py.startswith (MECE.category a) "language/"
  then Some (default "" (Py.split_on "/" (MECE.category a) !! 1))
  else None.

Definition language_docs (analyses : list MECE.ContentAnalysis)
    (lang : string) : list MECE.ContentAnalysis :=
  filter (λ a, language_of a = Some lang) analyses.

(** The sum of the counts of [by_category]. *)
Definition total_count (counts : gmap string nat) : nat :=
  map_fold (λ _ n acc, n + acc) 0 counts.

(** The penalty of a number of overlaps and gaps. *)
Definition penalty (overlaps gaps : nat) : nat := 2 * overlaps + 3 * gaps.

(** A repository with another corpus and another [archive] directory. *)
Definition with_corpus (repo : Core.repository) (corpus : MECE.corpus)
    (archive : option (list string)) : Core.repository :=
  {| Core.repo_root := Core.repo_root repo;
     Core.existing := Core.existing repo;
     Core.index_file := Core.index_file repo;
     Core.agents_file := Core.agents_file repo;
     Core.rule_corpus := corpus;
     Core.archive_dir := archive |}.

End Views.

(** Inputs at which the further properties are instantiated. *)
Module Cases.

(** The record that the loader builds for the Python entry of
    [Samples.small_index]. *)
Definition python_rule : RulesParser.RuleMetadata :=
  {| RulesParser.name := "Python Standards";
     RulesParser.path := ".claude/rules/languages/python/standards.md";
     RulesParser.category := "language";
     RulesParser.language := Some "python";
     RulesParser.framework := None;
     RulesParser.cloud_provider := None;
     RulesParser.topics := ["quality"];
     RulesParser.maturity := ["mvp"; "pre-production"; "production"];
     RulesParser.estimated_tokens := 1000 |}.

(** An [index.json] without the key "rules". *)
Definition index_without_rules : RulesParser.index_json :=
  {| RulesParser.index_rules_key := None |}.

End Cases.

(** Gives the value that [m] evaluates to as the witness of an
    existential goal. *)
Ltac exists_value m :=
  let v := eval vm_compute in m in
  lazymatch v with Ok ?a => exists a end.

(** * Properties *)

(** ** The result monad *)

Lemma bind_Ok {A B : Type} (m : result A) (k : A → result B) (b : B) :
  m ≫= k = Ok b ↔ ∃ a, m = Ok a ∧ k a = Ok b.
Proof.
  destruct m as [a|e]; simpl; split.
  - intros Hk. by exists a.
  - by intros (a' & [= <-] & Hk).
  - discriminate.
  - by intros (a' & [=] & _).
Qed.

Lemma fmap_Ok {A B : Type} (g : A → B) (m : result A) (b : B) :
  g <$> m = Ok b ↔ ∃ a, m = Ok a ∧ b = g a.
Proof.
  destruct m as [a|e]; simpl; split.
  - intros [= <-]. by exists a.
  - by intros (a' & [= <-] & ->).
  - discriminate.
  - by intros (a' & [=] & _).
Qed.

Lemma bind_Raise {A B : Type} (m : result A) (k : A → result B) (e : exn) :
  m ≫= k = Raise e ↔ m = Raise e ∨ ∃ a, m = Ok a ∧ k a = Raise e.
Proof.
  destruct m as [a|e']; simpl; split.
  - intros Hk. right. by exists a.
  - by intros [[=]|(a' & [= <-] & Hk)].
  - intros [= <-]. by left.
  - by intros [[= <-]|(a' & [=] & _)].
Qed.

Section result_lemmas.
Context {A B : Type}.
Implicit Types (f : A → result B) (l : list A).

Lemma mapM_cons f x l :
  mapM f (x :: l) = y ← f x; k ← mapM f l; mret (y :: k).
Proof. reflexivity. Qed.

(** [mapM] returns exactly when every call returns. *)
Lemma mapM_Ok f l (l' : list B) :
  mapM f l = Ok l' ↔ Forall2 (λ x y, f x = Ok y) l l'.
Proof.
  revert l'. induction l as [|x l IH]; intros l'.
  - split.
    + intros [= <-]. constructor.
    + intros ->%Forall2_nil_inv_l. reflexivity.
  - rewrite mapM_cons. split.
    + intros (y & Hy & (k & Hk & [= <-])%bind_Ok)%bind_Ok.
      constructor; [done|]. by apply IH.
    + intros (y & k & Hy & Hk & ->)%Forall2_cons_inv_l.
      apply bind_Ok. exists y. split; [done|].
      apply bind_Ok. exists k. split; [by apply IH|done].
Qed.

Lemma mapM_total f l :
  Forall (λ x, ∃ y, f x = Ok y) l → ∃ k : list B, mapM f l = Ok k.
Proof.
  induction 1 as [|x l [y Hy] _ [k Hk]].
  - by exists [].
  - exists (y :: k). by rewrite mapM_cons, Hy, Hk.
Qed.

(** One raising call makes the whole loop raise, with the exception of
    the first call that raises. *)
Lemma mapM_Raise f l x e :
  x ∈ l → f x = Raise e →
  ∃ x' e', x' ∈ l ∧ f x' = Raise e' ∧ mapM f l = Raise e'.
Proof.
  intros Hx Hfx. induction l as [|z l IH]; [by apply elem_of_nil in Hx|].
  rewrite mapM_cons. destruct (f z) as [y|e'] eqn:Hz.
  - apply elem_of_cons in Hx as [->|Hx]; [congruence|].
    destruct (IH Hx) as (x' & e' & Hx' & Hfx' & ->).
    exists x', e'. split; [by right|done].
  - exists z, e'. split; [by left|done].
Qed.

Lemma mapM_Raise_inv f l e :
  mapM f l = Raise e → ∃ x, x ∈ l ∧ f x = Raise e.
Proof.
  induction l as [|z l IH]; [discriminate|].
  rewrite mapM_cons. intros [Hz|(y & Hy & [Hl|(k & _ & [=])]%bind_Raise)]%bind_Raise.
  - exists z. split; [by left|done].
  - destruct (IH Hl) as (x & Hx & Hfx). exists x. split; [by right|done].
Qed.

Lemma mapM_Ok_elem f l (l' : list B) x :
  mapM f l = Ok l' → x ∈ l → ∃ y, y ∈ l' ∧ f x = Ok y.
Proof.
  intros HM%mapM_Ok Hx.
  destruct (proj1 (list_elem_of_lookup _ _) Hx) as [i Hi].
  destruct (Forall2_lookup_l _ _ _ _ _ HM Hi) as (y & Hy & Hxy).
  exists y. split; [|done]. by eapply list_elem_of_lookup_2.
Qed.

Lemma mapM_Ok_elem_r f l (l' : list B) y :
  mapM f l = Ok l' → y ∈ l' → ∃ x, x ∈ l ∧ f x = Ok y.
Proof.
  intros HM%mapM_Ok Hy.
  destruct (proj1 (list_elem_of_lookup _ _) Hy) as [i Hi].
  destruct (Forall2_lookup_r _ _ _ _ _ HM Hi) as (x & Hx & Hxy).
  exists x. split; [|done]. by eapply list_elem_of_lookup_2.
Qed.

Lemma mapM_Ok_length f l (l' : list B) :
  mapM f l = Ok l' → length l' = length l.
Proof. intros HM%mapM_Ok. symmetry. by eapply Forall2_length. Qed.

End result_lemmas.


(** ** The rule catalog loader *)

Section loader.
Import RulesParser.

Lemma parse_rule_named cat lang fw cloud tokens rule n :
  entry_name rule = Some n →
  parse_rule cat lang fw cloud tokens rule =
    Ok {| name := n; path := rule_path_of rule; category := cat;
          language := lang; framework := fw; cloud_provider := cloud;
          topics := _extract_topics_from_path (rule_path_of rule);
          maturity := default_maturity;
          estimated_tokens :=
            default tokens (entry_estimatedTokens rule) |}.
Proof. intros Hn. unfold parse_rule, rule_name_of. by rewrite Hn. Qed.

Lemma parse_rule_Ok cat lang fw cloud tokens rule r :
  parse_rule cat lang fw cloud tokens rule = Ok r →
  entry_name rule = Some (name r) ∧ path r = rule_path_of rule ∧
  category r = cat ∧ topics r = _extract_topics_from_path (path r).
Proof.
  unfold parse_rule, rule_name_of.
  destruct (entry_name rule) as [n|]; [|discriminate].
  by intros [= <-].
Qed.

Lemma rule_path_of_missing rule :
  entry_path rule = None → entry_file rule = None → rule_path_of rule = "".
Proof. unfold rule_path_of. by intros -> ->. Qed.

Lemma parse_keyed_total parse section :
  Forall (λ e, ∀ key, ∃ r, parse key e = Ok r) (mjoin section.*2) →
  ∃ rs, parse_keyed parse section = Ok rs.
Proof.
  intros Hall. unfold parse_keyed.
  destruct (mapM_total (λ kv, mapM (parse kv.1) kv.2) section) as [k Hk].
  - induction section as [|[key es] section IH]; [constructor|].
    simpl in Hall. apply Forall_app in Hall as [Hes Hrest].
    constructor; [|by apply IH].
    apply mapM_total. eapply Forall_impl; [exact Hes|]. by intros e He.
  - rewrite Hk. by eexists.
Qed.

Lemma parse_keyed_elem parse section rs e :
  parse_keyed parse section = Ok rs → e ∈ mjoin section.*2 →
  ∃ key r, r ∈ rs ∧ parse key e = Ok r.
Proof.
  unfold parse_keyed. intros (rss & HM & ->)%fmap_Ok He.
  apply list_elem_of_join in He as (es & He & Hes).
  apply list_elem_of_fmap in Hes as ([key es'] & -> & Hkv).
  destruct (mapM_Ok_elem _ _ _ _ HM Hkv) as (rs' & Hrs' & Hrow).
  destruct (mapM_Ok_elem _ _ _ _ Hrow He) as (r & Hr & Hpr).
  exists key, r. split; [|done].
  apply list_elem_of_join. by exists rs'.
Qed.

Lemma parse_keyed_elem_r parse section rs r :
  parse_keyed parse section = Ok rs → r ∈ rs →
  ∃ key e, e ∈ mjoin section.*2 ∧ parse key e = Ok r.
Proof.
  unfold parse_keyed. intros (rss & HM & ->)%fmap_Ok Hr.
  apply list_elem_of_join in Hr as (rs' & Hr & Hrs').
  destruct (mapM_Ok_elem_r _ _ _ _ HM Hrs') as ([key es] & Hkv & Hrow).
  destruct (mapM_Ok_elem_r _ _ _ _ Hrow Hr) as (e & He & Hpr).
  exists key, e. split; [|done].
  apply list_elem_of_join. exists es. split; [done|].
  apply list_elem_of_fmap. by exists (key, es).
Qed.

(** What [parse_index] returns for an index file: the four loops, each
    returning. *)
Lemma parse_index_Ok index all_rules :
  parse_index (Some index) = Ok all_rules →
  ∃ rules,
    rules = default {| rules_base := None; rules_languages := None;
                       rules_frameworks := None; rules_cloud := None |}
                    (index_rules_key index) ∧
    mapM (parse_rule "base" None None None 800)
         (default [] (rules_base rules)) = Ok (base_rules all_rules) ∧
    parse_keyed (λ lang, parse_rule "language" (Some lang) None None 1000)
         (default [] (rules_languages rules)) = Ok (language_rules all_rules) ∧
    parse_keyed (λ fw, parse_rule "framework" None (Some fw) None 1200)
         (default [] (rules_frameworks rules))
      = Ok (framework_rules all_rules) ∧
    parse_keyed (λ cloud, parse_rule "cloud" None None (Some cloud) 1400)
         (default [] (rules_cloud rules)) = Ok (cloud_rules all_rules).
Proof.
  unfold parse_index.
  intros (b & Hb & (l & Hl & (f & Hf & (c & Hc & [= <-])%bind_Ok)%bind_Ok)
            %bind_Ok)%bind_Ok.
  eexists. split; [reflexivity|]. by simpl.
Qed.

Lemma index_entries_sections index :
  index_entries index =
    let rules :=
      default {| rules_base := None; rules_languages := None;
                 rules_frameworks := None; rules_cloud := None |}
              (index_rules_key index) in
    default [] (rules_base rules)
    ++ mjoin (default [] (rules_languages rules)).*2
    ++ mjoin (default [] (rules_frameworks rules)).*2
    ++ mjoin (default [] (rules_cloud rules)).*2.
Proof. unfold index_entries. by destruct (index_rules_key index). Qed.

(** The loader returns as soon as every entry has a name. *)
Lemma parse_index_total index_file :
  (∀ index, index_file = Some index →
     Forall (λ e, is_Some (entry_name e)) (index_entries index)) →
  ∃ all_rules, parse_index index_file = Ok all_rules.
Proof.
  destruct index_file as [index|]; [|by eexists].
  intros Hall. specialize (Hall index eq_refl).
  rewrite index_entries_sections in Hall. simpl in Hall.
  apply Forall_app in Hall as [Hb Hall].
  apply Forall_app in Hall as [Hl Hall].
  apply Forall_app in Hall as [Hf Hc].
  unfold parse_index. set (rules := default _ (index_rules_key index)) in *.
  assert (∀ cat lang fw cloud tokens (e : index_entry),
            is_Some (entry_name e) →
            ∃ r, parse_rule cat lang fw cloud tokens e = Ok r) as Hnamed.
  { intros cat lang fw cloud tokens e [n Hn]. eexists.
    by apply parse_rule_named. }
  destruct (mapM_total (parse_rule "base" None None None 800)
              (default [] (rules_base rules))) as [b Hb'].
  { eapply Forall_impl; [exact Hb|]. intros e He. by apply Hnamed. }
  destruct (parse_keyed_total
              (λ lang, parse_rule "language" (Some lang) None None 1000)
              (default [] (rules_languages rules))) as [l Hl'].
  { eapply Forall_impl; [exact Hl|]. intros e He key. by apply Hnamed. }
  destruct (parse_keyed_total
              (λ fw, parse_rule "framework" None (Some fw) None 1200)
              (default [] (rules_frameworks rules))) as [f Hf'].
  { eapply Forall_impl; [exact Hf|]. intros e He key. by apply Hnamed. }
  destruct (parse_keyed_total
              (λ cloud, parse_rule "cloud" None None (Some cloud) 1400)
              (default [] (rules_cloud rules))) as [c Hc'].
  { eapply Forall_impl; [exact Hc|]. intros e He key. by apply Hnamed. }
  rewrite Hb'; simpl. rewrite Hl'; simpl. rewrite Hf'; simpl.
  rewrite Hc'; simpl. by eexists.
Qed.

(** Each entry of the index is loaded as one record of the catalog. *)
Lemma parse_index_elem index all_rules e :
  parse_index (Some index) = Ok all_rules → e ∈ index_entries index →
  ∃ cat lang fw cloud tokens r,
    r ∈ loaded_rules all_rules ∧
    parse_rule cat lang fw cloud tokens e = Ok r.
Proof.
  intros (rules & -> & Hb & Hl & Hf & Hc)%parse_index_Ok.
  rewrite index_entries_sections. simpl. unfold loaded_rules.
  rewrite !elem_of_app. intros [He|[He|[He|He]]].
  - destruct (mapM_Ok_elem _ _ _ _ Hb He) as (r & Hr & Hp).
    exists "base", None, None, None, 800%Z, r.
    rewrite !elem_of_app. auto.
  - destruct (parse_keyed_elem _ _ _ _ Hl He) as (key & r & Hr & Hp).
    exists "language", (Some key), None, None, 1000%Z, r.
    rewrite !elem_of_app. auto.
  - destruct (parse_keyed_elem _ _ _ _ Hf He) as (key & r & Hr & Hp).
    exists "framework", None, (Some key), None, 1200%Z, r.
    rewrite !elem_of_app. auto.
  - destruct (parse_keyed_elem _ _ _ _ Hc He) as (key & r & Hr & Hp).
    exists "cloud", None, None, (Some key), 1400%Z, r.
    rewrite !elem_of_app. auto.
Qed.

Lemma extract_topics_empty_path : _extract_topics_from_path "" = [].
Proof. reflexivity. Qed.

End loader.

(** ** The rule selector *)

Section selector.
Import RulesParser.

Lemma filter_length_mono {A} (P Q : A → Prop)
    `{!∀ x, Decision (P x)} `{!∀ x, Decision (Q x)} (l : list A) :
  (∀ x, P x → Q x) → length (filter P l) ≤ length (filter Q l).
Proof.
  intros HPQ. induction l as [|x l IH]; [done|].
  rewrite !filter_cons.
  destruct (decide (P x)) as [HP|HP].
  - rewrite decide_True by auto. simpl. lia.
  - destruct (decide (Q x)); simpl; lia.
Qed.

Lemma matches_mono key (l l' : list string) :
  l ⊆ l' → matches key l = true → matches key l' = true.
Proof.
  unfold matches, Py.in_list. destruct key as [k|]; [|done].
  rewrite !bool_decide_eq_true. auto.
Qed.

Lemma count_category_app cat l1 l2 :
  count_category cat (l1 ++ l2)
  = count_category cat l1 + count_category cat l2.
Proof. unfold count_category. by rewrite filter_app, length_app. Qed.

Lemma count_category_same cat l :
  Forall (λ r, category r = cat) l → count_category cat l = length l.
Proof.
  unfold count_category. induction 1 as [|r l Hr _ IH]; [done|].
  rewrite filter_cons, decide_True by done. simpl. by rewrite IH.
Qed.

Lemma count_category_other cat cat' l :
  cat ≠ cat' → Forall (λ r, category r = cat) l → count_category cat' l = 0.
Proof.
  unfold count_category. intros Hne. induction 1 as [|r l Hr _ IH]; [done|].
  rewrite filter_cons, decide_False by congruence. done.
Qed.

Lemma Forall_filter {A} (P Q : A → Prop) `{!∀ x, Decision (Q x)} (l : list A) :
  Forall P l → Forall P (filter Q l).
Proof.
  rewrite !Forall_forall. intros HP x [_ Hx]%list_elem_of_filter. auto.
Qed.

(** Each bucket of the catalog holds records of its own category. *)
Lemma parse_index_categories index_file all_rules :
  parse_index index_file = Ok all_rules →
  Forall (λ r, category r = "base") (base_rules all_rules) ∧
  Forall (λ r, category r = "language") (language_rules all_rules) ∧
  Forall (λ r, category r = "framework") (framework_rules all_rules) ∧
  Forall (λ r, category r = "cloud") (cloud_rules all_rules).
Proof.
  destruct index_file as [index|].
  - intros (rules & _ & Hb & Hl & Hf & Hc)%parse_index_Ok.
    rewrite !Forall_forall. repeat split; intros r Hr.
    + destruct (mapM_Ok_elem_r _ _ _ _ Hb Hr) as (e & _ & Hp).
      by apply parse_rule_Ok in Hp as (_ & _ & Hcat & _).
    + destruct (parse_keyed_elem_r _ _ _ _ Hl Hr) as (key & e & _ & Hp).
      by apply parse_rule_Ok in Hp as (_ & _ & Hcat & _).
    + destruct (parse_keyed_elem_r _ _ _ _ Hf Hr) as (key & e & _ & Hp).
      by apply parse_rule_Ok in Hp as (_ & _ & Hcat & _).
    + destruct (parse_keyed_elem_r _ _ _ _ Hc Hr) as (key & e & _ & Hp).
      by apply parse_rule_Ok in Hp as (_ & _ & Hcat & _).
  - intros [= <-]. simpl. repeat split; constructor.
Qed.

End selector.

(** ** Claims about the loader and the selector *)

Section catalog_claims.
Import RulesParser.

(** C1, as the code has it: an index entry that has a display name and
    neither "path" nor "file" does not make [parse_index] fail. When every
    entry of the index has a name the loader returns, and each entry
    without both path keys is loaded as a record that carries the entry's
    name, the empty path and no topic. *)
Theorem parse_index_missing_path (index : index_json) :
  Forall (λ e, is_Some (entry_name e)) (index_entries index) →
  ∃ all_rules,
    parse_index (Some index) = Ok all_rules ∧
    ∀ e, e ∈ index_entries index →
         entry_path e = None → entry_file e = None →
         ∃ r, r ∈ loaded_rules all_rules ∧
              entry_name e = Some (name r) ∧ path r = "" ∧ topics r = [].
Proof.
  intros Hnamed.
  destruct (parse_index_total (Some index)) as [all_rules Hok].
  { by intros ? [= <-]. }
  exists all_rules. split; [done|]. intros e He Hpath Hfile.
  destruct (parse_index_elem _ _ _ Hok He)
    as (cat & lang & fw & cloud & tokens & r & Hr & Hp).
  exists r. split; [done|].
  apply parse_rule_Ok in Hp as (Hname & Hp & _ & Htopics).
  rewrite rule_path_of_missing in Hp by done.
  rewrite Htopics, Hp. by rewrite extract_topics_empty_path.
Qed.

Lemma parse_index_missing_path_witness :
  ∃ all_rules,
    parse_index (Some Samples.index_without_path) = Ok all_rules ∧
    ∀ e, e ∈ index_entries Samples.index_without_path →
         entry_path e = None → entry_file e = None →
         ∃ r, r ∈ loaded_rules all_rules ∧
              entry_name e = Some (name r) ∧ path r = "" ∧ topics r = [].
Proof.
  apply (parse_index_missing_path Samples.index_without_path).
  repeat constructor. by eexists.
Defined.

(** C1, as stated, fails: the entry named "Code Quality" has neither path
    key, and the loader returns a catalog whose only record has the empty
    path. *)
Lemma parse_index_missing_path_not_raised :
  parse_index (Some Samples.index_without_path) =
    Ok {| base_rules :=
            [ {| name := "Code Quality"; path := ""; category := "base";
                 language := None; framework := None; cloud_provider := None;
                 topics := [];
                 maturity := ["mvp"; "pre-production"; "production"];
                 estimated_tokens := 800 |} ];
          language_rules := []; framework_rules := []; cloud_rules := [] |}.
Proof. reflexivity. Qed.

Context `{PyFloat}.

(** C10: in every selection report the four breakdown counts add up to
    [total_rules_selected], which is at most [total_rules_available]. *)
Theorem selection_report_consistent index_file langs fws clouds m r :
  generate_selection_report index_file langs fws clouds m = Ok r →
  breakdown_base (breakdown r) + breakdown_language (breakdown r)
  + breakdown_framework (breakdown r) + breakdown_cloud (breakdown r)
    = total_rules_selected r ∧
  total_rules_selected r ≤ total_rules_available r.
Proof.
  unfold generate_selection_report.
  intros (all_rules & Hparse & [= <-])%bind_Ok. simpl.
  destruct (parse_index_categories _ _ Hparse) as (Hb & Hl & Hf & Hc).
  set (sb := filter _ (base_rules all_rules)).
  set (sl := filter _ (language_rules all_rules)).
  set (sf := filter _ (framework_rules all_rules)).
  set (sc := filter _ (cloud_rules all_rules)).
  assert (Forall (λ r, category r = "base") sb) as Hsb
    by by apply Forall_filter.
  assert (Forall (λ r, category r = "language") sl) as Hsl
    by by apply Forall_filter.
  assert (Forall (λ r, category r = "framework") sf) as Hsf
    by by apply Forall_filter.
  assert (Forall (λ r, category r = "cloud") sc) as Hsc
    by by apply Forall_filter.
  split.
  - rewrite !count_category_app, !length_app.
    rewrite (count_category_same _ _ Hsb), (count_category_same _ _ Hsl),
      (count_category_same _ _ Hsf), (count_category_same _ _ Hsc).
    rewrite (count_category_other "language" "base" sl),
      (count_category_other "framework" "base" sf),
      (count_category_other "cloud" "base" sc),
      (count_category_other "base" "language" sb),
      (count_category_other "framework" "language" sf),
      (count_category_other "cloud" "language" sc),
      (count_category_other "base" "framework" sb),
      (count_category_other "language" "framework" sl),
      (count_category_other "cloud" "framework" sc),
      (count_category_other "base" "cloud" sb),
      (count_category_other "language" "cloud" sl),
      (count_category_other "framework" "cloud" sf) by done.
    lia.
  - rewrite !length_app.
    pose proof (length_filter (λ r, is_critical r = true)
                  (base_rules all_rules)).
    pose proof (length_filter (λ r, matches (language r) langs = true)
                  (language_rules all_rules)).
    pose proof (length_filter (λ r, matches (framework r) fws = true)
                  (framework_rules all_rules)).
    pose proof (length_filter (λ r, matches (cloud_provider r) clouds = true)
                  (cloud_rules all_rules)).
    subst sb sl sf sc. lia.
Qed.

(** C8: over the same catalog, a context with more languages, frameworks
    or cloud providers selects at least as many rules, out of the same
    number of available rules, so the ratio selected/available does not
    decrease. *)
Theorem selection_monotone index_file langs langs' fws fws' clouds clouds' m r :
  langs ⊆ langs' → fws ⊆ fws' → clouds ⊆ clouds' →
  generate_selection_report index_file langs fws clouds m = Ok r →
  ∃ r', generate_selection_report index_file langs' fws' clouds' m = Ok r' ∧
        total_rules_available r' = total_rules_available r ∧
        total_rules_selected r ≤ total_rules_selected r' ∧
        (efficiency_ratio r <= efficiency_ratio r')%Q.
Proof.
  intros Hl Hf Hc. unfold generate_selection_report.
  intros (all_rules & Hparse & [= <-])%bind_Ok.
  rewrite Hparse. simpl. eexists. split; [reflexivity|]. simpl.
  assert (length (filter (λ r, matches (language r) langs = true)
                         (language_rules all_rules))
          ≤ length (filter (λ r, matches (language r) langs' = true)
                           (language_rules all_rules))) as Hlang.
  { apply filter_length_mono. intros x. by apply matches_mono. }
  assert (length (filter (λ r, matches (framework r) fws = true)
                         (framework_rules all_rules))
          ≤ length (filter (λ r, matches (framework r) fws' = true)
                           (framework_rules all_rules))) as Hfw.
  { apply filter_length_mono. intros x. by apply matches_mono. }
  assert (length (filter (λ r, matches (cloud_provider r) clouds = true)
                         (cloud_rules all_rules))
          ≤ length (filter (λ r, matches (cloud_provider r) clouds' = true)
                           (cloud_rules all_rules))) as Hcloud.
  { apply filter_length_mono. intros x. by apply matches_mono. }
  split; [done|].
  assert (∀ a b c d a' b' c' d' : nat,
            b ≤ b' → c ≤ c' → d ≤ d' → a = a' →
            a + (b + (c + d)) ≤ a' + (b' + (c' + d'))) as Hsum by lia.
  split.
  - rewrite !length_app. by apply Hsum.
  - unfold efficiency_ratio. simpl.
    destruct (_ =? 0); [apply Qle_refl|].
    unfold Qle. simpl. apply Z.mul_le_mono_nonneg_r; [lia|].
    rewrite !length_app. apply Nat2Z.inj_le. by apply Hsum.
Qed.

End catalog_claims.

Lemma selection_report_consistent_witness :
  ∃ r,
    RulesParser.generate_selection_report (H := Exact.floats)
      (Some Samples.small_index) ["python"] [] ["aws"] "mvp" = Ok r ∧
    (RulesParser.breakdown_base (RulesParser.breakdown r)
     + RulesParser.breakdown_language (RulesParser.breakdown r)
     + RulesParser.breakdown_framework (RulesParser.breakdown r)
     + RulesParser.breakdown_cloud (RulesParser.breakdown r)
       = RulesParser.total_rules_selected r ∧
     RulesParser.total_rules_selected r
       ≤ RulesParser.total_rules_available r).
Proof.
  eexists. split; [vm_compute; reflexivity|].
  apply (selection_report_consistent (H := Exact.floats)
           (Some Samples.small_index) ["python"] [] ["aws"] "mvp").
  reflexivity.
Defined.

Lemma selection_monotone_witness :
  ∃ r,
    RulesParser.generate_selection_report (H := Exact.floats)
      (Some Samples.small_index) ["python"] [] [] "mvp" = Ok r ∧
    ∃ r',
      RulesParser.generate_selection_report (H := Exact.floats)
        (Some Samples.small_index) ["python"] ["fastapi"] [] "mvp" = Ok r' ∧
      RulesParser.total_rules_available r'
        = RulesParser.total_rules_available r ∧
      RulesParser.total_rules_selected r
        ≤ RulesParser.total_rules_selected r' ∧
      (RulesParser.efficiency_ratio r <= RulesParser.efficiency_ratio r')%Q.
Proof.
  eexists. split; [vm_compute; reflexivity|].
  apply (selection_monotone (H := Exact.floats) (Some Samples.small_index)
           ["python"] ["python"] [] ["fastapi"] [] [] "mvp").
  - set_solver.
  - set_solver.
  - set_solver.
  - reflexivity.
Defined.

(** ** The content-consistency analyzer *)

Section analyzer.
Import MECE.
Context `{PyFloat} `{PySetOrder} `{PyRegex}.

Lemma set_iter_empty : set_iter ∅ = [].
Proof.
  apply Permutation_nil_r. rewrite set_iter_perm. by rewrite elements_empty.
Qed.

(** A pair of one category that passes the pre-filter on topics alone and
    has no keyword at all divides by zero. *)
Lemma compare_pair_no_keywords analysis1 analysis2 :
  category analysis1 = category analysis2 →
  keywords analysis1 = ∅ → keywords analysis2 = ∅ →
  2 < size (topics analysis1 ∩ topics analysis2) →
  compare_pair analysis1 analysis2 = Raise ZeroDivisionError.
Proof.
  intros Hcat Hk1 Hk2 Htopics. unfold compare_pair.
  rewrite bool_decide_eq_false_2 by (by intros ?).
  apply Nat.ltb_lt in Htopics. rewrite Htopics, orb_true_r.
  unfold pair_score. rewrite Hk1, Hk2. reflexivity.
Qed.

(** Short of that case the comparison of two profiles returns: a profile
    made by [_analyze_file] has at least the topic of its file name, and a
    keyword on either side makes the first divisor positive. *)
Lemma extract_topics_filename filename headings :
  Py.replace_char "-" " " (Py.lower filename)
  ∈ _extract_topics filename headings.
Proof.
  unfold _extract_topics.
  generalize ({[Py.replace_char "-" " " (Py.lower filename)]} : gset string)
    (elem_of_singleton_2 (C := gset string)
       (Py.replace_char "-" " " (Py.lower filename))
       (Py.replace_char "-" " " (Py.lower filename)) eq_refl).
  induction headings as [|heading headings IH]; intros acc Hacc; [done|].
  simpl. apply IH. set_solver.
Qed.

Lemma analyze_file_topics rel_dir file cat analysis :
  _analyze_file rel_dir file cat = Ok analysis → topics analysis ≠ ∅.
Proof.
  unfold _analyze_file. destruct (md_read file) as [content|]; [|discriminate].
  intros [= <-]. simpl.
  pose proof (extract_topics_filename (Py.path_stem (md_name file))
                (re_findall1 "^#+\s+(.+)$" [MULTILINE] content)).
  set_solver.
Qed.

Lemma size_nonzero (X : gset string) : X ≠ ∅ → size X ≠ 0.
Proof.
  intros Hne Hsize. apply Hne, leibniz_equiv. by apply size_empty_iff.
Qed.

Lemma compare_pair_total analysis1 analysis2 :
  topics analysis1 ≠ ∅ →
  keywords analysis1 ≠ ∅ ∨ keywords analysis2 ≠ ∅ →
  ∃ outcome, compare_pair analysis1 analysis2 = Ok outcome.
Proof.
  intros Ht Hk. unfold compare_pair.
  destruct (bool_decide _); [by eexists|].
  destruct (_ || _); [|by eexists].
  unfold pair_score, truediv.
  assert (size (keywords analysis1) `max` size (keywords analysis2) ≠ 0)
    as Hkmax.
  { destruct Hk as [Hk|Hk]; apply size_nonzero in Hk; lia. }
  assert (size (topics analysis1) `max` size (topics analysis2) ≠ 0)
    as Htmax.
  { apply size_nonzero in Ht. lia. }
  apply Nat.eqb_neq in Hkmax, Htmax. rewrite Hkmax, Htmax. simpl.
  destruct (float_gtb _ _); by eexists.
Qed.

(** C2 fails at two base documents that share three headings and contain
    no keyword term: the pair passes the pre-filter with 3 shared topics,
    and [keyword_overlap] is [0 / max(0, 0)]. *)
Theorem find_overlaps_zero_division :
  _find_overlaps [Samples.onboarding; Samples.contributing]
  = Raise ZeroDivisionError.
Proof.
  unfold _find_overlaps, overlap_pairs, compare_with.
  rewrite mapM_cons.
  rewrite compare_pair_no_keywords; [done..|].
  vm_compute. lia.
Qed.

(** *** Gaps *)

Lemma elem_of_omap_Some {A B} (f : A → option B) (l : list A) (y : B) :
  y ∈ omap f l ↔ ∃ x, x ∈ l ∧ f x = Some y.
Proof. apply list_elem_of_omap. Qed.

(** Every gap that [_find_gaps] reports is a base gap or a gap of one of
    the languages of the table: nothing is reported for a framework or a
    cloud provider, whatever the corpus. *)
Lemma find_gaps_categories analyses g :
  g ∈ _find_gaps analyses →
  gap_category g = "base" ∨
  ∃ lang, lang ∈ expected_language.*1 ∧ gap_category g = "language/" +:+ lang.
Proof.
  unfold _find_gaps. rewrite elem_of_app. intros [Hg|Hg].
  - left. unfold base_gaps in Hg.
    apply elem_of_omap_Some in Hg as (expected & _ & Hg).
    destruct (topic_found _ _); [discriminate|]. by injection Hg as <-.
  - right. apply list_elem_of_join in Hg as (gs & Hg & Hgs).
    apply list_elem_of_fmap in Hgs as ([lang expected_topics] & -> & Hle).
    exists lang. split.
    { apply list_elem_of_fmap. by exists (lang, expected_topics). }
    unfold language_gaps in Hg. simpl in Hg.
    destruct (group_by_language analyses !! lang) as [docs|].
    + apply elem_of_omap_Some in Hg as (expected & _ & Hg).
      destruct (topic_found _ _); [discriminate|]. by injection Hg as <-.
    + by apply list_elem_of_singleton in Hg as ->.
Qed.

(** The gaps of the empty corpus do not depend on the runtime. *)
Lemma find_gaps_nil :
  _find_gaps [] = _find_gaps (H := Exact.set_order) [].
Proof.
  unfold _find_gaps, base_gaps, topic_found. simpl filter.
  unfold union_topics. simpl foldl. rewrite set_iter_empty.
  reflexivity.
Qed.

(** C4 fails at the empty corpus: it holds no document for any framework
    or cloud provider of the table, and the gaps reported are the nine base
    topics and the five languages only. *)
Theorem find_gaps_skips_frameworks_and_cloud :
  gap_category <$> _find_gaps []
  = [ "base"; "base"; "base"; "base"; "base"; "base"; "base"; "base"; "base";
      "language/python"; "language/typescript"; "language/go";
      "language/java"; "language/rust" ].
Proof. rewrite find_gaps_nil. reflexivity. Qed.

(** *** The empty corpus *)

Lemma base_gaps_nil expected :
  expected ∈ expected_base →
  {| gap_category := "base";
     missing_topics := [expected];
     recommendation :=
       "Create base/" +:+ expected +:+ ".md to cover "
       +:+ Py.replace_char "-" " " expected +:+ " best practices" |}
  ∈ base_gaps [].
Proof.
  intros Hexp. unfold base_gaps. apply elem_of_omap_Some.
  exists expected. split; [done|].
  assert (topic_found expected (union_topics (filter _ [])) = false) as ->;
    [|done].
  unfold topic_found, union_topics. simpl. rewrite set_iter_empty.
  assert (Forall (λ e, Py.contains (Py.replace_char "-" " " e) "" = false)
                 expected_base) as Hall by (repeat constructor).
  rewrite Forall_forall in Hall. by apply Hall.
Qed.

Lemma find_overlaps_nil : _find_overlaps [] = Ok [].
Proof. reflexivity. Qed.

(** C6: on a corpus of no document the analysis returns, with no overlap,
    one base gap for each of the nine expected base topics, and the score
    [max(0, 100 - 3 * total_gaps)] followed by its label. *)
Theorem analyze_empty_corpus (repo : corpus) :
  _analyze_all_files repo = Ok [] →
  ∃ res,
    analyze repo = Ok res ∧
    files_analyzed res = 0 ∧
    total_overlaps res = 0 ∧
    overlap_reports res = [] ∧
    (∀ expected, expected ∈ expected_base →
       ∃ g, g ∈ gap_reports res ∧ gap_category g = "base" ∧
            missing_topics g = [expected]) ∧
    total_gaps res = length (gap_reports res) ∧
    9 ≤ total_gaps res ∧
    let score := Z.max 0 (100 - 3 * Z.of_nat (total_gaps res)) in
    mece_score (analysis_summary res)
    = pretty score +:+ "% - " +:+ mece_label score.
Proof.
  intros Hempty. unfold analyze. rewrite Hempty. simpl.
  eexists. split; [reflexivity|]. simpl.
  split; [done|]. split; [done|]. split; [done|].
  split; [|rewrite find_gaps_nil;
            split; [done|split; [vm_compute; lia|reflexivity]]].
  intros expected Hexp. eexists. split.
  - unfold _find_gaps. apply elem_of_app. left. by apply base_gaps_nil.
  - done.
Qed.

(** *** Overlaps *)

Lemma pair_score_sym analysis1 analysis2 :
  pair_score analysis1 analysis2 = pair_score analysis2 analysis1.
Proof.
  unfold pair_score.
  rewrite (comm_L (∩) (keywords analysis1)), (comm_L (∩) (topics analysis1)).
  rewrite (Nat.max_comm (size (keywords analysis1))).
  by rewrite (Nat.max_comm (size (topics analysis1))).
Qed.

(** The score reported for a pair does not depend on the order of the
    pair. *)
Lemma compare_pair_sym analysis1 analysis2 :
  reported_score (compare_pair analysis1 analysis2)
  = reported_score (compare_pair analysis2 analysis1).
Proof.
  unfold compare_pair.
  rewrite (comm_L (∩) (keywords analysis1)), (comm_L (∩) (topics analysis1)).
  rewrite (pair_score_sym analysis1).
  destruct (decide (category analysis1 = category analysis2)) as [Heq|Hne].
  - rewrite !bool_decide_eq_false_2 by (intros Hne; by apply Hne).
    destruct (_ || _); [|done].
    destruct (pair_score analysis2 analysis1) as [score|e]; [|done].
    simpl. by destruct (float_gtb _ _).
  - by rewrite !bool_decide_eq_true_2 by (intros Heq; by apply Hne).
Qed.

Lemma compare_pair_Some analysis1 analysis2 r :
  compare_pair analysis1 analysis2 = Ok (Some r) →
  category analysis1 = category analysis2 ∧
  file1 r = file_path analysis1 ∧ file2 r = file_path analysis2.
Proof.
  unfold compare_pair.
  destruct (decide (category analysis1 = category analysis2)) as [Heq|Hne].
  - rewrite bool_decide_eq_false_2 by (intros Hne; by apply Hne).
    destruct (_ || _); [|discriminate].
    destruct (pair_score analysis1 analysis2) as [score|e]; [|discriminate].
    simpl. destruct (float_gtb _ _); [|discriminate].
    by intros [= <-].
  - by rewrite bool_decide_eq_true_2.
Qed.

Lemma compare_with_elem analysis1 later rs r :
  compare_with analysis1 later = Ok rs → r ∈ rs →
  ∃ j analysis2,
    later !! j = Some analysis2 ∧
    compare_pair analysis1 analysis2 = Ok (Some r).
Proof.
  unfold compare_with. intros (os & HM & ->)%fmap_Ok Hr.
  apply elem_of_omap_Some in Hr as (o & Ho & Heq).
  unfold id in Heq. subst o.
  destruct (mapM_Ok_elem_r _ _ _ _ HM Ho) as (analysis2 & Hin & Hcmp).
  apply list_elem_of_lookup in Hin as [j Hj]. by exists j, analysis2.
Qed.

(** Each report comes from a pair of two positions [i < j] of the list. *)
Lemma overlap_pairs_elem analyses rs r :
  overlap_pairs analyses = Ok rs → r ∈ rs →
  ∃ i j analysis1 analysis2,
    i < j ∧ analyses !! i = Some analysis1 ∧ analyses !! j = Some analysis2 ∧
    compare_pair analysis1 analysis2 = Ok (Some r).
Proof.
  revert rs. induction analyses as [|analysis1 later IH]; intros rs.
  - intros [= <-] Hr. by apply elem_of_nil in Hr.
  - simpl. intros (here & Hhere & (rest & Hrest & [= <-])%bind_Ok)%bind_Ok.
    rewrite elem_of_app. intros [Hr|Hr].
    + destruct (compare_with_elem _ _ _ _ Hhere Hr)
        as (j & analysis2 & Hj & Hcmp).
      exists 0, (S j), analysis1, analysis2. split; [lia|done].
    + destruct (IH _ Hrest Hr) as (i & j & a1 & a2 & Hij & Hi & Hj & Hcmp).
      exists (S i), (S j), a1, a2. split; [lia|done].
Qed.

Lemma insert_desc_perm r l : insert_desc r l ≡ₚ r :: l.
Proof.
  induction l as [|r' l IH]; [done|]. simpl.
  destruct (float_gtb _ _); [done|]. rewrite IH. apply Permutation_swap.
Qed.

Lemma sort_desc_perm l : sort_desc l ≡ₚ l.
Proof.
  unfold sort_desc.
  assert (∀ acc, foldl (λ sorted r, insert_desc r sorted) acc l ≡ₚ l ++ acc)
    as Hgen.
  { induction l as [|r l IH]; intros acc; [done|].
    simpl. rewrite IH, insert_desc_perm. by rewrite Permutation_middle. }
  by rewrite Hgen, app_nil_r.
Qed.

(** C7: the score of a pair is the same in both orders, and so is the
    score reported for it; every report of [_find_overlaps] is about two
    documents at two positions [i < j] of the list, which have the same
    category, hence about two different files when no path occurs twice
    in the list. *)
Theorem find_overlaps_pairs analysis1 analysis2 analyses overlaps r :
  (pair_score analysis1 analysis2 = pair_score analysis2 analysis1 ∧
   reported_score (compare_pair analysis1 analysis2)
   = reported_score (compare_pair analysis2 analysis1)) ∧
  (_find_overlaps analyses = Ok overlaps → r ∈ overlaps →
   ∃ i j a b,
     i < j ∧ analyses !! i = Some a ∧ analyses !! j = Some b ∧
     category a = category b ∧
     file1 r = file_path a ∧ file2 r = file_path b ∧
     (NoDup (file_path <$> analyses) → file1 r ≠ file2 r)).
Proof.
  split; [split; [apply pair_score_sym|apply compare_pair_sym]|].
  unfold _find_overlaps. intros (rs & Hrs & [= <-])%bind_Ok Hr.
  rewrite sort_desc_perm in Hr.
  destruct (overlap_pairs_elem _ _ _ Hrs Hr)
    as (i & j & a & b & Hij & Hi & Hj & Hcmp).
  exists i, j, a, b.
  apply compare_pair_Some in Hcmp as (Hcat & Hf1 & Hf2).
  repeat (split; [done|]).
  intros Hnodup Heq. rewrite Hf1, Hf2 in Heq.
  assert (i = j); [|lia].
  eapply (NoDup_lookup _ _ _ _ Hnodup).
  - rewrite list_lookup_fmap, Hi. reflexivity.
  - rewrite list_lookup_fmap, Hj. simpl. by rewrite Heq.
Qed.

End analyzer.

Lemma analyze_empty_corpus_witness :
  ∃ res,
    MECE.analyze (H := Exact.floats) (H0 := Exact.set_order)
      (H1 := Exact.regex) Samples.no_directories = Ok res ∧
    MECE.files_analyzed res = 0 ∧
    MECE.total_overlaps res = 0 ∧
    MECE.overlap_reports res = [] ∧
    (∀ expected, expected ∈ MECE.expected_base →
       ∃ g, g ∈ MECE.gap_reports res ∧ MECE.gap_category g = "base" ∧
            MECE.missing_topics g = [expected]) ∧
    MECE.total_gaps res = length (MECE.gap_reports res) ∧
    9 ≤ MECE.total_gaps res ∧
    let score := Z.max 0 (100 - 3 * Z.of_nat (MECE.total_gaps res)) in
    MECE.mece_score (MECE.analysis_summary res)
    = pretty score +:+ "% - " +:+ MECE.mece_label score.
Proof.
  apply (analyze_empty_corpus (H := Exact.floats) (H0 := Exact.set_order)
           (H1 := Exact.regex) Samples.no_directories).
  reflexivity.
Defined.

Lemma find_overlaps_pairs_witness :
  ∃ overlaps r,
    MECE._find_overlaps (H := Exact.floats) (H0 := Exact.set_order)
      [Samples.testing_doc; Samples.python_testing_doc; Samples.security_doc]
    = Ok overlaps ∧
    r ∈ overlaps ∧
    ∃ i j a b,
      i < j ∧
      [Samples.testing_doc; Samples.python_testing_doc; Samples.security_doc]
        !! i = Some a ∧
      [Samples.testing_doc; Samples.python_testing_doc; Samples.security_doc]
        !! j = Some b ∧
      MECE.category a = MECE.category b ∧
      MECE.file1 r = MECE.file_path a ∧ MECE.file2 r = MECE.file_path b ∧
      (NoDup (MECE.file_path
                <$> [Samples.testing_doc; Samples.python_testing_doc;
                     Samples.security_doc]) →
       MECE.file1 r ≠ MECE.file2 r).
Proof.
  eexists _, _. split; [vm_compute; reflexivity|]. split; [left|].
  eapply (proj2 (find_overlaps_pairs (H := Exact.floats)
                  (H0 := Exact.set_order)
                  Samples.testing_doc Samples.security_doc
                  [Samples.testing_doc; Samples.python_testing_doc;
                   Samples.security_doc] _ _)).
  - vm_compute. reflexivity.
  - left.
Defined.

(** ** Unreadable documents *)

Section reading.
Import MECE.
Context `{PyFloat} `{PySetOrder} `{PyRegex}.

Lemma analyze_file_Raise rel_dir file cat e :
  _analyze_file rel_dir file cat = Raise e ↔ md_read file = Raise e.
Proof.
  unfold _analyze_file. destruct (md_read file); simpl.
  - split; discriminate.
  - split; by intros [= ->].
Qed.

Lemma analyze_file_Ok rel_dir file cat analysis :
  _analyze_file rel_dir file cat = Ok analysis →
  ∃ content, md_read file = Ok content.
Proof.
  unfold _analyze_file. destruct (md_read file); [by eexists|discriminate].
Qed.

Lemma analyze_nested_Raise dir_name cat dir e :
  analyze_nested dir_name cat dir = Raise e →
  ∃ file, file ∈ nested_files dir ∧ md_read file = Raise e.
Proof.
  unfold analyze_nested, nested_files.
  destruct dir as [entries|]; [|discriminate]. simpl.
  destruct (mapM _ entries) as [v|e'] eqn:HM; [discriminate|].
  intros [= ->].
  apply mapM_Raise_inv in HM as (folder & Hfolder & Hraise).
  destruct (entry_is_dir folder) eqn:Hdir; [|discriminate].
  apply mapM_Raise_inv in Hraise as (file & Hfile & Hraise).
  exists file. split; [|by apply analyze_file_Raise in Hraise].
  apply list_elem_of_join. exists (entry_md_files folder). split; [done|].
  apply list_elem_of_fmap. exists folder. split; [done|].
  by apply list_elem_of_filter.
Qed.

Lemma analyze_nested_Ok dir_name cat dir analyses file :
  analyze_nested dir_name cat dir = Ok analyses →
  file ∈ nested_files dir → ∃ content, md_read file = Ok content.
Proof.
  unfold analyze_nested, nested_files.
  destruct dir as [entries|]; simpl.
  - intros (rows & HM & _)%fmap_Ok (files & Hfile & Hfiles)%list_elem_of_join.
    apply list_elem_of_fmap in Hfiles as (folder & -> & Hfolder).
    apply list_elem_of_filter in Hfolder as [Hdir Hfolder].
    destruct (mapM_Ok_elem _ _ _ _ HM Hfolder) as (row & _ & Hrow).
    rewrite Hdir in Hrow.
    destruct (mapM_Ok_elem _ _ _ _ Hrow Hfile) as (analysis & _ & Hone).
    by eapply analyze_file_Ok.
  - intros _ Hfile. by apply elem_of_nil in Hfile.
Qed.

Lemma analyze_base_Raise (dir : option (list md_file)) e :
  match dir with
  | None => Ok []
  | Some files => mapM (λ md_file, _analyze_file "base" md_file "base") files
  end = Raise e →
  ∃ file, file ∈ default [] dir ∧ md_read file = Raise e.
Proof.
  destruct dir as [files|]; [|discriminate]. simpl.
  intros (file & Hfile & Hraise)%mapM_Raise_inv.
  exists file. split; [done|]. by apply analyze_file_Raise in Hraise.
Qed.

Lemma analyze_base_Ok (dir : option (list md_file)) analyses file :
  match dir with
  | None => Ok []
  | Some files => mapM (λ md_file, _analyze_file "base" md_file "base") files
  end = Ok analyses →
  file ∈ default [] dir → ∃ content, md_read file = Ok content.
Proof.
  destruct dir as [files|]; simpl.
  - intros HM Hfile.
    destruct (mapM_Ok_elem _ _ _ _ HM Hfile) as (analysis & _ & Hone).
    by eapply analyze_file_Ok.
  - intros _ Hfile. by apply elem_of_nil in Hfile.
Qed.

(** An exception of [_analyze_all_files] is the exception of one read. *)
Lemma analyze_all_files_Raise repo e :
  _analyze_all_files repo = Raise e →
  ∃ file, file ∈ corpus_files repo ∧ md_read file = Raise e.
Proof.
  unfold _analyze_all_files, corpus_files.
  intros [Hb|(b & _ & [Hl|(l & _ & [Hf|(f & _ & [Hc|(c & _ & [=])]
    %bind_Raise)]%bind_Raise)]%bind_Raise)]%bind_Raise.
  - apply analyze_base_Raise in Hb as (file & Hfile & Hraise).
    exists file. rewrite !elem_of_app. auto.
  - apply analyze_nested_Raise in Hl as (file & Hfile & Hraise).
    exists file. rewrite !elem_of_app. auto.
  - apply analyze_nested_Raise in Hf as (file & Hfile & Hraise).
    exists file. rewrite !elem_of_app. auto.
  - apply analyze_nested_Raise in Hc as (file & Hfile & Hraise).
    exists file. rewrite !elem_of_app. auto.
Qed.

(** [_analyze_all_files] returns only if every file could be read. *)
Lemma analyze_all_files_Ok repo analyses file :
  _analyze_all_files repo = Ok analyses →
  file ∈ corpus_files repo → ∃ content, md_read file = Ok content.
Proof.
  unfold _analyze_all_files, corpus_files.
  intros (b & Hb & (l & Hl & (f & Hf & (c & Hc & _)%bind_Ok)%bind_Ok)
            %bind_Ok)%bind_Ok.
  rewrite !elem_of_app. intros [Hfile|[Hfile|[Hfile|Hfile]]].
  - exact (analyze_base_Ok _ _ _ Hb Hfile).
  - exact (analyze_nested_Ok _ _ _ _ _ Hl Hfile).
  - exact (analyze_nested_Ok _ _ _ _ _ Hf Hfile).
  - exact (analyze_nested_Ok _ _ _ _ _ Hc Hfile).
Qed.

(** The loop raises at the first call that raises: the calls before it
    have returned. *)
Lemma mapM_Raise_first {A B : Type} (f : A → result B) l e :
  mapM f l = Raise e →
  ∃ before x after,
    l = before ++ x :: after ∧
    Forall (λ x', ∃ y, f x' = Ok y) before ∧ f x = Raise e.
Proof.
  induction l as [|z l IH]; [discriminate|].
  rewrite mapM_cons.
  intros [Hz|(y & Hy & [Hl|(k & _ & [=])]%bind_Raise)]%bind_Raise.
  - by exists [], z, l.
  - destruct (IH Hl) as (before & x & after & -> & Hbefore & Hx).
    exists (z :: before), x, after. split; [done|]. split; [|done].
    constructor; [by exists y|done].
Qed.

Lemma analyze_base_first (dir : option (list md_file)) e :
  match dir with
  | None => Ok []
  | Some files => mapM (λ md_file, _analyze_file "base" md_file "base") files
  end = Raise e →
  ∃ before file after,
    default [] dir = before ++ file :: after ∧
    Forall (λ f, ∃ content, md_read f = Ok content) before ∧
    md_read file = Raise e.
Proof.
  destruct dir as [files|]; [|discriminate]. simpl.
  intros (before & file & after & -> & Hbefore & Hraise)%mapM_Raise_first.
  exists before, file, after. split; [done|].
  split; [|by apply analyze_file_Raise in Hraise].
  eapply Forall_impl; [exact Hbefore|].
  intros f [analysis Hf]. by eapply analyze_file_Ok.
Qed.

Lemma analyze_nested_first dir_name cat dir e :
  analyze_nested dir_name cat dir = Raise e →
  ∃ before file after,
    nested_files dir = before ++ file :: after ∧
    Forall (λ f, ∃ content, md_read f = Ok content) before ∧
    md_read file = Raise e.
Proof.
  unfold analyze_nested.
  destruct dir as [entries|]; [|discriminate].
  destruct (mapM _ entries) as [v|e'] eqn:HM; [discriminate|].
  intros [= ->].
  apply mapM_Raise_first in HM
    as (folders & folder & later & -> & Hfolders & Hraise).
  destruct (entry_is_dir folder) eqn:Hdir; [|discriminate].
  apply mapM_Raise_first in Hraise
    as (before & file & after & Hfiles & Hbefore & Hraise).
  exists (nested_files (Some folders) ++ before), file,
    (after ++ nested_files (Some later)).
  split; [|split; [|by apply analyze_file_Raise in Hraise]].
  - unfold nested_files. cbn [default from_option id].
    rewrite filter_app, filter_cons, decide_True by done.
    rewrite fmap_app, fmap_cons, join_app. cbn [mjoin list_join].
    rewrite Hfiles. by rewrite <- !app_assoc.
  - apply Forall_app. split.
    + destruct (mapM_total _ _ Hfolders) as [rows Hrows].
      apply Forall_forall. intros f Hf.
      apply (analyze_nested_Ok dir_name cat (Some folders) (mjoin rows));
        [|exact Hf].
      unfold analyze_nested. by rewrite Hrows.
    + eapply Forall_impl; [exact Hbefore|].
      intros f [analysis Hf]. by eapply analyze_file_Ok.
Qed.

(** An exception of [_analyze_all_files] is the exception of the first
    read that fails, in the order in which the files are opened. *)
Lemma analyze_all_files_first repo e :
  _analyze_all_files repo = Raise e →
  ∃ before file after,
    corpus_files repo = before ++ file :: after ∧
    Forall (λ f, ∃ content, md_read f = Ok content) before ∧
    md_read file = Raise e.
Proof.
  unfold _analyze_all_files, corpus_files.
  intros [Hb|(b & Hb & [Hl|(l & Hl & [Hf|(f & Hf & [Hc|(c & _ & [=])]
    %bind_Raise)]%bind_Raise)]%bind_Raise)]%bind_Raise.
  - apply analyze_base_first in Hb
      as (before & file & after & -> & Hbefore & Hraise).
    exists before, file, (after ++ nested_files (languages_dir repo)
      ++ nested_files (frameworks_dir repo) ++ nested_files (cloud_dir repo)).
    by rewrite <- app_assoc.
  - apply analyze_nested_first in Hl
      as (before & file & after & -> & Hbefore & Hraise).
    exists (default [] (base_dir repo) ++ before), file,
      (after ++ nested_files (frameworks_dir repo)
       ++ nested_files (cloud_dir repo)).
    split; [by rewrite <- !app_assoc|]. split; [|done].
    apply Forall_app. split; [|done].
    apply Forall_forall. intros x Hx. exact (analyze_base_Ok _ _ _ Hb Hx).
  - apply analyze_nested_first in Hf
      as (before & file & after & -> & Hbefore & Hraise).
    exists (default [] (base_dir repo) ++ nested_files (languages_dir repo)
            ++ before), file,
      (after ++ nested_files (cloud_dir repo)).
    split; [by rewrite <- !app_assoc|]. split; [|done].
    rewrite !Forall_app. split; [|split; [|done]].
    + apply Forall_forall. intros x Hx. exact (analyze_base_Ok _ _ _ Hb Hx).
    + apply Forall_forall. intros x Hx.
      exact (analyze_nested_Ok _ _ _ _ _ Hl Hx).
  - apply analyze_nested_first in Hc
      as (before & file & after & -> & Hbefore & Hraise).
    exists (default [] (base_dir repo) ++ nested_files (languages_dir repo)
            ++ nested_files (frameworks_dir repo) ++ before), file, after.
    split; [by rewrite <- !app_assoc|]. split; [|done].
    rewrite !Forall_app. split; [|split; [|split; [|done]]].
    + apply Forall_forall. intros x Hx. exact (analyze_base_Ok _ _ _ Hb Hx).
    + apply Forall_forall. intros x Hx.
      exact (analyze_nested_Ok _ _ _ _ _ Hl Hx).
    + apply Forall_forall. intros x Hx.
      exact (analyze_nested_Ok _ _ _ _ _ Hf Hx).
Qed.

(** C5, as the code has it: when a document of the corpus cannot be read,
    the exception of the first failing read ends [_analyze_all_files] and
    [analyze]: the files opened before it, in the order of [corpus_files],
    were all read, and the exception raised is the one of the first file
    that could not be. No result is returned, so neither the profiles of
    the other documents nor a list of skipped documents. *)
Theorem analyze_unreadable_document (repo : corpus) file e :
  file ∈ corpus_files repo → md_read file = Raise e →
  ∃ before file' after e',
    corpus_files repo = before ++ file' :: after ∧
    Forall (λ f, ∃ content, md_read f = Ok content) before ∧
    md_read file' = Raise e' ∧
    _analyze_all_files repo = Raise e' ∧ analyze repo = Raise e'.
Proof.
  intros Hfile Hraise.
  destruct (_analyze_all_files repo) as [analyses|e'] eqn:Hall.
  - destruct (analyze_all_files_Ok _ _ _ Hall Hfile) as [content Hread].
    congruence.
  - destruct (analyze_all_files_first _ _ Hall)
      as (before & file' & after & Hsplit & Hbefore & Hraise').
    exists before, file', after, e'. unfold analyze. by rewrite Hall.
Qed.

End reading.

Lemma analyze_unreadable_document_witness :
  ∃ before file' after e',
    MECE.corpus_files Samples.corpus_with_unreadable
      = before ++ file' :: after ∧
    Forall (λ f, ∃ content, MECE.md_read f = Ok content) before ∧
    MECE.md_read file' = Raise e' ∧
    MECE._analyze_all_files (H := Exact.regex)
      Samples.corpus_with_unreadable = Raise e' ∧
    MECE.analyze (H := Exact.floats) (H0 := Exact.set_order)
      (H1 := Exact.regex) Samples.corpus_with_unreadable = Raise e'.
Proof.
  apply (analyze_unreadable_document (H := Exact.floats)
           (H0 := Exact.set_order) (H1 := Exact.regex)
           Samples.corpus_with_unreadable
           {| MECE.md_name := "broken.md";
              MECE.md_read := Raise (UnicodeDecodeError "base/broken.md") |}
           (UnicodeDecodeError "base/broken.md")).
  - vm_compute. right. left.
  - reflexivity.
Defined.

(** C5, as stated, fails: the second of three base documents is not valid
    UTF-8, and the analysis ends with that exception instead of a result
    for the two other documents. *)
Lemma analyze_unreadable_document_aborts :
  MECE.analyze (H := Exact.floats) (H0 := Exact.set_order)
    (H1 := Exact.regex) Samples.corpus_with_unreadable
  = Raise (UnicodeDecodeError "base/broken.md").
Proof. reflexivity. Qed.

(** ** Context detection and the orchestrator *)

Section orchestrator.
Import Core.

(** C3, as the code has it: when [requirements.txt] exists and no other
    language marker and no CI workflow directory does, the detected
    languages are [python] alone and the maturity is "mvp". *)
Theorem detect_context_requirements_only (repo : repository) :
  path_exists repo "requirements.txt" = true →
  path_exists repo "package.json" = false →
  path_exists repo "go.mod" = false →
  path_exists repo "pom.xml" = false →
  path_exists repo "build.gradle" = false →
  path_exists repo "Cargo.toml" = false →
  path_exists repo ".github/workflows" = false →
  languages (_detect_context repo) = ["python"] ∧
  maturity (_detect_context repo) = "mvp".
Proof.
  intros Hreq Hpkg Hgo Hpom Hgradle Hcargo Hci.
  unfold _detect_context, detect_languages, detect_maturity. simpl.
  by rewrite Hreq, Hpkg, Hgo, Hpom, Hgradle, Hcargo, Hci.
Qed.

Lemma detect_context_requirements_only_witness :
  languages (_detect_context Samples.python_project) = ["python"] ∧
  maturity (_detect_context Samples.python_project) = "mvp".
Proof.
  apply (detect_context_requirements_only Samples.python_project);
    reflexivity.
Defined.

(** C3, as stated, fails: with [requirements.txt] alone the maturity that
    is returned is "mvp", which is not "prototype". *)
Lemma detect_context_not_prototype :
  _detect_context Samples.python_project =
    {| languages := ["python"]; frameworks := []; cloud_providers := [];
       maturity := "mvp"; working_directory := "/work/app" |} ∧
  maturity (_detect_context Samples.python_project) ≠ "prototype".
Proof. split; [reflexivity|discriminate]. Qed.

Context `{PyFloat} `{PySetOrder} `{PyRegex}.

(** C9: in the result of [run], the content-consistency map and the file
    disposition are present exactly at the depths "standard" and "full",
    and the accuracy audit exactly at depth "full" with citations enabled.
    So at depth "quick" the three are absent, at depth "standard" only the
    accuracy audit is absent, and the accuracy audit is present only at
    depth "full". *)
Theorem run_depth_gating (repo : repository) (config : AuditConfig)
    (now : string) (res : AuditResult) :
  run repo config now = Ok res →
  (depth config = "quick" →
     mece_content_map res = None ∧ accuracy_audit res = None ∧
     file_disposition res = None) ∧
  (depth config = "standard" →
     is_Some (mece_content_map res) ∧ accuracy_audit res = None ∧
     is_Some (file_disposition res)) ∧
  (is_Some (accuracy_audit res) → depth config = "full") ∧
  (is_Some (mece_content_map res)
     ↔ depth config = "standard" ∨ depth config = "full") ∧
  (is_Some (file_disposition res)
     ↔ depth config = "standard" ∨ depth config = "full") ∧
  (is_Some (accuracy_audit res)
     ↔ depth config = "full" ∧ enable_citations config = true).
Proof.
  unfold run.
  intros (rules_report & _ & (mece_map & Hmece & [= <-])%bind_Ok)%bind_Ok.
  simpl.
  assert (Py.in_list (depth config) ["standard"; "full"] = true
          ↔ depth config = "standard" ∨ depth config = "full") as Hin.
  { unfold Py.in_list. rewrite bool_decide_eq_true.
    rewrite !elem_of_cons, elem_of_nil. tauto. }
  assert (is_Some mece_map
          ↔ depth config = "standard" ∨ depth config = "full") as Hmap.
  { rewrite <- Hin. destruct (Py.in_list _ _).
    - apply fmap_Ok in Hmece as (m & _ & ->). split; [done|by eexists].
    - injection Hmece as <-. split; [by intros [? [=]]|done]. }
  assert (is_Some (if Py.in_list (depth config) ["standard"; "full"]
                   then Some (_analyze_disposition repo) else None)
          ↔ depth config = "standard" ∨ depth config = "full") as Hdisp.
  { rewrite <- Hin. destruct (Py.in_list _ _).
    - split; [done|by eexists].
    - split; [by intros [? [=]]|done]. }
  assert (is_Some (if bool_decide (depth config = "full")
                      && enable_citations config
                   then Some _run_accuracy_audit else None)
          ↔ depth config = "full" ∧ enable_citations config = true) as Hacc.
  { destruct (bool_decide (depth config = "full")) eqn:Hfull.
    - apply bool_decide_eq_true in Hfull.
      destruct (enable_citations config); simpl.
      + split; [done|by eexists].
      + split; [by intros [? [=]]|by intros [_ [=]]].
    - apply bool_decide_eq_false in Hfull. simpl.
      split; [by intros [? [=]]|by intros [? _]]. }
  assert (∀ {A} (o : option A), ¬ is_Some o → o = None) as Hnone.
  { intros A [a|] Hn; [|done]. destruct Hn. by eexists. }
  split.
  { intros Hq. split; [|split]; apply Hnone.
    - rewrite Hmap, Hq. by intros [[=]|[=]].
    - rewrite Hacc, Hq. by intros [[=] _].
    - rewrite Hdisp, Hq. by intros [[=]|[=]]. }
  split.
  { intros Hs. split; [|split].
    - apply Hmap. by left.
    - apply Hnone. rewrite Hacc, Hs. by intros [[=] _].
    - apply Hdisp. by left. }
  split.
  { intros Ha. by apply Hacc in Ha as [? _]. }
  done.
Qed.

End orchestrator.

Lemma run_depth_gating_witness :
  ∃ res,
    Core.run (H := Exact.floats) (H0 := Exact.set_order)
      (H1 := Exact.regex) Samples.python_project
      (Samples.config_of_depth "quick") "2024-05-01T09:30:00" = Ok res ∧
    ((Core.depth (Samples.config_of_depth "quick") = "quick" →
        Core.mece_content_map res = None ∧ Core.accuracy_audit res = None ∧
        Core.file_disposition res = None) ∧
     (Core.depth (Samples.config_of_depth "quick") = "standard" →
        is_Some (Core.mece_content_map res) ∧ Core.accuracy_audit res = None ∧
        is_Some (Core.file_disposition res)) ∧
     (is_Some (Core.accuracy_audit res) →
        Core.depth (Samples.config_of_depth "quick") = "full") ∧
     (is_Some (Core.mece_content_map res)
        ↔ Core.depth (Samples.config_of_depth "quick") = "standard"
          ∨ Core.depth (Samples.config_of_depth "quick") = "full") ∧
     (is_Some (Core.file_disposition res)
        ↔ Core.depth (Samples.config_of_depth "quick") = "standard"
          ∨ Core.depth (Samples.config_of_depth "quick") = "full") ∧
     (is_Some (Core.accuracy_audit res)
        ↔ Core.depth (Samples.config_of_depth "quick") = "full"
          ∧ Core.enable_citations (Samples.config_of_depth "quick") = true)).
Proof.
  eexists. split; [vm_compute; reflexivity|].
  apply (run_depth_gating (H := Exact.floats) (H0 := Exact.set_order)
           (H1 := Exact.regex) Samples.python_project
           (Samples.config_of_depth "quick") "2024-05-01T09:30:00").
  vm_compute. reflexivity.
Defined.

(** ** The repository's tests, evaluated on the reference runtime *)

Section evaluation.
Local Existing Instances Exact.floats Exact.set_order Exact.regex.

Example parse_index_no_file :
  RulesParser.parse_index None = Ok RulesParser.empty_rules.
Proof. reflexivity. Qed.

Example parse_index_with_base_rules :
  (λ rules, RulesParser.name <$> RulesParser.base_rules rules)
    <$> RulesParser.parse_index (Some Samples.index_two_base)
  = Ok ["Code Quality"; "Security"].
Proof. reflexivity. Qed.

Example extract_topics_from_path :
  RulesParser._extract_topics_from_path "base/security-principles.md"
    = ["security"; "deployment"] ∧
  RulesParser._extract_topics_from_path "languages/python/testing.md"
    = ["testing"].
Proof. split; reflexivity. Qed.

Example generate_selection_report_one_base :
  (λ r, (RulesParser.total_rules_available r,
         RulesParser.total_rules_selected r,
         RulesParser.selection_efficiency r))
    <$> RulesParser.generate_selection_report
          (Some Samples.index_one_base) ["python"] [] [] "mvp"
  = Ok (1, 1, "100.0%").
Proof. vm_compute. reflexivity. Qed.

Example analyze_with_base_files :
  (λ res, (MECE.files_analyzed res, MECE.total_overlaps res))
    <$> MECE.analyze Samples.corpus_two_base
  = Ok (2, 0).
Proof. vm_compute. reflexivity. Qed.

Example extract_keywords :
  MECE._extract_keywords Samples.keyword_text
  = {[ "async"; "testing"; "pytest"; "security" ]}.
Proof. vm_compute. reflexivity. Qed.

Example mece_score_calculation :
  MECE._calculate_mece_score 0 0 10 = "100% - Excellent" ∧
  MECE._calculate_mece_score 2 1 10 = "93% - Excellent" ∧
  MECE._calculate_mece_score 10 10 10 = "50% - Fair" ∧
  MECE._calculate_mece_score 10 11 10 = "47% - Needs Improvement".
Proof. repeat split; reflexivity. Qed.

Example detect_context_empty_repo :
  Core._detect_context Samples.empty_project
  = {| Core.languages := []; Core.frameworks := [];
       Core.cloud_providers := []; Core.maturity := "mvp";
       Core.working_directory := "/tmp/project" |}.
Proof. reflexivity. Qed.

Example detect_context_typescript_project :
  Core.languages (Core._detect_context Samples.typescript_project)
  = ["typescript"].
Proof. reflexivity. Qed.

Example full_audit_workflow :
  (λ res, (Core.languages (Core.context res),
           RulesParser.total_rules_available
             (Core.report (Core.rules_selection_report res)),
           MECE.files_analyzed <$> Core.mece_content_map res,
           Core.accuracy_audit res,
           Core.total_files <$> Core.file_disposition res))
    <$> Core.run Samples.typescript_project
          (Samples.config_of_depth "standard") "2024-05-01T09:30:00"
  = Ok (["typescript"], 2, Some 1, None, Some 0).
Proof. vm_compute. reflexivity. Qed.

(** The two sample profiles are the profiles of the two sample documents,
    and analysing the directory that holds them divides by zero. *)
Example analyze_file_onboarding :
  MECE._analyze_file "base" Samples.onboarding_md "base"
    = Ok Samples.onboarding ∧
  MECE._analyze_file "base" Samples.contributing_md "base"
    = Ok Samples.contributing.
Proof. split; vm_compute; reflexivity. Qed.

Example analyze_without_keywords :
  MECE.analyze Samples.corpus_without_keywords = Raise ZeroDivisionError.
Proof. vm_compute. reflexivity. Qed.

End evaluation.

(** * Further properties of the code *)

(** ** The loader, entry by entry *)

Section loader_properties.
Import RulesParser.

Lemma parse_rule_Ok_fields cat lang fw cloud tokens rule r :
  parse_rule cat lang fw cloud tokens rule = Ok r →
  language r = lang ∧ framework r = fw ∧ cloud_provider r = cloud ∧
  maturity r = default_maturity ∧
  estimated_tokens r = default tokens (entry_estimatedTokens rule).
Proof.
  unfold parse_rule, rule_name_of.
  destruct (entry_name rule) as [n|]; [|discriminate].
  by intros [= <-].
Qed.

Lemma parse_rule_Raise cat lang fw cloud tokens rule e :
  parse_rule cat lang fw cloud tokens rule = Raise e →
  e = KeyError "name" ∧ entry_name rule = None.
Proof.
  unfold parse_rule, rule_name_of.
  destruct (entry_name rule) as [n|]; [discriminate|]. by intros [= <-].
Qed.

Lemma parse_rule_loaded_from cat lang fw cloud tokens rule r :
  parse_rule cat lang fw cloud tokens rule = Ok r →
  Views.loaded_from rule r.
Proof.
  intros Hp. destruct (parse_rule_Ok _ _ _ _ _ _ _ Hp) as (? & ? & _ & ?).
  destruct (parse_rule_Ok_fields _ _ _ _ _ _ _ Hp) as (_ & _ & _ & ? & _).
  by repeat split.
Qed.

Lemma parse_keyed_Forall2 parse section rs :
  parse_keyed parse section = Ok rs →
  Forall2 (λ e r, ∃ key, parse key e = Ok r) (mjoin section.*2) rs.
Proof.
  unfold parse_keyed. intros (rss & HM%mapM_Ok & ->)%fmap_Ok.
  apply Forall2_join, Forall2_fmap_l.
  eapply Forall2_impl; [exact HM|]. intros [key es] rs' Hrow%mapM_Ok.
  eapply Forall2_impl; [exact Hrow|]. intros e r Her. by exists key.
Qed.

Lemma parse_keyed_Raise parse section e :
  parse_keyed parse section = Raise e →
  ∃ key entry, entry ∈ mjoin section.*2 ∧ parse key entry = Raise e.
Proof.
  unfold parse_keyed.
  destruct (mapM _ section) as [rss|e'] eqn:HM; [discriminate|].
  intros [= ->].
  apply mapM_Raise_inv in HM as ([key es] & Hkv & Hrow).
  apply mapM_Raise_inv in Hrow as (entry & Hentry & Hraise).
  exists key, entry. split; [|done].
  apply list_elem_of_join. exists es. split; [done|].
  apply list_elem_of_fmap. by exists (key, es).
Qed.

Lemma parse_index_loaded_from index all_rules :
  parse_index (Some index) = Ok all_rules →
  Forall2 Views.loaded_from (index_entries index) (loaded_rules all_rules).
Proof.
  intros (rules & -> & Hb & Hl & Hf & Hc)%parse_index_Ok.
  rewrite index_entries_sections. simpl. unfold loaded_rules.
  repeat apply Forall2_app.
  - apply mapM_Ok in Hb. eapply Forall2_impl; [exact Hb|].
    intros e r. apply parse_rule_loaded_from.
  - apply parse_keyed_Forall2 in Hl. eapply Forall2_impl; [exact Hl|].
    intros e r [key Hp]. by eapply parse_rule_loaded_from.
  - apply parse_keyed_Forall2 in Hf. eapply Forall2_impl; [exact Hf|].
    intros e r [key Hp]. by eapply parse_rule_loaded_from.
  - apply parse_keyed_Forall2 in Hc. eapply Forall2_impl; [exact Hc|].
    intros e r [key Hp]. by eapply parse_rule_loaded_from.
Qed.


(** X2: the only exception of [parse_index] is [KeyError('name')], and it
    is raised exactly when the index file exists and one of its entries has
    no "name" key. *)
Theorem parse_index_raises_iff index_file e :
  parse_index index_file = Raise e ↔
  e = KeyError "name" ∧
  ∃ index, index_file = Some index ∧
           Exists (λ entry, entry_name entry = None) (index_entries index).
Proof.
  assert (∀ index e', parse_index (Some index) = Raise e' →
            e' = KeyError "name" ∧
            Exists (λ entry, entry_name entry = None) (index_entries index))
    as Hraise.
  { intros index e'. rewrite index_entries_sections. simpl.
    unfold parse_index. rewrite !Exists_app.
    intros [Hb|(b & _ & [Hl|(l & _ & [Hf|(f & _ & [Hc|(c & _ & [=])]
      %bind_Raise)]%bind_Raise)]%bind_Raise)]%bind_Raise.
    - apply mapM_Raise_inv in Hb as (entry & Hin & [-> Hn]%parse_rule_Raise).
      split; [done|]. left. apply Exists_exists. eauto.
    - apply parse_keyed_Raise in Hl
        as (key & entry & Hin & [-> Hn]%parse_rule_Raise).
      split; [done|]. right; left. apply Exists_exists. eauto.
    - apply parse_keyed_Raise in Hf
        as (key & entry & Hin & [-> Hn]%parse_rule_Raise).
      split; [done|]. right; right; left. apply Exists_exists. eauto.
    - apply parse_keyed_Raise in Hc
        as (key & entry & Hin & [-> Hn]%parse_rule_Raise).
      split; [done|]. right; right; right. apply Exists_exists. eauto. }
  split.
  - destruct index_file as [index|]; [|discriminate].
    intros [-> Hex]%Hraise. split; [done|]. by exists index.
  - intros (-> & index & -> & Hex).
    destruct (parse_index (Some index)) as [all_rules|e'] eqn:Hp.
    + apply Exists_exists in Hex as (entry & Hin & Hn).
      destruct (parse_index_elem _ _ _ Hp Hin)
        as (cat & lang & fw & cloud & tokens & r & _ & Hr).
      apply parse_rule_Ok in Hr as (Hname & _). congruence.
    + by apply Hraise in Hp as [-> _].
Qed.

(** X3: every record of the catalog has the category of its bucket and
    exactly the sub-key field of that category: none for a base rule, the
    language for a language rule, the framework for a framework rule, the
    provider for a cloud rule. *)
Theorem parse_index_sub_keys index_file all_rules :
  parse_index index_file = Ok all_rules →
  Forall (λ r, category r = "base" ∧ language r = None ∧
               framework r = None ∧ cloud_provider r = None)
         (base_rules all_rules) ∧
  Forall (λ r, category r = "language" ∧ is_Some (language r) ∧
               framework r = None ∧ cloud_provider r = None)
         (language_rules all_rules) ∧
  Forall (λ r, category r = "framework" ∧ language r = None ∧
               is_Some (framework r) ∧ cloud_provider r = None)
         (framework_rules all_rules) ∧
  Forall (λ r, category r = "cloud" ∧ language r = None ∧
               framework r = None ∧ is_Some (cloud_provider r))
         (cloud_rules all_rules).
Proof.
  destruct index_file as [index|].
  - intros (rules & _ & Hb & Hl & Hf & Hc)%parse_index_Ok.
    rewrite !Forall_forall. repeat split.
    all: try (destruct (mapM_Ok_elem_r _ _ _ _ Hb H) as (e & _ & Hp)).
    all: try (destruct (parse_keyed_elem_r _ _ _ _ Hl H) as (k & e & _ & Hp)).
    all: try (destruct (parse_keyed_elem_r _ _ _ _ Hf H) as (k & e & _ & Hp)).
    all: try (destruct (parse_keyed_elem_r _ _ _ _ Hc H) as (k & e & _ & Hp)).
    all: pose proof (parse_rule_Ok _ _ _ _ _ _ _ Hp) as (_ & _ & Hcat & _).
    all: pose proof (parse_rule_Ok_fields _ _ _ _ _ _ _ Hp)
           as (Hlang & Hfw & Hcloud & _).
    all: first [done | rewrite Hlang; by eexists | rewrite Hfw; by eexists
               | rewrite Hcloud; by eexists].
  - intros [= <-]. simpl. repeat split; constructor.
Qed.

End loader_properties.

(** ** The selector, rule by rule *)

Section selector_properties.
Import RulesParser.
Context `{PyFloat}.

(** What [generate_selection_report] puts in its report. *)
Lemma selection_report_Ok index_file langs fws clouds m r :
  generate_selection_report index_file langs fws clouds m = Ok r →
  ∃ all_rules,
    parse_index index_file = Ok all_rules ∧
    selected_rules r =
      filter (λ r, is_critical r = true) (base_rules all_rules)
      ++ filter (λ r, matches (language r) langs = true)
                (language_rules all_rules)
      ++ filter (λ r, matches (framework r) fws = true)
                (framework_rules all_rules)
      ++ filter (λ r, matches (cloud_provider r) clouds = true)
                (cloud_rules all_rules) ∧
    total_rules_selected r = length (selected_rules r) ∧
    total_rules_available r = length (loaded_rules all_rules) ∧
    total_estimated_tokens r = sum_tokens (selected_rules r) ∧
    breakdown r =
      {| breakdown_base := count_category "base" (selected_rules r);
         breakdown_language := count_category "language" (selected_rules r);
         breakdown_framework :=
           count_category "framework" (selected_rules r);
         breakdown_cloud := count_category "cloud" (selected_rules r) |}.
Proof.
  unfold generate_selection_report.
  intros (all_rules & Hparse & [= <-])%bind_Ok. simpl.
  exists all_rules. repeat (split; [done|]). split; [|done].
  unfold loaded_rules. rewrite !length_app. lia.
Qed.

Lemma matches_Some key (l : list string) :
  matches key l = true ↔ ∃ k, key = Some k ∧ k ∈ l.
Proof.
  unfold matches, Py.in_list. destruct key as [k|].
  - rewrite bool_decide_eq_true. split; [by exists k|].
    by intros (k' & [= <-] & Hk).
  - split; [discriminate|]. by intros (k & [=] & _).
Qed.

(** X4: a rule is selected exactly when it is a base rule whose file stem
    is one of the three critical names, or a language, framework or cloud
    rule whose sub-key is in the corresponding list of the context. *)
Theorem selected_iff index_file langs fws clouds m r x :
  generate_selection_report index_file langs fws clouds m = Ok r →
  ∃ all_rules,
    parse_index index_file = Ok all_rules ∧
    (x ∈ selected_rules r ↔
       (x ∈ base_rules all_rules ∧
        Py.path_stem (path x) ∈ critical_base) ∨
       (x ∈ language_rules all_rules ∧
        ∃ lang, language x = Some lang ∧ lang ∈ langs) ∨
       (x ∈ framework_rules all_rules ∧
        ∃ fw, framework x = Some fw ∧ fw ∈ fws) ∨
       (x ∈ cloud_rules all_rules ∧
        ∃ cloud, cloud_provider x = Some cloud ∧ cloud ∈ clouds)).
Proof.
  intros (all_rules & Hparse & -> & _)%selection_report_Ok.
  exists all_rules. split; [done|].
  rewrite !elem_of_app, !list_elem_of_filter, !matches_Some.
  unfold is_critical, Py.in_list. rewrite bool_decide_eq_true. tauto.
Qed.

(** X5: the selected rules are a sub-list of the catalog, in catalog
    order: nothing is selected that was not loaded, and a record is not
    selected more often than it was loaded. *)
Theorem selected_sublist index_file langs fws clouds m r :
  generate_selection_report index_file langs fws clouds m = Ok r →
  ∃ all_rules,
    parse_index index_file = Ok all_rules ∧
    selected_rules r `sublist_of` loaded_rules all_rules.
Proof.
  intros (all_rules & Hparse & -> & _)%selection_report_Ok.
  exists all_rules. split; [done|]. unfold loaded_rules.
  repeat apply sublist_app; apply sublist_filter.
Qed.

Lemma score_of_parts (sb sl sf sc : list RuleMetadata) :
  Forall (λ r, category r = "base") sb →
  Forall (λ r, category r = "language") sl →
  Forall (λ r, category r = "framework") sf →
  Forall (λ r, category r = "cloud") sc →
  Forall2 (λ x item, reason_rule item = name x ∧
                     score item = Views.score_of (category x))
    (sb ++ sl ++ sf ++ sc)
    (((λ r, {| reason_rule := name r; reason := "Critical base rule";
               score := 100 |}) <$> sb) ++
     ((λ r, {| reason_rule := name r;
               reason := "Matches project language: "
                         +:+ show_key (language r);
               score := 90 |}) <$> sl) ++
     ((λ r, {| reason_rule := name r;
               reason := "Matches project framework: "
                         +:+ show_key (framework r);
               score := 90 |}) <$> sf) ++
     ((λ r, {| reason_rule := name r;
               reason := "Matches cloud provider: "
                         +:+ show_key (cloud_provider r);
               score := 85 |}) <$> sc)).
Proof.
  intros Hb Hl Hf Hc.
  repeat apply Forall2_app; apply Forall2_fmap_r, Forall_Forall2_diag.
  - eapply Forall_impl; [exact Hb|]. intros x ->. done.
  - eapply Forall_impl; [exact Hl|]. intros x ->. done.
  - eapply Forall_impl; [exact Hf|]. intros x ->. done.
  - eapply Forall_impl; [exact Hc|]. intros x ->. done.
Qed.

(** X6: [selection_reasoning] has one item per selected rule, in the same
    order, with the name of the rule and the score of its category: 100 for
    a base rule, 90 for a language or framework rule, 85 for a cloud
    rule. *)
Theorem reasoning_follows_selection index_file langs fws clouds m r :
  generate_selection_report index_file langs fws clouds m = Ok r →
  Forall2 (λ x item, reason_rule item = name x ∧
                     score item = Views.score_of (category x))
          (selected_rules r) (selection_reasoning r) ∧
  length (selection_reasoning r) = total_rules_selected r.
Proof.
  unfold generate_selection_report.
  intros (all_rules & Hparse & [= <-])%bind_Ok. simpl.
  destruct (parse_index_categories _ _ Hparse) as (Hb & Hl & Hf & Hc).
  assert (Forall2 (λ x item, reason_rule item = name x ∧
                             score item = Views.score_of (category x))
            (filter (λ r, is_critical r = true) (base_rules all_rules)
             ++ filter (λ r, matches (language r) langs = true)
                       (language_rules all_rules)
             ++ filter (λ r, matches (framework r) fws = true)
                       (framework_rules all_rules)
             ++ filter (λ r, matches (cloud_provider r) clouds = true)
                       (cloud_rules all_rules)) _) as Hall
    by (apply score_of_parts; by apply Forall_filter).
  split; [exact Hall|]. symmetry. by eapply Forall2_length.
Qed.

(** X7: the maturity of the project is echoed in the report and has no
    other effect: the totals, the efficiency, the selected rules, the
    reasoning and the breakdown are the same for every maturity. *)
Theorem selection_ignores_maturity index_file langs fws clouds m m' :
  Views.selection_of
    <$> generate_selection_report index_file langs fws clouds m
  = Views.selection_of
    <$> generate_selection_report index_file langs fws clouds m'.
Proof.
  unfold generate_selection_report.
  by destruct (parse_index index_file).
Qed.

(** X8: with no index file, or an index without entries, the report says 0
    available, 0 selected, 0 tokens and the efficiency "0%": nothing is
    divided, whatever the context. *)
Theorem selection_of_empty_catalog index_file langs fws clouds m :
  default [] (index_entries <$> index_file) = [] →
  Views.selection_of
    <$> generate_selection_report index_file langs fws clouds m
  = Ok (0, 0, 0%Z, "0%", [], [],
        {| breakdown_base := 0; breakdown_language := 0;
           breakdown_framework := 0; breakdown_cloud := 0 |}).
Proof.
  intros Hempty.
  assert (parse_index index_file = Ok empty_rules) as Hparse.
  { destruct index_file as [index|]; [|done]. simpl in Hempty.
    destruct (parse_index_total (Some index)) as [all_rules Hok].
    { intros ? [= <-]. rewrite Hempty. constructor. }
    pose proof (parse_index_loaded_from _ _ Hok) as Hall.
    rewrite Hempty in Hall. apply Forall2_nil_inv_l in Hall.
    rewrite Hok. f_equal. destruct all_rules as [b l f c].
    unfold loaded_rules in Hall. simpl in Hall.
    apply app_eq_nil in Hall as [-> Hall].
    apply app_eq_nil in Hall as [-> Hall].
    by apply app_eq_nil in Hall as [-> ->]. }
  unfold generate_selection_report. by rewrite Hparse.
Qed.

(** X9: for an index file, [total_rules_available] is the number of
    entries of the index, all four sections together. *)
Theorem available_counts_entries index langs fws clouds m r :
  generate_selection_report (Some index) langs fws clouds m = Ok r →
  total_rules_available r = length (index_entries index).
Proof.
  intros (all_rules & Hparse & _ & _ & -> & _)%selection_report_Ok.
  apply parse_index_loaded_from in Hparse.
  symmetry. by eapply Forall2_length.
Qed.

Lemma sum_tokens_app l1 l2 :
  sum_tokens (l1 ++ l2) = (sum_tokens l1 + sum_tokens l2)%Z.
Proof.
  unfold sum_tokens. induction l1 as [|r l1 IH]; simpl; [done|].
  rewrite IH. lia.
Qed.

Lemma sum_tokens_const k l :
  Forall (λ r, estimated_tokens r = k) l →
  sum_tokens l = (k * Z.of_nat (length l))%Z.
Proof.
  unfold sum_tokens. induction 1 as [|r l Hr _ IH]; simpl; [lia|].
  rewrite IH, Hr. lia.
Qed.

(** Without explicit estimates each bucket has the default of its
    category. *)
Lemma parse_index_default_tokens index_file all_rules :
  (∀ index, index_file = Some index →
     Forall (λ e, entry_estimatedTokens e = None) (index_entries index)) →
  parse_index index_file = Ok all_rules →
  Forall (λ r, estimated_tokens r = 800%Z) (base_rules all_rules) ∧
  Forall (λ r, estimated_tokens r = 1000%Z) (language_rules all_rules) ∧
  Forall (λ r, estimated_tokens r = 1200%Z) (framework_rules all_rules) ∧
  Forall (λ r, estimated_tokens r = 1400%Z) (cloud_rules all_rules).
Proof.
  destruct index_file as [index|]; intros Hnone.
  - specialize (Hnone index eq_refl).
    rewrite index_entries_sections in Hnone. simpl in Hnone.
    rewrite !Forall_app in Hnone. destruct Hnone as (Hb' & Hl' & Hf' & Hc').
    rewrite Forall_forall in Hb', Hl', Hf', Hc'.
    intros (rules & -> & Hb & Hl & Hf & Hc)%parse_index_Ok.
    rewrite !Forall_forall. repeat split; intros r Hr.
    + destruct (mapM_Ok_elem_r _ _ _ _ Hb Hr) as (e & He & Hp).
      apply parse_rule_Ok_fields in Hp as (_ & _ & _ & _ & ->).
      by rewrite (Hb' e He).
    + destruct (parse_keyed_elem_r _ _ _ _ Hl Hr) as (k & e & He & Hp).
      apply parse_rule_Ok_fields in Hp as (_ & _ & _ & _ & ->).
      by rewrite (Hl' e He).
    + destruct (parse_keyed_elem_r _ _ _ _ Hf Hr) as (k & e & He & Hp).
      apply parse_rule_Ok_fields in Hp as (_ & _ & _ & _ & ->).
      by rewrite (Hf' e He).
    + destruct (parse_keyed_elem_r _ _ _ _ Hc Hr) as (k & e & He & Hp).
      apply parse_rule_Ok_fields in Hp as (_ & _ & _ & _ & ->).
      by rewrite (Hc' e He).
  - intros [= <-]. simpl. repeat split; constructor.
Qed.

Lemma breakdown_parts (sb sl sf sc : list RuleMetadata) :
  Forall (λ r, category r = "base") sb →
  Forall (λ r, category r = "language") sl →
  Forall (λ r, category r = "framework") sf →
  Forall (λ r, category r = "cloud") sc →
  count_category "base" (sb ++ sl ++ sf ++ sc) = length sb ∧
  count_category "language" (sb ++ sl ++ sf ++ sc) = length sl ∧
  count_category "framework" (sb ++ sl ++ sf ++ sc) = length sf ∧
  count_category "cloud" (sb ++ sl ++ sf ++ sc) = length sc.
Proof.
  intros Hsb Hsl Hsf Hsc. rewrite !count_category_app.
  rewrite (count_category_same _ _ Hsb), (count_category_same _ _ Hsl),
    (count_category_same _ _ Hsf), (count_category_same _ _ Hsc).
  rewrite (count_category_other "language" "base" sl),
    (count_category_other "framework" "base" sf),
    (count_category_other "cloud" "base" sc),
    (count_category_other "base" "language" sb),
    (count_category_other "framework" "language" sf),
    (count_category_other "cloud" "language" sc),
    (count_category_other "base" "framework" sb),
    (count_category_other "language" "framework" sl),
    (count_category_other "cloud" "framework" sc),
    (count_category_other "base" "cloud" sb),
    (count_category_other "language" "cloud" sl),
    (count_category_other "framework" "cloud" sf) by done.
  lia.
Qed.

(** X10: when no entry of the index gives "estimatedTokens", the token
    total of the report is 800 per selected base rule, 1000 per language
    rule, 1200 per framework rule and 1400 per cloud rule. *)
Theorem default_token_total index_file langs fws clouds m r :
  (∀ index, index_file = Some index →
     Forall (λ e, entry_estimatedTokens e = None) (index_entries index)) →
  generate_selection_report index_file langs fws clouds m = Ok r →
  total_estimated_tokens r =
    (800 * Z.of_nat (breakdown_base (breakdown r))
     + 1000 * Z.of_nat (breakdown_language (breakdown r))
     + 1200 * Z.of_nat (breakdown_framework (breakdown r))
     + 1400 * Z.of_nat (breakdown_cloud (breakdown r)))%Z.
Proof.
  intros Hnone (all_rules & Hparse & Hsel & _ & _ & -> & ->)
    %selection_report_Ok.
  destruct (parse_index_categories _ _ Hparse) as (Hb & Hl & Hf & Hc).
  destruct (parse_index_default_tokens _ _ Hnone Hparse)
    as (Tb & Tl & Tf & Tc).
  rewrite Hsel. simpl.
  destruct (breakdown_parts
              (filter (λ r, is_critical r = true) (base_rules all_rules))
              (filter (λ r, matches (language r) langs = true)
                      (language_rules all_rules))
              (filter (λ r, matches (framework r) fws = true)
                      (framework_rules all_rules))
              (filter (λ r, matches (cloud_provider r) clouds = true)
                      (cloud_rules all_rules)))
    as (-> & -> & -> & ->); [by apply Forall_filter..|].
  rewrite !sum_tokens_app.
  rewrite (sum_tokens_const 800), (sum_tokens_const 1000),
    (sum_tokens_const 1200), (sum_tokens_const 1400)
    by by apply Forall_filter.
  lia.
Qed.

End selector_properties.

(** ** Topics of a rule path *)

Section path_topics.

Lemma split_on_nonempty sep s : Py.split_on sep s ≠ [].
Proof.
  destruct s as [|c s]; simpl; [done|].
  destruct (Ascii.eqb c sep); [done|]. by destruct (Py.split_on sep s).
Qed.

Lemma split_on_app sep a b :
  Py.split_on sep (a +:+ String sep b)
  = Py.split_on sep a ++ Py.split_on sep b.
Proof.
  induction a as [|c a IH].
  - simpl. change ("" +:+ String sep b) with (String sep b). simpl.
    by rewrite Ascii.eqb_refl.
  - change (String c a +:+ String sep b) with (String c (a +:+ String sep b)).
    simpl. destruct (Ascii.eqb c sep).
    + by rewrite IH.
    + rewrite IH. pose proof (split_on_nonempty sep a).
      by destruct (Py.split_on sep a).
Qed.

Lemma split_on_no_sep name :
  Py.contains "/" name = false → Py.split_on "/" name = [name].
Proof.
  induction name as [|c name IH]; [done|].
  change (Py.contains "/" (String c name))
    with ((if ascii_dec "/" c then String.prefix "" name else false)
          || Py.contains "/" name).
  destruct (ascii_dec "/" c) as [<-|Hne].
  - by destruct name.
  - intros Hrest. cbn [Py.split_on]. rewrite (IH Hrest).
    destruct (Ascii.eqb_spec c "/"); [congruence|done].
Qed.

Lemma path_name_last dir name :
  Py.contains "/" name = false → name ≠ "" → name ≠ "." →
  Py.path_name (dir +:+ "/" +:+ name) = name.
Proof.
  intros Hslash Hne Hdot. unfold Py.path_name.
  change (dir +:+ "/" +:+ name) with (dir +:+ String "/" name).
  rewrite split_on_app, filter_app, (split_on_no_sep name Hslash).
  rewrite filter_cons, decide_True by done.
  change (filter _ []) with (@nil string). apply last_last.
Qed.

Lemma path_name_single name :
  Py.contains "/" name = false → name ≠ "" → name ≠ "." →
  Py.path_name name = name.
Proof.
  intros Hslash Hne Hdot. unfold Py.path_name.
  rewrite (split_on_no_sep name Hslash).
  by rewrite filter_cons, decide_True by done.
Qed.

(** X11: the topics of a rule depend on the file name alone, not on the
    directories of its path: a keyword in a directory name adds no
    topic. *)
Theorem topics_from_file_name dir name :
  Py.contains "/" name = false → name ≠ "" → name ≠ "." →
  RulesParser._extract_topics_from_path (dir +:+ "/" +:+ name)
  = RulesParser._extract_topics_from_path name.
Proof.
  intros Hslash Hne Hdot. unfold RulesParser._extract_topics_from_path.
  unfold Py.path_stem.
  by rewrite path_name_last, path_name_single.
Qed.

End path_topics.

(** ** The corpus scan *)

Section scan_properties.
Import MECE.
Context `{PyRegex}.

Lemma mapM_Ok_fmap {A B C} (f : A → result B) (g : B → C) (h : A → C)
    (l : list A) (l' : list B) :
  (∀ x y, f x = Ok y → g y = h x) →
  mapM f l = Ok l' → g <$> l' = h <$> l.
Proof.
  intros Hgh HM%mapM_Ok.
  induction HM as [|x y l l' Hxy _ IH]; [done|].
  rewrite !fmap_cons. by rewrite IH, (Hgh x y Hxy).
Qed.

Lemma analyze_file_layout rel_dir file cat analysis :
  _analyze_file rel_dir file cat = Ok analysis →
  (file_path analysis, category analysis)
  = (rel_dir +:+ "/" +:+ md_name file, cat).
Proof.
  unfold _analyze_file. destruct (md_read file); [|discriminate].
  by intros [= <-].
Qed.

Lemma analyze_nested_layout dir_name cat dir analyses :
  analyze_nested dir_name cat dir = Ok analyses →
  (λ a, (file_path a, category a)) <$> analyses
  = Views.nested_layout dir_name cat dir.
Proof.
  unfold analyze_nested, Views.nested_layout.
  destruct dir as [entries|]; [|by intros [= <-]].
  intros (rows & HM%mapM_Ok & ->)%fmap_Ok.
  induction HM as [|folder row entries rows Hrow _ IH]; [done|].
  simpl. rewrite fmap_app, IH. f_equal.
  destruct (entry_is_dir folder); [|by simplify_eq].
  eapply mapM_Ok_fmap; [|exact Hrow].
  intros file a Ha. simpl. by apply analyze_file_layout in Ha.
Qed.


Lemma nested_layout_length dir_name cat dir :
  length (Views.nested_layout dir_name cat dir) = length (nested_files dir).
Proof.
  unfold Views.nested_layout, nested_files.
  destruct dir as [entries|]; [|done].
  change (default [] (Some entries)) with entries.
  induction entries as [|folder entries IH]; [done|].
  rewrite fmap_cons, filter_cons. cbn [mjoin list_join].
  rewrite length_app.
  destruct (entry_is_dir folder) eqn:Hdir.
  - rewrite decide_True by done.
    rewrite fmap_cons. cbn [mjoin list_join].
    rewrite length_app, length_fmap. f_equal. exact IH.
  - rewrite decide_False by done. exact IH.
Qed.

Lemma analyze_all_files_layout repo analyses :
  _analyze_all_files repo = Ok analyses →
  (λ a, (file_path a, category a)) <$> analyses = Views.corpus_layout repo.
Proof.
  unfold _analyze_all_files, Views.corpus_layout.
  intros (b & Hb & (l & Hl & (f & Hf & (c & Hc & [= <-])%bind_Ok)%bind_Ok)
            %bind_Ok)%bind_Ok.
  rewrite !fmap_app.
  rewrite (analyze_nested_layout _ _ _ _ Hl),
    (analyze_nested_layout _ _ _ _ Hf), (analyze_nested_layout _ _ _ _ Hc).
  f_equal. destruct (base_dir repo) as [files|]; [|by simplify_eq].
  simpl. eapply mapM_Ok_fmap; [|exact Hb].
  intros file a Ha. by apply analyze_file_layout in Ha.
Qed.

Lemma corpus_layout_length repo :
  length (Views.corpus_layout repo) = length (corpus_files repo).
Proof.
  unfold Views.corpus_layout, corpus_files.
  by rewrite !length_app, !nested_layout_length, length_fmap.
Qed.


(** X12: when [_analyze_all_files] returns, it holds one profile per file
    of the corpus, in scan order; the profile of [base/f] has the path
    [base/f] and the category "base", the profile of [languages/d/f] the
    path [languages/d/f] and the category "language/d", and likewise for
    [frameworks] and [cloud]. *)
Theorem analyze_all_files_profiles repo analyses :
  _analyze_all_files repo = Ok analyses →
  (λ a, (file_path a, category a)) <$> analyses = Views.corpus_layout repo ∧
  length analyses = length (corpus_files repo).
Proof.
  intros Hlayout%analyze_all_files_layout. split; [done|].
  by rewrite <- corpus_layout_length, <- Hlayout, length_fmap.
Qed.




Lemma lower_char_idemp c : Py.lower_char (Py.lower_char c) = Py.lower_char c.
Proof. by destruct c as [[] [] [] [] [] [] [] []]. Qed.

Lemma lower_idemp s : Py.lower (Py.lower s) = Py.lower s.
Proof.
  induction s as [|c s IH]; [done|]. simpl.
  by rewrite lower_char_idemp, IH.
Qed.

(** X15: every keyword of a profile is in lower case, whatever the case
    of the matched text. *)
Theorem extract_keywords_lower content k :
  k ∈ _extract_keywords content → Py.lower k = k.
Proof.
  unfold _extract_keywords.
  generalize (re_sub "```.*?```" "" [DOTALL] content). intros text.
  assert (∀ (acc : gset string) patterns,
            (∀ k, k ∈ acc → Py.lower k = k) →
            ∀ k, k ∈ foldl (λ keywords pattern,
                   keywords ∪ list_to_set
                     (Py.lower <$> re_findall1 pattern [IGNORECASE] text))
                   acc patterns → Py.lower k = k) as Hfold.
  { intros acc patterns. revert acc.
    induction patterns as [|pattern patterns IH]; intros acc Hacc; [done|].
    simpl. apply IH. intros k' [Hk'|Hk']%elem_of_union; [by apply Hacc|].
    apply elem_of_list_to_set, list_elem_of_fmap in Hk' as (m & -> & _).
    apply lower_idemp. }
  apply Hfold. intros k' Hk'. by apply elem_of_empty in Hk'.
Qed.

End scan_properties.

(** ** Overlap reports *)

Section overlap_properties.
Import MECE.
Context `{PyFloat} `{PySetOrder}.

(** X16: a pair of different categories, or with at most 3 shared keywords
    and at most 2 shared topics, is skipped: nothing is divided, nothing is
    raised and nothing is reported, even for profiles without keywords. *)
Theorem compare_pair_skipped analysis1 analysis2 :
  category analysis1 ≠ category analysis2 ∨
  (size (keywords analysis1 ∩ keywords analysis2) ≤ 3 ∧
   size (topics analysis1 ∩ topics analysis2) ≤ 2) →
  compare_pair analysis1 analysis2 = Ok None.
Proof.
  unfold compare_pair. intros [Hcat|[Hk Ht]].
  - by rewrite bool_decide_eq_true_2.
  - destruct (bool_decide _); [done|].
    apply Nat.ltb_ge in Hk, Ht. by rewrite Hk, Ht.
Qed.

Lemma sorted_list_elem (s : gset string) n x :
  x ∈ take n (sorted_list s) → x ∈ s.
Proof.
  intros Hx. apply elem_of_elements. rewrite <- set_iter_perm.
  unfold sorted_list in Hx.
  rewrite <- (merge_sort_Permutation String.le (set_iter s)).
  eapply elem_of_submseteq; [exact Hx|].
  apply sublist_submseteq, sublist_take.
Qed.

Lemma compare_pair_report analysis1 analysis2 r :
  compare_pair analysis1 analysis2 = Ok (Some r) →
  (3 < size (keywords analysis1 ∩ keywords analysis2) ∨
   2 < size (topics analysis1 ∩ topics analysis2)) ∧
  length (common_keywords r) ≤ 10 ∧ length (common_topics r) ≤ 5 ∧
  (∀ k, k ∈ common_keywords r →
        k ∈ keywords analysis1 ∧ k ∈ keywords analysis2) ∧
  (∀ t, t ∈ common_topics r → t ∈ topics analysis1 ∧ t ∈ topics analysis2).
Proof.
  unfold compare_pair. destruct (bool_decide _); [discriminate|].
  destruct (_ || _) eqn:Hpre; [|discriminate].
  destruct (pair_score analysis1 analysis2) as [score|e]; [|discriminate].
  simpl. destruct (float_gtb _ _); [|discriminate].
  intros [= <-]. simpl.
  split.
  { apply orb_true_iff in Hpre as [Hk|Ht]; [left|right]; by apply Nat.ltb_lt. }
  split; [rewrite length_take; lia|]. split; [rewrite length_take; lia|].
  split; intros x Hx%sorted_list_elem; set_solver.
Qed.

(** X17: every report of [_find_overlaps] is about two documents of the
    list that passed the pre-filter (more than 3 shared keywords or more
    than 2 shared topics); it lists at most 10 keywords and at most 5
    topics, each of them common to the two documents. *)
Theorem find_overlaps_reports analyses overlaps r :
  _find_overlaps analyses = Ok overlaps → r ∈ overlaps →
  ∃ a b,
    a ∈ analyses ∧ b ∈ analyses ∧
    file1 r = file_path a ∧ file2 r = file_path b ∧
    (3 < size (keywords a ∩ keywords b) ∨ 2 < size (topics a ∩ topics b)) ∧
    length (common_keywords r) ≤ 10 ∧ length (common_topics r) ≤ 5 ∧
    (∀ k, k ∈ common_keywords r → k ∈ keywords a ∧ k ∈ keywords b) ∧
    (∀ t, t ∈ common_topics r → t ∈ topics a ∧ t ∈ topics b).
Proof.
  unfold _find_overlaps. intros (rs & Hrs & [= <-])%bind_Ok Hr.
  rewrite sort_desc_perm in Hr.
  destruct (overlap_pairs_elem _ _ _ Hrs Hr)
    as (i & j & a & b & _ & Hi & Hj & Hcmp).
  exists a, b.
  split; [by eapply list_elem_of_lookup_2|].
  split; [by eapply list_elem_of_lookup_2|].
  destruct (compare_pair_Some _ _ _ Hcmp) as (_ & ? & ?).
  split; [done|]. split; [done|]. by apply compare_pair_report.
Qed.

Lemma insert_desc_sorted r l :
  (∀ x y, float_gtb x y = true → float_gtb y x = false) →
  Views.descending l → Views.descending (insert_desc r l).
Proof.
  intros Hasym. unfold Views.descending.
  induction 1 as [|r' l Hl IH Hhd]; simpl.
  - repeat constructor.
  - destruct (float_gtb (overlap_score r) (overlap_score r')) eqn:Hgt.
    + constructor; [by constructor|]. constructor. by apply Hasym.
    + constructor; [exact IH|].
      destruct l as [|r'' l]; simpl.
      * by constructor.
      * destruct (float_gtb (overlap_score r) (overlap_score r''));
          constructor; [done|]. by inversion Hhd.
Qed.

Lemma sort_desc_sorted l :
  (∀ x y, float_gtb x y = true → float_gtb y x = false) →
  Views.descending (sort_desc l).
Proof.
  intros Hasym. unfold sort_desc.
  assert (∀ acc, Views.descending acc →
            Views.descending (foldl (λ sorted r, insert_desc r sorted) acc l))
    as Hgen.
  { induction l as [|r l IH]; intros acc Hacc; [done|].
    simpl. by apply IH, insert_desc_sorted. }
  apply Hgen. constructor.
Qed.

(** X18: on floats, where [x > y] excludes [y > x], the reports of
    [_find_overlaps] come in descending order of score: no report is
    followed by one with a greater score. *)
Theorem find_overlaps_descending analyses overlaps :
  (∀ x y, float_gtb x y = true → float_gtb y x = false) →
  _find_overlaps analyses = Ok overlaps →
  Views.descending overlaps.
Proof.
  intros Hasym. unfold _find_overlaps.
  intros (rs & _ & [= <-])%bind_Ok. by apply sort_desc_sorted.
Qed.

End overlap_properties.

(** ** The numbers of an analysis *)

Section analysis_numbers.
Import MECE.
Context `{PyFloat} `{PySetOrder} `{PyRegex}.

Lemma length_omap_le {A B} (f : A → option B) (l : list A) :
  length (omap f l) ≤ length l.
Proof.
  unfold omap. induction l as [|x l IH]; [done|]. simpl.
  destruct (f x); simpl; lia.
Qed.

Lemma filter_none {A} (P : A → Prop) `{!∀ x, Decision (P x)} (l : list A) :
  Forall (λ x, ¬ P x) l → filter P l = [].
Proof.
  induction 1 as [|x l Hx _ IH]; [done|].
  by rewrite filter_cons, decide_False.
Qed.

Lemma overlap_pairs_length analyses rs :
  overlap_pairs analyses = Ok rs →
  2 * length rs ≤ length analyses * (length analyses - 1).
Proof.
  revert rs. induction analyses as [|analysis1 later IH]; intros rs.
  - by intros [= <-].
  - simpl. intros (here & Hhere & (rest & Hrest & [= <-])%bind_Ok)%bind_Ok.
    specialize (IH _ Hrest).
    unfold compare_with in Hhere.
    apply fmap_Ok in Hhere as (os & Hos%mapM_Ok_length & ->).
    pose proof (length_omap_le id os). rewrite length_app. nia.
Qed.

Lemma language_gaps_length lang_analyses lang expected_topics :
  length (language_gaps lang_analyses lang expected_topics)
  ≤ 1 `max` length expected_topics.
Proof.
  unfold language_gaps. destruct (lang_analyses !! lang); simpl; [|lia].
  pose proof (length_omap_le
    (λ expected,
       if topic_found expected (union_topics l) then None
       else Some {| gap_category := "language/" +:+ lang;
                    missing_topics := [expected];
                    recommendation :=
                      "Add languages/" +:+ lang +:+ "/" +:+ expected
                      +:+ ".md" |}) expected_topics). lia.
Qed.

Lemma language_gaps_not_base lang_analyses lang expected_topics g :
  g ∈ language_gaps lang_analyses lang expected_topics →
  gap_category g ≠ "base".
Proof.
  unfold language_gaps. destruct (lang_analyses !! lang).
  - intros (expected & _ & Hg)%elem_of_omap_Some.
    destruct (topic_found _ _); [discriminate|]. by injection Hg as <-.
  - by intros ->%list_elem_of_singleton.
Qed.

Lemma find_gaps_length analyses :
  length (_find_gaps analyses) ≤ 29 ∧
  length (filter (λ g, gap_category g = "base") (_find_gaps analyses)) ≤ 9.
Proof.
  unfold _find_gaps.
  pose proof (length_omap_le
    (λ expected,
       if topic_found expected
            (union_topics (filter (λ a, category a = "base") analyses))
       then None
       else Some {| gap_category := "base";
                    missing_topics := [expected];
                    recommendation :=
                      "Create base/" +:+ expected +:+ ".md to cover "
                      +:+ Py.replace_char "-" " " expected
                      +:+ " best practices" |}) expected_base) as Hbase.
  change (length expected_base) with 9 in Hbase.
  fold (base_gaps analyses) in Hbase.
  split.
  - rewrite length_app. unfold expected_language.
    rewrite !fmap_cons. cbn [mjoin list_join fmap list_fmap fst snd].
    rewrite !length_app. simpl length at 6.
    pose proof (language_gaps_length (group_by_language analyses) "python"
      ["coding-standards"; "testing"; "async"; "packaging"]).
    pose proof (language_gaps_length (group_by_language analyses) "typescript"
      ["coding-standards"; "testing"; "types"; "async"]).
    pose proof (language_gaps_length (group_by_language analyses) "go"
      ["coding-standards"; "testing"; "concurrency"; "error-handling"]).
    pose proof (language_gaps_length (group_by_language analyses) "java"
      ["coding-standards"; "testing"; "spring"; "design-patterns"]).
    pose proof (language_gaps_length (group_by_language analyses) "rust"
      ["coding-standards"; "testing"; "ownership"; "error-handling"]).
    simpl in *. lia.
  - rewrite filter_app, length_app.
    pose proof (length_filter (λ g, gap_category g = "base")
                  (base_gaps analyses)).
    assert (filter (λ g, gap_category g = "base")
              (mjoin ((λ le, language_gaps (group_by_language analyses)
                               le.1 le.2) <$> expected_language)) = [])
      as ->; [|simpl; lia].
    apply filter_none, Forall_forall.
    intros g (gs & Hg & Hgs)%list_elem_of_join.
    apply list_elem_of_fmap in Hgs as ([lang exp] & -> & _).
    by eapply language_gaps_not_base.
Qed.

(** X19: in the result of [analyze], [files_analyzed] is the number of
    files of the corpus, the detailed overlap reports are the first 10 of
    [total_overlaps] (all of them when there are fewer), which is at most
    the number of pairs of files; there are at most 29 gaps, at most 9 of
    them critical. *)
Theorem analyze_numbers repo res :
  analyze repo = Ok res →
  files_analyzed res = length (corpus_files repo) ∧
  total_files (analysis_summary res) = files_analyzed res ∧
  length (overlap_reports res) = 10 `min` total_overlaps res ∧
  2 * total_overlaps res ≤ files_analyzed res * (files_analyzed res - 1) ∧
  high_overlap_count (analysis_summary res) ≤ total_overlaps res ∧
  total_gaps res = length (gap_reports res) ∧
  total_gaps res ≤ 29 ∧
  critical_gaps (analysis_summary res) ≤ 9.
Proof.
  unfold analyze.
  intros (analyses & Hall & (overlaps & Hov & [= <-])%bind_Ok)%bind_Ok.
  simpl.
  pose proof (analyze_all_files_layout _ _ Hall) as Hlayout.
  apply (f_equal length) in Hlayout.
  rewrite length_fmap, corpus_layout_length in Hlayout.
  unfold _find_overlaps in Hov.
  apply bind_Ok in Hov as (rs & Hrs%overlap_pairs_length & [= <-]).
  pose proof (Permutation_length (sort_desc_perm rs)) as Hsorted.
  destruct (find_gaps_length analyses) as [Hgaps Hcrit].
  pose proof (length_filter
    (λ o, float_gtb (overlap_score o) (int_truediv 1 2) = true)
    (sort_desc rs)) as Hhigh.
  rewrite length_take, Hsorted.
  repeat (split; [first [done | lia]|]). done.
Qed.

End analysis_numbers.

(** ** Coverage gaps *)

Section gap_properties.
Import MECE.
Context `{PySetOrder}.

Lemma prefix_nil s : String.prefix "" s = true.
Proof. by destruct s. Qed.

Lemma prefix_app n a b :
  String.prefix n a = true → String.prefix n (a +:+ b) = true.
Proof.
  revert a. induction n as [|c n IH]; intros a; [intros _; apply prefix_nil|].
  destruct a as [|d a]; [discriminate|].
  change (String d a +:+ b) with (String d (a +:+ b)).
  cbn [String.prefix]. destruct (ascii_dec c d); [apply IH|done].
Qed.

Lemma contains_nil h : Py.contains "" h = true.
Proof. destruct h; reflexivity. Qed.

Lemma contains_app_r n a b :
  Py.contains n b = true → Py.contains n (a +:+ b) = true.
Proof.
  intros Hb. induction a as [|c a IH]; [done|].
  change (String c a +:+ b) with (String c (a +:+ b)).
  cbn [Py.contains]. rewrite IH. apply orb_true_r.
Qed.

Lemma contains_app_l n a b :
  Py.contains n a = true → Py.contains n (a +:+ b) = true.
Proof.
  induction a as [|c a IH].
  - cbn [Py.contains]. rewrite orb_false_r. destruct n; [|discriminate].
    intros _. apply contains_nil.
  - change (String c a +:+ b) with (String c (a +:+ b)).
    cbn [Py.contains]. intros [Hp|Ha]%orb_true_iff.
    + pose proof (prefix_app _ _ b Hp) as Hp'.
      change (String c a +:+ b) with (String c (a +:+ b)) in Hp'.
      by rewrite Hp'.
    + rewrite (IH Ha). apply orb_true_r.
Qed.

Lemma contains_join n sep (l : list string) t :
  t ∈ l → Py.contains n t = true → Py.contains n (Py.join sep l) = true.
Proof.
  intros Ht Hn. induction l as [|p ps IH]; [by apply elem_of_nil in Ht|].
  destruct ps as [|q qs].
  - apply list_elem_of_singleton in Ht as ->. exact Hn.
  - change (Py.join sep (p :: q :: qs))
      with (p +:+ sep +:+ Py.join sep (q :: qs)).
    apply elem_of_cons in Ht as [->|Ht].
    + by apply contains_app_l.
    + by apply contains_app_r, contains_app_r, IH.
Qed.

Lemma union_topics_elem (analyses : list ContentAnalysis) a t :
  a ∈ analyses → t ∈ topics a → t ∈ union_topics analyses.
Proof.
  unfold union_topics. intros Ha Ht.
  assert (∀ acc : gset string,
            t ∈ acc ∨ (∃ a, a ∈ analyses ∧ t ∈ topics a) →
            t ∈ foldl (λ acc analysis, acc ∪ topics analysis) acc analyses)
    as Hgen.
  { clear a Ha Ht. induction analyses as [|a l IH]; intros acc.
    - intros [Hacc|(a & Ha & _)]; [done|by apply elem_of_nil in Ha].
    - simpl. intros [Hacc|(a' & Ha' & Ht)]; apply IH.
      + left. set_solver.
      + apply elem_of_cons in Ha' as [->|Ha']; [left; set_solver|].
        right. by exists a'. }
  apply Hgen. right. by exists a.
Qed.

Lemma topic_found_elem expected (topics : gset string) t :
  t ∈ topics → Py.contains (Py.replace_char "-" " " expected) t = true →
  topic_found expected topics = true.
Proof.
  intros Ht Hc. unfold topic_found. eapply contains_join; [|exact Hc].
  rewrite set_iter_perm. by apply elem_of_elements.
Qed.

(** X20: an expected base topic is covered as soon as one base document
    has a topic (its file name or a heading) that contains the topic, with
    hyphens read as spaces: no base gap is then reported for it, in
    whatever order the topics are joined. *)
Theorem base_topic_covered analyses a t expected g :
  a ∈ analyses → category a = "base" → t ∈ topics a →
  Py.contains (Py.replace_char "-" " " expected) t = true →
  g ∈ _find_gaps analyses → gap_category g = "base" →
  missing_topics g ≠ [expected].
Proof.
  intros Ha Hcat Ht Hc Hg Hbase Hmissing.
  unfold _find_gaps in Hg. apply elem_of_app in Hg as [Hg|Hg].
  - unfold base_gaps in Hg.
    apply elem_of_omap_Some in Hg as (e & _ & Hg).
    destruct (topic_found e _) eqn:Hfound; [discriminate|].
    injection Hg as <-. simpl in Hmissing. injection Hmissing as ->.
    rewrite (topic_found_elem expected _ t) in Hfound; [discriminate| |done].
    eapply union_topics_elem; [|exact Ht].
    by apply list_elem_of_filter.
  - apply list_elem_of_join in Hg as (gs & Hg & Hgs).
    apply list_elem_of_fmap in Hgs as ([lang exp] & -> & _).
    unfold language_gaps in Hg. simpl in Hg.
    destruct (group_by_language analyses !! lang).
    + apply elem_of_omap_Some in Hg as (e & _ & Hg).
      destruct (topic_found e _); [discriminate|].
      injection Hg as <-. discriminate.
    + apply list_elem_of_singleton in Hg as ->. discriminate.
Qed.

Lemma group_by_language_lookup analyses lang :
  group_by_language analyses !! lang =
    match Views.language_docs analyses lang with
    | [] => None
    | docs => Some docs
    end.
Proof.
  unfold group_by_language.
  set (step := λ (lang_analyses : gmap string (list ContentAnalysis))
                 (analysis : ContentAnalysis),
         if Py.startswith (category analysis) "language/" then
           let lang :=
             default "" (Py.split_on "/" (category analysis) !! 1) in
           <[ lang := default [] (lang_analyses !! lang) ++ [analysis] ]>
             lang_analyses
         else lang_analyses).
  assert (∀ acc a,
            step acc a
            = match Views.language_of a with
              | Some key => <[ key := default [] (acc !! key) ++ [a] ]> acc
              | None => acc
              end) as Hstep.
  { intros acc a. unfold step, Views.language_of.
    by destruct (Py.startswith (category a) "language/"). }
  assert (∀ acc : gmap string (list ContentAnalysis),
    foldl step acc analyses !! lang =
    match Views.language_docs analyses lang with
    | [] => acc !! lang
    | docs => Some (default [] (acc !! lang) ++ docs)
    end) as Hgen.
  { clearbody step.
    induction analyses as [|a l IH]; intros acc; [done|].
    cbn [foldl]. rewrite IH, Hstep. unfold Views.language_docs.
    rewrite filter_cons.
    destruct (Views.language_of a) as [key|].
    - destruct (decide (key = lang)) as [->|Hne].
      + rewrite decide_True by done. rewrite lookup_insert_eq. simpl.
        destruct (filter _ l); [done|]. by rewrite <- app_assoc.
      + rewrite decide_False by congruence.
        by rewrite lookup_insert_ne.
    - by rewrite decide_False. }
  rewrite Hgen, lookup_empty. by destruct (Views.language_docs analyses lang).
Qed.

Lemma language_gaps_category lang_analyses lang expected_topics :
  Forall (λ g, gap_category g = "language/" +:+ lang)
         (language_gaps lang_analyses lang expected_topics).
Proof.
  apply Forall_forall. intros g. unfold language_gaps.
  destruct (lang_analyses !! lang).
  - intros (expected & _ & Hg)%elem_of_omap_Some.
    destruct (topic_found _ _); [discriminate|]. by injection Hg as <-.
  - by intros ->%list_elem_of_singleton.
Qed.

Lemma filter_all {A} (P : A → Prop) `{!∀ x, Decision (P x)} (l : list A) :
  Forall P l → filter P l = l.
Proof.
  induction 1 as [|x l Hx _ IH]; [done|].
  by rewrite filter_cons, decide_True, IH.
Qed.

Lemma filter_language_gaps lang_analyses lang lang' expected_topics :
  filter (λ g, gap_category g = "language/" +:+ lang)
         (language_gaps lang_analyses lang' expected_topics)
  = if decide (lang' = lang)
    then language_gaps lang_analyses lang' expected_topics else [].
Proof.
  pose proof (language_gaps_category lang_analyses lang' expected_topics)
    as Hcat.
  destruct (decide (lang' = lang)) as [->|Hne].
  - by apply filter_all.
  - apply filter_none. eapply Forall_impl; [exact Hcat|].
    intros g -> Heq. by apply (inj (String.app "language/")) in Heq.
Qed.

Lemma filter_base_gaps analyses lang :
  filter (λ g, gap_category g = "language/" +:+ lang) (base_gaps analyses)
  = [].
Proof.
  apply filter_none, Forall_forall. intros g. unfold base_gaps.
  intros (expected & _ & Hg)%elem_of_omap_Some.
  destruct (topic_found _ _); [discriminate|]. injection Hg as <-.
  simpl. discriminate.
Qed.

(** X21: for each language of the table, the gaps of category
    "language/<lang>" are: when the corpus has no document of that
    language, one gap that lists all its expected topics; otherwise one gap
    for each expected topic that is not found in the topics of the
    documents of that language. *)
Theorem language_gaps_of analyses lang expected_topics :
  (lang, expected_topics) ∈ expected_language →
  filter (λ g, gap_category g = "language/" +:+ lang) (_find_gaps analyses)
  = match Views.language_docs analyses lang with
    | [] =>
        [ {| gap_category := "language/" +:+ lang;
             missing_topics := expected_topics;
             recommendation :=
               "Add " +:+ lang +:+ " language support with rules covering "
               +:+ Py.join ", " expected_topics |} ]
    | docs =>
        omap (λ expected,
                if topic_found expected (union_topics docs) then None
                else Some
                  {| gap_category := "language/" +:+ lang;
                     missing_topics := [expected];
                     recommendation :=
                       "Add languages/" +:+ lang +:+ "/" +:+ expected
                       +:+ ".md" |})
             expected_topics
    end.
Proof.
  intros Hin.
  assert (filter (λ g, gap_category g = "language/" +:+ lang)
                 (_find_gaps analyses)
          = language_gaps (group_by_language analyses) lang expected_topics)
    as ->.
  { unfold _find_gaps. rewrite filter_app, filter_base_gaps, app_nil_l.
    unfold expected_language in *.
    rewrite !fmap_cons, fmap_nil. cbn [mjoin list_join fst snd].
    rewrite !filter_app, !filter_language_gaps.
    repeat (apply elem_of_cons in Hin as [[= -> ->]|Hin];
            [by rewrite ?app_nil_r|]).
    by apply elem_of_nil in Hin. }
  unfold language_gaps. rewrite group_by_language_lookup.
  by destruct (Views.language_docs analyses lang).
Qed.

End gap_properties.

(** ** Summary and score *)

Section summary_properties.
Import MECE.

Lemma total_count_fresh (counts : gmap string nat) k n :
  counts !! k = None →
  Views.total_count (<[k:=n]> counts) = n + Views.total_count counts.
Proof.
  intros Hk. unfold Views.total_count.
  rewrite map_fold_insert_L; [done| |done]. intros. lia.
Qed.

Lemma total_count_increment (counts : gmap string nat) k :
  Views.total_count (<[k := default 0 (counts !! k) + 1]> counts)
  = Views.total_count counts + 1.
Proof.
  destruct (counts !! k) as [n|] eqn:Hk; simpl.
  - rewrite <- (insert_delete_id counts k n Hk) at 2.
    rewrite <- insert_delete_eq.
    rewrite !total_count_fresh by apply lookup_delete_eq. lia.
  - rewrite total_count_fresh by done. lia.
Qed.

(** X22: the counts of [by_category] add up to [total_files]: each profile
    is counted once, under the part of its category before the first
    slash. *)
Theorem by_category_total `{PyFloat} analyses overlaps gaps :
  Views.total_count (by_category (_generate_summary analyses overlaps gaps))
  = total_files (_generate_summary analyses overlaps gaps).
Proof.
  simpl. unfold count_by_category.
  assert (∀ acc : gmap string nat,
    Views.total_count
      (foldl (λ counts analysis,
                let base_category :=
                  default "" (head (Py.split_on "/" (category analysis))) in
                <[ base_category
                   := default 0 (counts !! base_category) + 1 ]> counts)
             acc analyses)
    = Views.total_count acc + length analyses) as Hgen.
  { induction analyses as [|a l IH]; intros acc; [simpl; lia|].
    cbn [foldl]. rewrite IH. cbn zeta.
    rewrite total_count_increment. simpl. lia. }
  rewrite Hgen. unfold Views.total_count. by rewrite map_fold_empty.
Qed.

(** X23: the score is [max(0, 100 - penalty)] with penalty
    [2*overlaps + 3*gaps], always between 0 and 100; its label is
    "Excellent" up to a penalty of 10, "Good" up to 30, "Fair" up to 50 and
    "Needs Improvement" above; more overlaps or gaps never raise it, and
    the number of files has no influence. *)
Theorem mece_score_bands overlaps gaps total_files total_files' :
  _calculate_mece_score overlaps gaps total_files
    = _calculate_mece_score overlaps gaps total_files' ∧
  (0 ≤ mece_score_value overlaps gaps ≤ 100)%Z ∧
  _calculate_mece_score overlaps gaps total_files
    = pretty (100 - Views.penalty overlaps gaps) +:+ "% - "
      +:+ (if Views.penalty overlaps gaps <=? 10 then "Excellent"
           else if Views.penalty overlaps gaps <=? 30 then "Good"
           else if Views.penalty overlaps gaps <=? 50 then "Fair"
           else "Needs Improvement") ∧
  (∀ overlaps' gaps', overlaps ≤ overlaps' → gaps ≤ gaps' →
     (mece_score_value overlaps' gaps' ≤ mece_score_value overlaps gaps)%Z).
Proof.
  split; [done|]. unfold mece_score_value, Views.penalty.
  split; [lia|]. split; [|intros; lia].
  unfold _calculate_mece_score, mece_score_value, mece_label.
  assert (Z.max 0 (100 - (Z.of_nat overlaps * 2 + Z.of_nat gaps * 3))
          = Z.of_nat (100 - (2 * overlaps + 3 * gaps))) as -> by lia.
  assert (pretty (Z.of_nat (100 - (2 * overlaps + 3 * gaps)))
          = pretty (100 - (2 * overlaps + 3 * gaps))) as ->.
  { by destruct (100 - (2 * overlaps + 3 * gaps)). }
  repeat f_equal.
  destruct (2 * overlaps + 3 * gaps <=? 10) eqn:H10;
    [apply Nat.leb_le in H10|apply Nat.leb_gt in H10].
  { rewrite (proj2 (Z.leb_le _ _)) by lia. done. }
  rewrite (proj2 (Z.leb_gt _ _)) by lia.
  destruct (2 * overlaps + 3 * gaps <=? 30) eqn:H30;
    [apply Nat.leb_le in H30|apply Nat.leb_gt in H30].
  { rewrite (proj2 (Z.leb_le _ _)) by lia. done. }
  rewrite (proj2 (Z.leb_gt _ _)) by lia.
  destruct (2 * overlaps + 3 * gaps <=? 50) eqn:H50;
    [apply Nat.leb_le in H50|apply Nat.leb_gt in H50].
  { rewrite (proj2 (Z.leb_le _ _)) by lia. done. }
  rewrite (proj2 (Z.leb_gt _ _)) by lia. done.
Qed.

End summary_properties.

(** ** Context detection *)

Section context_properties.
Import Core.

Lemma elem_of_if_singleton (b : bool) (x y : string) :
  y ∈ (if b then [x] else []) ↔ b = true ∧ y = x.
Proof.
  destruct b.
  - rewrite list_elem_of_singleton. intuition.
  - rewrite elem_of_nil. intuition discriminate.
Qed.

Lemma elem_of_if_nested (p t : bool) (x1 x2 y : string) :
  y ∈ (if p then (if t then [x1] else [x2]) else [])
  ↔ p = true ∧ ((t = true ∧ y = x1) ∨ (t = false ∧ y = x2)).
Proof.
  destruct p, t; rewrite ?list_elem_of_singleton, ?elem_of_nil;
    intuition discriminate.
Qed.

Lemma detect_languages_elem (repo : repository) (y : string) :
  y ∈ detect_languages repo ↔
    ((path_exists repo "requirements.txt" = true
      ∨ path_exists repo "pyproject.toml" = true) ∧ y = "python") ∨
    (path_exists repo "package.json" = true ∧
     ((path_exists repo "tsconfig.json" = true ∧ y = "typescript") ∨
      (path_exists repo "tsconfig.json" = false ∧ y = "javascript"))) ∨
    (path_exists repo "go.mod" = true ∧ y = "go") ∨
    ((path_exists repo "pom.xml" = true
      ∨ path_exists repo "build.gradle" = true) ∧ y = "java") ∨
    (path_exists repo "Cargo.toml" = true ∧ y = "rust").
Proof.
  unfold detect_languages.
  rewrite !elem_of_app, !elem_of_if_singleton, elem_of_if_nested,
    !orb_true_iff. reflexivity.
Qed.

Lemma detect_languages_NoDup (repo : repository) :
  NoDup (detect_languages repo).
Proof.
  unfold detect_languages.
  destruct (_ || _), (path_exists repo "package.json"),
    (path_exists repo "tsconfig.json"), (path_exists repo "go.mod"),
    (_ || _), (path_exists repo "Cargo.toml");
    apply (bool_decide_unpack _); vm_compute; exact I.
Qed.

(** X24: what [_detect_context] returns. Each language is detected by
    its own marker files, "typescript" and "javascript" exclude each other
    and no language is listed twice; the maturity is "production" exactly
    with a CI workflow directory and a [Dockerfile], "pre-production" with
    the workflow directory alone, "mvp" without it; no framework is ever
    detected. *)
Theorem detect_context_markers (repo : repository) :
  let context := _detect_context repo in
  let present := path_exists repo in
  ("python" ∈ languages context
     ↔ present "requirements.txt" = true ∨ present "pyproject.toml" = true) ∧
  ("typescript" ∈ languages context
     ↔ present "package.json" = true ∧ present "tsconfig.json" = true) ∧
  ("javascript" ∈ languages context
     ↔ present "package.json" = true ∧ present "tsconfig.json" = false) ∧
  ("go" ∈ languages context ↔ present "go.mod" = true) ∧
  ("java" ∈ languages context
     ↔ present "pom.xml" = true ∨ present "build.gradle" = true) ∧
  ("rust" ∈ languages context ↔ present "Cargo.toml" = true) ∧
  NoDup (languages context) ∧
  frameworks context = [] ∧
  ("aws" ∈ cloud_providers context ↔ present "terraform" = true) ∧
  ("vercel" ∈ cloud_providers context ↔ present "vercel.json" = true) ∧
  (maturity context = "production"
     ↔ present ".github/workflows" = true ∧ present "Dockerfile" = true) ∧
  (maturity context = "pre-production"
     ↔ present ".github/workflows" = true ∧ present "Dockerfile" = false) ∧
  (maturity context = "mvp" ↔ present ".github/workflows" = false).
Proof.
  cbn zeta. unfold _detect_context.
  cbn [languages frameworks cloud_providers maturity].
  split; [rewrite detect_languages_elem; intuition discriminate|].
  split; [rewrite detect_languages_elem; intuition discriminate|].
  split; [rewrite detect_languages_elem; intuition discriminate|].
  split; [rewrite detect_languages_elem; intuition discriminate|].
  split; [rewrite detect_languages_elem; intuition discriminate|].
  split; [rewrite detect_languages_elem; intuition discriminate|].
  split; [apply detect_languages_NoDup|].
  split; [reflexivity|].
  unfold detect_cloud, detect_maturity.
  split; [rewrite !elem_of_app, !elem_of_if_singleton; intuition discriminate|].
  split; [rewrite !elem_of_app, !elem_of_if_singleton; intuition discriminate|].
  destruct (path_exists repo ".github/workflows"),
    (path_exists repo "Dockerfile"); intuition discriminate.
Qed.

End context_properties.

(** ** The audit pipeline *)

Section run_properties.
Import RulesParser Core.
Context `{PyFloat} `{PySetOrder} `{PyRegex}.

Lemma in_list_depth (config : AuditConfig) :
  Py.in_list (depth config) ["standard"; "full"] = true
  ↔ depth config = "standard" ∨ depth config = "full".
Proof.
  unfold Py.in_list. rewrite bool_decide_eq_true.
  rewrite !elem_of_cons, elem_of_nil. tauto.
Qed.




Lemma rules_report_Ok repo context rules :
  _generate_rules_report repo context = Ok rules →
  generate_selection_report (index_file repo) (languages context)
    (frameworks context) (cloud_providers context) (maturity context)
  = Ok (report rules).
Proof.
  unfold _generate_rules_report.
  by intros (r & Hr & [= <-])%bind_Ok.
Qed.

Lemma run_Ok repo config now res :
  run repo config now = Ok res →
  context res = _detect_context repo ∧
  timestamp res = now ∧
  _generate_rules_report repo (_detect_context repo)
  = Ok (rules_selection_report res).
Proof.
  unfold run.
  by intros (rules & Hrules & (mece_map & _ & [= <-])%bind_Ok)%bind_Ok.
Qed.

(** X25: the selection that [run] reports is the one computed from the
    detected context, and since [_detect_context] never fills the list of
    frameworks, no framework rule is ever selected by [run], whatever the
    catalog holds. *)
Theorem run_selects_no_framework_rule repo config now res :
  run repo config now = Ok res →
  let selection := report (rules_selection_report res) in
  generate_selection_report (index_file repo) (languages (context res))
    (frameworks (context res)) (cloud_providers (context res))
    (maturity (context res)) = Ok selection ∧
  context res = _detect_context repo ∧
  Forall (λ rule, category rule ≠ "framework") (selected_rules selection) ∧
  breakdown_framework (breakdown selection) = 0.
Proof.
  intros (Hctx & _ & Hrules%rules_report_Ok)%run_Ok. cbn zeta.
  rewrite Hctx. split; [done|]. split; [done|].
  apply selection_report_Ok in Hrules
    as (all_rules & Hparse & Hsel & _ & _ & _ & Hbreak).
  destruct (parse_index_categories _ _ Hparse) as (Hb & Hl & Hf & Hc).
  assert (filter (λ r, matches (framework r) [] = true)
            (framework_rules all_rules) = []) as Hnone.
  { apply filter_none. apply Forall_forall. intros r _.
    unfold matches, Py.in_list. by destruct (framework r). }
  cbn [frameworks _detect_context] in Hsel. rewrite Hnone in Hsel.
  set (sb := filter _ (base_rules all_rules)) in Hsel.
  set (sl := filter _ (language_rules all_rules)) in Hsel.
  set (sc := filter _ (cloud_rules all_rules)) in Hsel.
  assert (Forall (λ r, category r = "base") sb) as Hsb
    by by apply Forall_filter.
  assert (Forall (λ r, category r = "language") sl) as Hsl
    by by apply Forall_filter.
  assert (Forall (λ r, category r = "cloud") sc) as Hsc
    by by apply Forall_filter.
  split.
  - rewrite Hsel, !Forall_app. repeat split; [| |done|].
    + eapply Forall_impl; [exact Hsb|]. intros r Hr. cbn beta in Hr.
      by rewrite Hr.
    + eapply Forall_impl; [exact Hsl|]. intros r Hr. cbn beta in Hr.
      by rewrite Hr.
    + eapply Forall_impl; [exact Hsc|]. intros r Hr. cbn beta in Hr.
      by rewrite Hr.
  - rewrite Hbreak. cbn [breakdown_framework]. rewrite Hsel.
    by destruct (breakdown_parts sb sl [] sc Hsb Hsl (Forall_nil_2 _) Hsc)
      as (_ & _ & Hfw & _).
Qed.

(** X26: at a depth other than "standard" and "full", [run] reads neither
    the four category directories nor [archive]: another corpus and
    another archive give the same outcome, result or exception. *)
Theorem run_quick_ignores_corpus repo config now corpus archive :
  depth config ≠ "standard" → depth config ≠ "full" →
  run (Views.with_corpus repo corpus archive) config now
  = run repo config now.
Proof.
  intros Hs Hf. unfold run.
  assert (Py.in_list (depth config) ["standard"; "full"] = false) as ->.
  { apply not_true_is_false. rewrite in_list_depth. tauto. }
  reflexivity.
Qed.


End run_properties.

(** ** The summary of AGENTS.md *)

Section agents_properties.
Import RulesParser.
Context `{PyRegex} `{PySetOrder}.

(** X28: in the summary of [AGENTS.md], the number of references is the
    number of links found, and the languages covered are the languages of
    the fenced code samples, each listed once. *)
Theorem agents_md_languages (agents_file : option string) :
  let data := parse_agents_md agents_file in
  total_references data = length (agents_rules data) ∧
  NoDup (languages_covered data) ∧
  (∀ lang, lang ∈ languages_covered data
           ↔ ∃ code, (lang, code) ∈ agents_patterns data).
Proof.
  cbn zeta. destruct agents_file as [content|]; simpl.
  - split; [done|]. split.
    + rewrite set_iter_perm. apply NoDup_elements.
    + intros lang. rewrite set_iter_perm, elem_of_elements,
        elem_of_list_to_set, list_elem_of_fmap. split.
      * intros ([lang' code] & -> & Hin). by exists code.
      * intros [code Hin]. by exists (lang, code).
  - split; [done|]. split; [constructor|].
    intros lang. rewrite elem_of_nil. split; [done|].
    by intros [code ?%elem_of_nil].
Qed.

End agents_properties.

(** ** The properties at concrete inputs, on the reference runtime *)

Import RulesParser MECE Core.
#[local] Existing Instances Exact.floats Exact.set_order Exact.regex.


Lemma parse_index_sub_keys_witness :
  ∃ all_rules,
    parse_index (Some Samples.small_index) = Ok all_rules ∧
    Forall (λ r, RulesParser.category r = "base" ∧ language r = None ∧
                 framework r = None ∧ cloud_provider r = None)
           (base_rules all_rules) ∧
    Forall (λ r, RulesParser.category r = "language" ∧
                 is_Some (language r) ∧
                 framework r = None ∧ cloud_provider r = None)
           (language_rules all_rules) ∧
    Forall (λ r, RulesParser.category r = "framework" ∧ language r = None ∧
                 is_Some (framework r) ∧ cloud_provider r = None)
           (framework_rules all_rules) ∧
    Forall (λ r, RulesParser.category r = "cloud" ∧ language r = None ∧
                 framework r = None ∧ is_Some (cloud_provider r))
           (cloud_rules all_rules).
Proof.
  exists_value
    (parse_index (Some Samples.small_index)).
  split; [vm_compute; reflexivity|].
  apply (parse_index_sub_keys (Some Samples.small_index)).
  vm_compute. reflexivity.
Defined.

Lemma selected_iff_witness :
  ∃ r,
    generate_selection_report (Some Samples.small_index)
      ["python"] [] ["aws"] "mvp" = Ok r ∧
    ∃ all_rules,
      parse_index (Some Samples.small_index) = Ok all_rules ∧
      (Cases.python_rule ∈ selected_rules r ↔
         (Cases.python_rule ∈ base_rules all_rules ∧
          Py.path_stem (path Cases.python_rule) ∈ critical_base) ∨
         (Cases.python_rule ∈ language_rules all_rules ∧
          ∃ lang, language Cases.python_rule = Some lang
                  ∧ lang ∈ ["python"]) ∨
         (Cases.python_rule ∈ framework_rules all_rules ∧
          ∃ fw, framework Cases.python_rule = Some fw ∧ fw ∈ []) ∨
         (Cases.python_rule ∈ cloud_rules all_rules ∧
          ∃ cloud, cloud_provider Cases.python_rule = Some cloud
                   ∧ cloud ∈ ["aws"])).
Proof.
  exists_value
    (generate_selection_report (Some Samples.small_index) ["python"] [] ["aws"] "mvp").
  split; [vm_compute; reflexivity|].
  apply (selected_iff (Some Samples.small_index) ["python"] [] ["aws"] "mvp"
           _ Cases.python_rule).
  vm_compute. reflexivity.
Defined.

Lemma selected_sublist_witness :
  ∃ r,
    generate_selection_report (Some Samples.small_index)
      ["python"] [] ["aws"] "mvp" = Ok r ∧
    ∃ all_rules,
      parse_index (Some Samples.small_index) = Ok all_rules ∧
      selected_rules r `sublist_of` loaded_rules all_rules.
Proof.
  exists_value
    (generate_selection_report (Some Samples.small_index) ["python"] [] ["aws"] "mvp").
  split; [vm_compute; reflexivity|].
  apply (selected_sublist (Some Samples.small_index) ["python"] [] ["aws"]
           "mvp").
  vm_compute. reflexivity.
Defined.

Lemma reasoning_follows_selection_witness :
  ∃ r,
    generate_selection_report (Some Samples.small_index)
      ["python"] [] ["aws"] "mvp" = Ok r ∧
    Forall2 (λ x item, reason_rule item = name x ∧
                       score item = Views.score_of (RulesParser.category x))
            (selected_rules r) (selection_reasoning r) ∧
    length (selection_reasoning r) = total_rules_selected r.
Proof.
  exists_value
    (generate_selection_report (Some Samples.small_index) ["python"] [] ["aws"] "mvp").
  split; [vm_compute; reflexivity|].
  apply (reasoning_follows_selection (Some Samples.small_index) ["python"]
           [] ["aws"] "mvp").
  vm_compute. reflexivity.
Defined.

Lemma selection_of_empty_catalog_witness :
  Views.selection_of
    <$> generate_selection_report (Some Cases.index_without_rules)
          ["python"] ["fastapi"] ["aws"] "production"
  = Ok (0, 0, 0%Z, "0%", [], [],
        {| breakdown_base := 0; breakdown_language := 0;
           breakdown_framework := 0; breakdown_cloud := 0 |}).
Proof.
  apply (selection_of_empty_catalog (Some Cases.index_without_rules)).
  reflexivity.
Defined.

Lemma available_counts_entries_witness :
  ∃ r,
    generate_selection_report (Some Samples.small_index)
      ["python"] [] ["aws"] "mvp" = Ok r ∧
    total_rules_available r = length (index_entries Samples.small_index).
Proof.
  exists_value
    (generate_selection_report (Some Samples.small_index) ["python"] [] ["aws"] "mvp").
  split; [vm_compute; reflexivity|].
  apply (available_counts_entries Samples.small_index ["python"] [] ["aws"]
           "mvp").
  vm_compute. reflexivity.
Defined.

Lemma default_token_total_witness :
  ∃ r,
    generate_selection_report (Some Samples.small_index)
      ["python"] [] ["aws"] "mvp" = Ok r ∧
    total_estimated_tokens r =
      (800 * Z.of_nat (breakdown_base (breakdown r))
       + 1000 * Z.of_nat (breakdown_language (breakdown r))
       + 1200 * Z.of_nat (breakdown_framework (breakdown r))
       + 1400 * Z.of_nat (breakdown_cloud (breakdown r)))%Z.
Proof.
  exists_value
    (generate_selection_report (Some Samples.small_index) ["python"] [] ["aws"] "mvp").
  split; [vm_compute; reflexivity|].
  apply (default_token_total (Some Samples.small_index) ["python"] []
           ["aws"] "mvp").
  - intros index [= <-]. vm_compute. repeat constructor.
  - vm_compute. reflexivity.
Defined.

Lemma topics_from_file_name_witness :
  _extract_topics_from_path
    (".claude/rules/base" +:+ "/" +:+ "security-testing.md")
  = _extract_topics_from_path "security-testing.md".
Proof.
  apply (topics_from_file_name ".claude/rules/base" "security-testing.md").
  - reflexivity.
  - discriminate.
  - discriminate.
Defined.

Lemma analyze_all_files_profiles_witness :
  ∃ analyses,
    _analyze_all_files Samples.corpus_two_base = Ok analyses ∧
    (λ a, (file_path a, MECE.category a)) <$> analyses
      = Views.corpus_layout Samples.corpus_two_base ∧
    length analyses = length (corpus_files Samples.corpus_two_base).
Proof.
  exists_value
    (_analyze_all_files Samples.corpus_two_base).
  split; [vm_compute; reflexivity|].
  apply (analyze_all_files_profiles Samples.corpus_two_base).
  vm_compute. reflexivity.
Defined.


Lemma extract_keywords_lower_witness :
  "pytest" ∈ _extract_keywords Samples.keyword_text ∧
  Py.lower "pytest" = "pytest".
Proof.
  assert ("pytest" ∈ _extract_keywords Samples.keyword_text) as Hin
    by (apply (bool_decide_unpack _); vm_compute; exact I).
  split; [exact Hin|].
  apply (extract_keywords_lower Samples.keyword_text "pytest" Hin).
Defined.

Lemma compare_pair_skipped_witness :
  compare_pair Samples.testing_doc Samples.python_testing_doc = Ok None.
Proof.
  apply (compare_pair_skipped Samples.testing_doc Samples.python_testing_doc).
  left. discriminate.
Defined.

Lemma find_overlaps_reports_witness :
  ∃ overlaps r,
    _find_overlaps
      [Samples.testing_doc; Samples.python_testing_doc; Samples.security_doc]
    = Ok overlaps ∧
    r ∈ overlaps ∧
    ∃ a b,
      a ∈ [Samples.testing_doc; Samples.python_testing_doc;
           Samples.security_doc] ∧
      b ∈ [Samples.testing_doc; Samples.python_testing_doc;
           Samples.security_doc] ∧
      file1 r = file_path a ∧ file2 r = file_path b ∧
      (3 < size (keywords a ∩ keywords b)
       ∨ 2 < size (MECE.topics a ∩ MECE.topics b)) ∧
      length (common_keywords r) ≤ 10 ∧ length (common_topics r) ≤ 5 ∧
      (∀ k, k ∈ common_keywords r → k ∈ keywords a ∧ k ∈ keywords b) ∧
      (∀ t, t ∈ common_topics r → t ∈ MECE.topics a ∧ t ∈ MECE.topics b).
Proof.
  eexists _, _. split; [reflexivity|]. split; [left|].
  eapply (find_overlaps_reports
            [Samples.testing_doc; Samples.python_testing_doc;
             Samples.security_doc]).
  - reflexivity.
  - left.
Defined.

Lemma find_overlaps_descending_witness :
  ∃ overlaps,
    _find_overlaps
      [Samples.testing_doc; Samples.python_testing_doc; Samples.security_doc]
    = Ok overlaps ∧
    Views.descending overlaps.
Proof.
  eexists. split; [reflexivity|].
  apply (find_overlaps_descending
           [Samples.testing_doc; Samples.python_testing_doc;
            Samples.security_doc]).
  - intros x y. cbn [float_gtb Exact.floats].
    rewrite !negb_true_iff, negb_false_iff.
    intros Hxy. apply Qle_bool_iff.
    destruct (Qle_bool x y) eqn:Hle; [done|].
    apply Qlt_le_weak, Qnot_le_lt. intros Hle'%Qle_bool_iff. congruence.
  - reflexivity.
Defined.

Lemma analyze_numbers_witness :
  ∃ res,
    analyze Samples.corpus_two_base = Ok res ∧
    files_analyzed res = length (corpus_files Samples.corpus_two_base) ∧
    MECE.total_files (analysis_summary res) = files_analyzed res ∧
    length (overlap_reports res) = 10 `min` total_overlaps res ∧
    2 * total_overlaps res ≤ files_analyzed res * (files_analyzed res - 1) ∧
    high_overlap_count (analysis_summary res) ≤ total_overlaps res ∧
    total_gaps res = length (gap_reports res) ∧
    total_gaps res ≤ 29 ∧
    critical_gaps (analysis_summary res) ≤ 9.
Proof.
  exists_value
    (analyze Samples.corpus_two_base).
  split; [vm_compute; reflexivity|].
  apply (analyze_numbers Samples.corpus_two_base).
  vm_compute. reflexivity.
Defined.

Lemma base_topic_covered_witness :
  ∃ g,
    g ∈ _find_gaps [Samples.security_doc] ∧
    gap_category g = "base" ∧
    missing_topics g ≠ ["security"].
Proof.
  eexists. split; [vm_compute; left|]. split; [reflexivity|].
  apply (base_topic_covered [Samples.security_doc] Samples.security_doc
           "security" "security").
  - left.
  - reflexivity.
  - apply (bool_decide_unpack _). vm_compute. exact I.
  - vm_compute. reflexivity.
  - vm_compute. left.
  - reflexivity.
Defined.

Lemma language_gaps_of_witness :
  ∃ gaps,
    filter (λ g, gap_category g = "language/" +:+ "python")
           (_find_gaps [Samples.python_testing_doc]) = gaps ∧
    missing_topics <$> gaps = [["coding-standards"]; ["async"]; ["packaging"]].
Proof.
  eexists. split.
  - apply (language_gaps_of [Samples.python_testing_doc] "python"
             ["coding-standards"; "testing"; "async"; "packaging"]).
    left.
  - vm_compute. reflexivity.
Defined.

Lemma run_selects_no_framework_rule_witness :
  ∃ res,
    run Samples.typescript_project (Samples.config_of_depth "quick")
      "2024-05-01T09:30:00" = Ok res ∧
    generate_selection_report (index_file Samples.typescript_project)
      (languages (context res)) (frameworks (context res))
      (cloud_providers (context res)) (Core.maturity (context res))
    = Ok (report (rules_selection_report res)) ∧
    context res = _detect_context Samples.typescript_project ∧
    Forall (λ rule, RulesParser.category rule ≠ "framework")
           (selected_rules (report (rules_selection_report res))) ∧
    breakdown_framework (breakdown (report (rules_selection_report res))) = 0.
Proof.
  exists_value
    (run Samples.typescript_project (Samples.config_of_depth "quick") "2024-05-01T09:30:00").
  split; [vm_compute; reflexivity|].
  apply (run_selects_no_framework_rule Samples.typescript_project
           (Samples.config_of_depth "quick") "2024-05-01T09:30:00").
  vm_compute. reflexivity.
Defined.

Lemma run_quick_ignores_corpus_witness :
  run (Views.with_corpus Samples.python_project
         Samples.corpus_with_unreadable (Some ["old-notes.md"]))
      (Samples.config_of_depth "quick") "2024-05-01T09:30:00"
  = run Samples.python_project (Samples.config_of_depth "quick")
      "2024-05-01T09:30:00".
Proof.
  apply (run_quick_ignores_corpus Samples.python_project
           (Samples.config_of_depth "quick") "2024-05-01T09:30:00"
           Samples.corpus_with_unreadable (Some ["old-notes.md"]));
    discriminate.
Defined.
